(** * libcloud.common.openstack: authentication and service catalog

    A shallow embedding of [libcloud/common/openstack.py]:
    the auth response decoder ([OpenStackAuthResponse.parse_body]), the auth
    client ([OpenStackAuthConnection]), the service catalog
    ([OpenStackServiceCatalog]), the base connection
    ([OpenStackBaseConnection]) and the driver argument adapter
    ([OpenStackDriverMixin]).

    Python values are an inductive type [pyval]; a [dict] is an association
    list in insertion order; a raised exception is the [Err] case of
    [Result]; the attributes of [self] are a record threaded through the
    methods that assign them. *)

From Stdlib Require Import ZArith List String Ascii Bool Lia DecimalString.
From Stdlib Require Strings.Byte.
Import ListNotations.

Set Implicit Arguments.
Set Warnings "-register-all".

Local Open Scope string_scope.
Local Open Scope list_scope.

(* ===================================================================== *)
(** ** Python values *)
(* ===================================================================== *)

(** The values that travel through this module: [None], booleans, integers,
    strings, lists, dicts with string keys (decoded JSON objects, keyword
    arguments) and opaque objects compared by identity.  JSON numbers with
    a fraction do not occur in the documents read here and are left out. *)
Inductive pyval : Type :=
| PyNone
| PyBool (b : bool)
| PyInt (n : Z)
| PyStr (s : string)
| PyList (l : list pyval)
| PyDict (d : list (string * pyval))
| PyObj (id : nat).

(** [bool(v)]: the truth value that [if v], [not v] and [a or b] test. *)
Definition truthy (v : pyval) : bool :=
  match v with
  | PyNone => false
  | PyBool b => b
  | PyInt n => negb (n =? 0)%Z
  | PyStr s => negb (s =? "")
  | PyList l => match l with [] => false | _ => true end
  | PyDict d => match d with [] => false | _ => true end
  | PyObj _ => true
  end.

(** [v is None] *)
Definition is_None (v : pyval) : bool :=
  match v with PyNone => true | _ => false end.

(** Hashable values as dictionary keys.  Python looks keys up by [hash] and
    [==]: [True] and [1] (and [False] and [0]) are the same key. *)
Inductive pykey : Type :=
| KNone
| KInt (n : Z)
| KStr (s : string)
| KObj (id : nat).

Definition pykey_eqb (a b : pykey) : bool :=
  match a, b with
  | KNone, KNone => true
  | KInt n, KInt m => (n =? m)%Z
  | KStr s, KStr t => (s =? t)
  | KObj i, KObj j => (i =? j)%nat
  | _, _ => false
  end.

(* ===================================================================== *)
(** ** Exceptions *)
(* ===================================================================== *)

(** The [body] argument of [MalformedResponseError]: absent, a text, or the
    exception object that was caught. *)
Inductive errbody : Type :=
| BodyNone
| BodyText (s : string)
| BodyCaughtJSON                 (* the exception raised by json.loads *)
| BodyCaughtKeyError (k : string).

Inductive exn : Type :=
| LibcloudError (value : string)
| InvalidCredsError
| MalformedResponseError (value : string) (body : errbody)
| PyKeyError (k : string)
| PyTypeError
| PyAttributeError
| PyIndexError
| PyUnboundLocalError
| ParseError                     (* libcloud.utils.iso8601.ParseError *)
| TransportError (reason : string).

Inductive Result (A : Type) : Type :=
| Ok (a : A)
| Err (e : exn).
Arguments Ok {A} a.
Arguments Err {A} e.

Definition bind {A B} (r : Result A) (k : A -> Result B) : Result B :=
  match r with
  | Ok a => k a
  | Err e => Err e
  end.

Declare Scope result_scope.
Delimit Scope result_scope with result.
Notation "x <- r ;; k" := (bind r (fun x => k))
  (at level 100, r at next level, right associativity) : result_scope.
Local Open Scope result_scope.

(** [for x in xs: body], the loop state threaded through; an exception in
    the body leaves the loop. *)
Fixpoint for_each {A S} (xs : list A) (body : A -> S -> Result S) (s : S)
  : Result S :=
  match xs with
  | [] => Ok s
  | x :: xs' => s' <- body x s ;; for_each xs' body s'
  end.

(* ===================================================================== *)
(** ** Dictionaries *)
(* ===================================================================== *)

(** Key types come with the boolean equality that dict lookup uses. *)
Class KeyEq (K : Type) : Type := { keqb : K -> K -> bool }.

#[export] Instance KeyEq_string : KeyEq string := {| keqb := String.eqb |}.
#[export] Instance KeyEq_pykey : KeyEq pykey := {| keqb := pykey_eqb |}.

Section Dict.
Context {K V : Type} `{KeyEq K}.

  (** A dict in insertion order.  A key is read through its first binding;
      the dicts built by [dset] from [[]] bind every key once. *)
Definition dict : Type := list (K * V).

  (** [d.get(k)] as an option: [None] when [k not in d]. *)
Fixpoint dget (d : dict) (k : K) : option V :=
    match d with
    | [] => None
    | (k', v) :: d' => if keqb k' k then Some v else dget d' k
    end.

  (** [k in d] *)
Definition dmem (d : dict) (k : K) : bool :=
    match dget d k with Some _ => true | None => false end.

  (** [d.get(k, default)] *)
Definition getd (d : dict) (k : K) (default : V) : V :=
    match dget d k with Some v => v | None => default end.

  (** [d[k] = v]: an existing key keeps its place, a new one goes last. *)
Fixpoint dset (d : dict) (k : K) (v : V) : dict :=
    match d with
    | [] => [(k, v)]
    | (k', v') :: d' =>
        if keqb k' k then (k', v) :: d' else (k', v') :: dset d' k v
    end.

  (** [d.items()] of a dict given by its bindings: each key once, at its
      first binding. *)
Fixpoint items_from (seen : list K) (d : dict) : list (K * V) :=
    match d with
    | [] => []
    | (k, v) :: d' =>
        if existsb (keqb k) seen then items_from seen d'
        else (k, v) :: items_from (k :: seen) d'
    end.

Definition items (d : dict) : list (K * V) := items_from [] d.

Definition keys (d : dict) : list K := map fst d.
End Dict.
Arguments dict : clear implicits.

(* ===================================================================== *)
(** ** Operations on Python values *)
(* ===================================================================== *)

(** [hash(v)]: lists and dicts are unhashable. *)
Definition to_key (v : pyval) : Result pykey :=
  match v with
  | PyNone => Ok KNone
  | PyBool b => Ok (KInt (if b then 1 else 0))
  | PyInt n => Ok (KInt n)
  | PyStr s => Ok (KStr s)
  | PyObj i => Ok (KObj i)
  | PyList _ | PyDict _ => Err PyTypeError
  end.

(** [v[k]] for a string [k]: only a dict is subscriptable by a string. *)
Definition py_getitem (v : pyval) (k : string) : Result pyval :=
  match v with
  | PyDict d =>
      match dget d k with
      | Some x => Ok x
      | None => Err (PyKeyError k)
      end
  | _ => Err PyTypeError
  end.

(** [v.get(k, default)]: only a dict has [get]. *)
Definition py_get (v : pyval) (k : string) (default : pyval) : Result pyval :=
  match v with
  | PyDict d => Ok (getd d k default)
  | _ => Err PyAttributeError
  end.

(** [v.items()] *)
Definition py_items (v : pyval) : Result (list (string * pyval)) :=
  match v with
  | PyDict d => Ok (items d)
  | _ => Err PyAttributeError
  end.

Fixpoint chars (s : string) : list pyval :=
  match s with
  | EmptyString => []
  | String c s' => PyStr (String c EmptyString) :: chars s'
  end.

(** [iter(v)]: a list yields its elements, a dict its keys, a string its
    characters; nothing else here is iterable. *)
Definition py_iter (v : pyval) : Result (list pyval) :=
  match v with
  | PyList l => Ok l
  | PyDict d => Ok (map (fun kv => PyStr (fst kv)) (items d))
  | PyStr s => Ok (chars s)
  | _ => Err PyTypeError
  end.

(** [sub in s] on strings. *)
Fixpoint str_contains (sub s : string) : bool :=
  prefix sub s ||
  match s with
  | EmptyString => false
  | String _ s' => str_contains sub s'
  end.

(** ['%s' % n] for an integer. *)
Definition str_of_int (n : Z) : string :=
  NilZero.string_of_int (Z.to_int n).

Fixpoint spaces (n : nat) : string :=
  match n with
  | O => ""
  | S n' => String " " (spaces n')
  end.

(** [k in v] for a string [k]: key of a dict, substring of a string,
    element of a list. *)
Definition py_contains (k : string) (v : pyval) : Result bool :=
  match v with
  | PyDict d => Ok (dmem d k)
  | PyStr s => Ok (str_contains k s)
  | PyList l =>
      Ok (existsb (fun x => match x with PyStr s => s =? k | _ => false end) l)
  | _ => Err PyTypeError
  end.

(** [l[0]] on a list. *)
Definition index0 {A} (l : list A) : Result A :=
  match l with
  | x :: _ => Ok x
  | [] => Err PyIndexError
  end.

Definition dquote : string := String (ascii_of_nat 34) "".

(* ===================================================================== *)
(** ** Module constants *)
(* ===================================================================== *)

Definition AUTH_API_VERSION : string := "1.1".

(** Auth versions which contain token expiration information. *)
Definition AUTH_VERSIONS_WITH_EXPIRES : list string :=
  ["1.1"; "2.0"; "2.0_apikey"; "2.0_password"].

(** Seconds subtracted from the token expiry before the validity test. *)
Definition AUTH_TOKEN_EXPIRES_GRACE_SECONDS : Z := 5.

(* ===================================================================== *)
(** ** OpenStackServiceCatalog *)
(* ===================================================================== *)

Module OpenStackServiceCatalog.

  (** region -> endpoints; the endpoint values are kept as they came. *)
Definition regions : Type := dict pykey (list pyval).

  (** [_service_catalog]: name -> region -> endpoints for the 1.x
      versions, type -> name -> region -> endpoints for 2.0. *)
Inductive index : Type :=
  | IndexV1 (d : dict pykey regions)
  | IndexV2 (d : dict pykey (dict pykey regions)).

Record t : Type := {
    _auth_version : string;
    _service_catalog : index
  }.

  (** The body of the endpoint loops:
      [if region not in catalog: catalog[region] = []]
      [catalog[region].append(endpoint)] *)
Definition append_endpoint (catalog : regions) (region : pykey)
             (endpoint : pyval) : regions :=
    let catalog :=
      if dmem catalog region then catalog else dset catalog region [] in
    dset catalog region (getd catalog region [] ++ [endpoint]).

  (** The body of [for endpoint in endpoints] in [_parse_auth_v1]. *)
Definition v1_endpoint_body (service : string) (endpoint : pyval)
             (sc : dict pykey regions) : Result (dict pykey regions) :=
    region <- py_get endpoint "region" PyNone ;;
    region <- to_key region ;;
    let catalog := getd sc (KStr service) [] in
    Ok (dset sc (KStr service) (append_endpoint catalog region endpoint)).

  (** The body of [for service, endpoints in service_catalog.items()]. *)
Definition v1_service_body (item : string * pyval)
             (sc : dict pykey regions) : Result (dict pykey regions) :=
    let '(service, endpoints) := item in
    let sc := dset sc (KStr service) [] in
    eps <- py_iter endpoints ;;
    for_each eps (v1_endpoint_body service) sc.

Definition _parse_auth_v1 (service_catalog : pyval)
             (sc : dict pykey regions) : Result (dict pykey regions) :=
    its <- py_items service_catalog ;;
    for_each its v1_service_body sc.

  (** The body of [for endpoint in service.get('endpoints', [])] in
      [_parse_auth_v2]. *)
Definition v2_endpoint_body (service_type service_name : pykey)
             (endpoint : pyval) (sc : dict pykey (dict pykey regions))
    : Result (dict pykey (dict pykey regions)) :=
    region <- py_get endpoint "region" PyNone ;;
    let catalog := getd (getd sc service_type []) service_name [] in
    region <- to_key region ;;
    Ok (dset sc service_type
             (dset (getd sc service_type []) service_name
                   (append_endpoint catalog region endpoint))).

  (** The body of [for service in service_catalog]. *)
Definition v2_service_body (service : pyval)
             (sc : dict pykey (dict pykey regions))
    : Result (dict pykey (dict pykey regions)) :=
    service_type <- py_getitem service "type" ;;
    service_name <- py_get service "name" PyNone ;;
    service_type <- to_key service_type ;;
    let sc :=
      if dmem sc service_type then sc else dset sc service_type [] in
    service_name <- to_key service_name ;;
    let sc :=
      if dmem (getd sc service_type []) service_name then sc
      else dset sc service_type
                (dset (getd sc service_type []) service_name []) in
    endpoints <- py_get service "endpoints" (PyList []) ;;
    eps <- py_iter endpoints ;;
    for_each eps (v2_endpoint_body service_type service_name) sc.

Definition _parse_auth_v2 (service_catalog : pyval)
             (sc : dict pykey (dict pykey regions))
    : Result (dict pykey (dict pykey regions)) :=
    services <- py_iter service_catalog ;;
    for_each services v2_service_body sc.

Definition __init__ (service_catalog : pyval)
             (ex_force_auth_version : option string) : Result t :=
    let auth_version :=
      match ex_force_auth_version with
      | Some v => if v =? "" then AUTH_API_VERSION else v
      | None => AUTH_API_VERSION
      end in
    if str_contains "2.0" auth_version then
      sc <- _parse_auth_v2 service_catalog [] ;;
      Ok {| _auth_version := auth_version; _service_catalog := IndexV2 sc |}
    else if str_contains "1.1" auth_version || str_contains "1.0" auth_version
    then
      sc <- _parse_auth_v1 service_catalog [] ;;
      Ok {| _auth_version := auth_version; _service_catalog := IndexV1 sc |}
    else
      Err (LibcloudError ("auth version " ++ dquote ++ auth_version
                            ++ dquote ++ " not supported")).

Definition get_catalog (self : t) : index := _service_catalog self.

  (** The lookup both [get_endpoints] and [get_endpoint] start with.  The
      index has the shape its version gave it at construction; the other
      shape has no [get] at that depth. *)
Definition select_regions (self : t) (service_type name : pykey)
    : Result regions :=
    if str_contains "2.0" (_auth_version self) then
      match _service_catalog self with
      | IndexV2 sc => Ok (getd (getd sc service_type []) name [])
      | IndexV1 _ => Err PyAttributeError
      end
    else if str_contains "1.1" (_auth_version self)
            || str_contains "1.0" (_auth_version self) then
      match _service_catalog self with
      | IndexV1 sc => Ok (getd sc name [])
      | IndexV2 _ => Err PyAttributeError
      end
    else Err PyUnboundLocalError.

Definition get_endpoints (self : t) (service_type name : pykey)
    : Result (list pyval) :=
    endpoints <- select_regions self service_type name ;;
    for_each endpoints (fun '(regionName, values) eps =>
      v <- index0 values ;;
      Ok (eps ++ [v])) [].

Definition get_public_urls (self : t) (service_type name : pykey)
    : Result (list pyval) :=
    endpoints <- get_endpoints self service_type name ;;
    for_each endpoints (fun endpoint result =>
      has <- py_contains "publicURL" endpoint ;;
      if (has : bool) then
        url <- py_getitem endpoint "publicURL" ;;
        Ok (result ++ [url])
      else Ok result) [].

Definition get_endpoint (self : t) (service_type name region : pykey)
    : Result pyval :=
    regs <- select_regions self service_type name ;;
    let endpoint := getd regs region [] in
    (* ideally an endpoint either isn't found or only one match is found. *)
    if (List.length endpoint =? 1)%nat then index0 endpoint
    else Ok (PyDict []).

End OpenStackServiceCatalog.

(* ===================================================================== *)
(** ** OpenStackAuthResponse *)
(* ===================================================================== *)

(** What the transport hands back: status code, headers, body text. *)
Record Response : Type := {
  status : Z;
  headers : dict string string;
  body : string
}.

(** [s.find(c)]: the index of the first [c], or -1. *)
Fixpoint str_find (c : ascii) (s : string) : Z :=
  match s with
  | EmptyString => -1
  | String a s' =>
      if Ascii.eqb a c then 0
      else let i := str_find c s' in
           if (i =? -1)%Z then -1 else (i + 1)%Z
  end.

(** [s.split(c)[0]]: the text before the first [c]. *)
Fixpoint str_split_head (c : ascii) (s : string) : string :=
  match s with
  | EmptyString => EmptyString
  | String a s' =>
      if Ascii.eqb a c then EmptyString else String a (str_split_head c s')
  end.

Definition semicolon : ascii := ascii_of_nat 59.

Module OpenStackAuthResponse.
Section Decoder.

  (** [json.loads]; [None] when it raises. *)
Variable json_loads : string -> option pyval.

Definition success (self : Response) : bool := true.

Definition parse_body (self : Response) : Result pyval :=
    if body self =? "" then Ok PyNone
    else
      key <- (if dmem (headers self) "content-type" then Ok "content-type"
              else if dmem (headers self) "Content-Type"
                   then Ok "Content-Type"
                   else Err (LibcloudError "Missing content-type header")) ;;
      content_type <- match dget (headers self) key with
                      | Some v => Ok v
                      | None => Err (PyKeyError key)
                      end ;;
      let content_type :=
        if negb (str_find semicolon content_type =? -1)%Z
        then str_split_head semicolon content_type
        else content_type in
      if content_type =? "application/json" then
        match json_loads (body self) with
        | Some data => Ok data
        | None => Err (MalformedResponseError "Failed to parse JSON"
                                              (BodyText (body self)))
        end
      else if content_type =? "text/plain" then Ok (PyStr (body self))
      else Ok (PyStr (body self)).

End Decoder.
End OpenStackAuthResponse.

(* ===================================================================== *)
(** ** OpenStackAuthConnection *)
(* ===================================================================== *)

(** A [datetime] is a point of the UTC time line, counted in microseconds
    from the epoch, which is the resolution of Python's [datetime].  The
    range limits of [datetime] (years 1 to 9999) are not modelled. *)
Definition datetime : Type := Z.

(** [datetime.timedelta(seconds=n)] *)
Definition timedelta_seconds (n : Z) : Z := (n * 1000000)%Z.

(** [d.utctimetuple()]: the broken-down UTC time, whole seconds only.  The
    calendar date (year, month, day) is carried as the day number, which
    orders the same way; the weekday, the day of the year and the DST flag
    (0) that end the tuple are determined by the date. *)
Definition utctimetuple (d : datetime) : Z * Z * Z * Z :=
  let s := (d / 1000000)%Z in
  ((s / 86400)%Z, ((s mod 86400) / 3600)%Z, ((s mod 3600) / 60)%Z,
   (s mod 60)%Z).

(** [a < b] on time tuples: lexicographic. *)
Definition time_tuple_lt (a b : Z * Z * Z * Z) : bool :=
  let '(d1, h1, m1, s1) := a in
  let '(d2, h2, m2, s2) := b in
  (d1 <? d2)%Z
  || ((d1 =? d2)%Z
      && ((h1 <? h2)%Z
          || ((h1 =? h2)%Z
              && ((m1 <? m2)%Z || ((m1 =? m2)%Z && (s1 <? s2)%Z))))).

Definition UNAUTHORIZED : Z := 401.
Definition NO_CONTENT : Z := 204.
Definition OK : Z := 200.
Definition NON_AUTHORITATIVE_INFORMATION : Z := 203.

(** The arguments of one [self.request(...)] call. *)
Record Request : Type := {
  action : string;
  data : option string;
  req_headers : dict string string;
  method : string
}.

Module OpenStackAuthConnection.

  (** The attributes of the connection that this module reads and writes,
      and [sent]: the requests issued through [self.request] so far. *)
Record t : Type := {
    auth_version : string;
    auth_url : string;
    user_id : string;
    key : string;
    tenant_name : option string;
    urls : pyval;
    auth_token : pyval;
    auth_token_expires : option datetime;
    auth_user_info : pyval;
    sent : list Request
  }.

Definition __init__ (auth_url auth_version user_id key : string)
             (tenant_name : option string) : t :=
    {| auth_version := auth_version; auth_url := auth_url;
       user_id := user_id; key := key; tenant_name := tenant_name;
       urls := PyDict []; auth_token := PyNone;
       auth_token_expires := None; auth_user_info := PyNone;
       sent := [] |}.

Definition set_urls (v : pyval) (self : t) : t :=
    {| auth_version := auth_version self; auth_url := auth_url self;
       user_id := user_id self; key := key self;
       tenant_name := tenant_name self;
       urls := v; auth_token := auth_token self;
       auth_token_expires := auth_token_expires self;
       auth_user_info := auth_user_info self; sent := sent self |}.

Definition set_auth_token (v : pyval) (self : t) : t :=
    {| auth_version := auth_version self; auth_url := auth_url self;
       user_id := user_id self; key := key self;
       tenant_name := tenant_name self;
       urls := urls self; auth_token := v;
       auth_token_expires := auth_token_expires self;
       auth_user_info := auth_user_info self; sent := sent self |}.

Definition set_auth_token_expires (v : option datetime) (self : t) : t :=
    {| auth_version := auth_version self; auth_url := auth_url self;
       user_id := user_id self; key := key self;
       tenant_name := tenant_name self;
       urls := urls self; auth_token := auth_token self;
       auth_token_expires := v;
       auth_user_info := auth_user_info self; sent := sent self |}.

Definition set_auth_user_info (v : pyval) (self : t) : t :=
    {| auth_version := auth_version self; auth_url := auth_url self;
       user_id := user_id self; key := key self;
       tenant_name := tenant_name self;
       urls := urls self; auth_token := auth_token self;
       auth_token_expires := auth_token_expires self;
       auth_user_info := v; sent := sent self |}.

Definition set_sent (v : list Request) (self : t) : t :=
    {| auth_version := auth_version self; auth_url := auth_url self;
       user_id := user_id self; key := key self;
       tenant_name := tenant_name self;
       urls := urls self; auth_token := auth_token self;
       auth_token_expires := auth_token_expires self;
       auth_user_info := auth_user_info self; sent := v |}.

  (** A method: it may assign attributes of [self] and ends by returning
      or raising; what it assigned before raising stays assigned. *)
Definition M (A : Type) : Type := t -> Result A * t.

Definition ret {A} (a : A) : M A := fun self => (Ok a, self).
Definition raise {A} (e : exn) : M A := fun self => (Err e, self).
Definition lift {A} (r : Result A) : M A := fun self => (r, self).
Definition assign (f : t -> t) : M unit := fun self => (Ok tt, f self).
Definition mbind {A B} (m : M A) (k : A -> M B) : M B :=
    fun self =>
      match m self with
      | (Ok a, self') => k a self'
      | (Err e, self') => (Err e, self')
      end.

Declare Scope method_scope.
Delimit Scope method_scope with method.
Notation "x <~ m ;; k" := (mbind m (fun x => k))
    (at level 100, m at next level, right associativity) : method_scope.
Notation "m ;;; k" := (mbind m (fun _ => k))
    (at level 100, right associativity) : method_scope.
  Local Open Scope method_scope.

  (** [try: m  except KeyError: raise MalformedResponseError(value, e)] *)
Definition except_KeyError {A} (m : M A) (value : string) : M A :=
    fun self =>
      match m self with
      | (Err (PyKeyError k), self') =>
          (Err (MalformedResponseError value (BodyCaughtKeyError k)), self')
      | other => other
      end.

  (** [headers.get(name, None)] *)
Definition header_get (hs : dict string string) (name : string) : pyval :=
    match dget hs name with
    | Some v => PyStr v
    | None => PyNone
    end.

  (** [d[k] = v] on a dict value. *)
Definition py_setitem (d : pyval) (k : string) (v : pyval) : pyval :=
    match d with
    | PyDict kvs => PyDict (dset kvs k v)
    | other => other
    end.

Definition missing_token_message : string :=
    "Missing X-Auth-Token in " ++ spaces 46 ++ "response headers".

Definition missing_elements_message : string :=
    "Auth JSON response is " ++ spaces 45 ++ "missing required elements".

Section Client.

  (** The HTTP exchange behind [self.request]: the answer to a request,
      given how many were issued before it; an exception of the transport
      is an [Err]. *)
Variable transport : nat -> Request -> Result Response.
  (** [json.loads] ([None] when it raises) and [json.dumps]. *)
Variable json_loads : string -> option pyval.
Variable json_dumps : pyval -> string.
  (** [libcloud.utils.iso8601.parse_date] *)
Variable parse_date : pyval -> Result datetime.
  (** ['%s' % headers] *)
Variable str_of_headers : dict string string -> string.

Definition request (req : Request) : M Response :=
    fun self =>
      (transport (List.length (sent self)) req,
       set_sent (sent self ++ [req]) self).

Definition authenticate_1_0 : M unit :=
    fun self =>
    (resp <~ request {| action := "/v1.0";
                        data := None;
                        req_headers := [("X-Auth-User", user_id self);
                                        ("X-Auth-Key", key self)];
                        method := "GET" |} ;;
     if (status resp =? UNAUTHORIZED)%Z then
       (* HTTP UNAUTHORIZED (401): auth failed *)
       raise InvalidCredsError
     else if negb (status resp =? NO_CONTENT)%Z then
       raise (MalformedResponseError "Malformed response"
                (BodyText ("code: " ++ str_of_int (status resp)
                           ++ " body:" ++ body resp
                           ++ " headers:" ++ str_of_headers (headers resp))))
     else
       let headers := headers resp in
       (* emulate the auth 1.1 URL list *)
       assign (set_urls (PyDict [])) ;;;
       assign (fun self => set_urls (py_setitem (urls self) "cloudServers"
         (PyList [PyDict [("publicURL",
            header_get headers "x-server-management-url")]])) self) ;;;
       assign (fun self => set_urls (py_setitem (urls self) "cloudFilesCDN"
         (PyList [PyDict [("publicURL",
            header_get headers "x-cdn-management-url")]])) self) ;;;
       assign (fun self => set_urls (py_setitem (urls self) "cloudFiles"
         (PyList [PyDict [("publicURL",
            header_get headers "x-storage-url")]])) self) ;;;
       assign (set_auth_token (header_get headers "x-auth-token")) ;;;
       assign (set_auth_user_info PyNone) ;;;
       fun self =>
         if negb (truthy (auth_token self)) then
           raise (MalformedResponseError missing_token_message BodyNone) self
         else ret tt self) self.

Definition authenticate_1_1 : M unit :=
    fun self =>
    (let reqbody := json_dumps
       (PyDict [("credentials",
                 PyDict [("username", PyStr (user_id self));
                         ("key", PyStr (key self))])]) in
     resp <~ request {| action := "/v1.1/auth";
                        data := Some reqbody;
                        req_headers := [];
                        method := "POST" |} ;;
     if (status resp =? UNAUTHORIZED)%Z then
       (* HTTP UNAUTHORIZED (401): auth failed *)
       raise InvalidCredsError
     else if negb (status resp =? OK)%Z then
       raise (MalformedResponseError "Malformed response"
                (BodyText ("code: " ++ str_of_int (status resp)
                           ++ " body:" ++ body resp)))
     else
       body <~ match json_loads (body resp) with
               | Some b => ret b
               | None => raise (MalformedResponseError "Failed to parse JSON"
                                                       BodyCaughtJSON)
               end ;;
       except_KeyError
         (expires <~ lift (a <- py_getitem body "auth" ;;
                           tk <- py_getitem a "token" ;;
                           py_getitem tk "expires") ;;
          id <~ lift (a <- py_getitem body "auth" ;;
                      tk <- py_getitem a "token" ;;
                      py_getitem tk "id") ;;
          assign (set_auth_token id) ;;;
          d <~ lift (parse_date expires) ;;
          assign (set_auth_token_expires (Some d)) ;;;
          cat <~ lift (a <- py_getitem body "auth" ;;
                       py_getitem a "serviceCatalog") ;;
          assign (set_urls cat) ;;;
          assign (set_auth_user_info PyNone))
         missing_elements_message) self.

Definition authenticate_2_0_with_body (reqbody : string) : M unit :=
    resp <~ request {| action := "/v2.0/tokens";
                       data := Some reqbody;
                       req_headers := [("Content-Type", "application/json")];
                       method := "POST" |} ;;
    if (status resp =? UNAUTHORIZED)%Z then
      raise InvalidCredsError
    else if negb ((status resp =? OK)%Z
                  || (status resp =? NON_AUTHORITATIVE_INFORMATION)%Z) then
      raise (MalformedResponseError "Malformed response"
               (BodyText ("code: " ++ str_of_int (status resp)
                          ++ " body: " ++ body resp)))
    else
      body <~ match json_loads (body resp) with
              | Some b => ret b
              | None => raise (MalformedResponseError "Failed to parse JSON"
                                                      BodyCaughtJSON)
              end ;;
      except_KeyError
        (access <~ lift (py_getitem body "access") ;;
         expires <~ lift (tk <- py_getitem access "token" ;;
                          py_getitem tk "expires") ;;
         id <~ lift (tk <- py_getitem access "token" ;;
                     py_getitem tk "id") ;;
         assign (set_auth_token id) ;;;
         d <~ lift (parse_date expires) ;;
         assign (set_auth_token_expires (Some d)) ;;;
         cat <~ lift (py_getitem access "serviceCatalog") ;;
         assign (set_urls cat) ;;;
         user <~ lift (py_get access "user" (PyDict [])) ;;
         assign (set_auth_user_info user))
        missing_elements_message.

  (** [if self.tenant_name: data['auth']['tenantName'] = self.tenant_name] *)
Definition with_tenant (self : t) (auth : list (string * pyval))
    : list (string * pyval) :=
    match tenant_name self with
    | Some tn => if negb (tn =? "") then dset auth "tenantName" (PyStr tn)
                 else auth
    | None => auth
    end.

Definition authenticate_2_0_with_apikey : M unit :=
    fun self =>
      (* API Key based authentication uses the RAX-KSKEY extension. *)
      let data :=
        PyDict [("auth", PyDict (with_tenant self
          [("RAX-KSKEY:apiKeyCredentials",
            PyDict [("username", PyStr (user_id self));
                    ("apiKey", PyStr (key self))])]))] in
      let reqbody := json_dumps data in
      authenticate_2_0_with_body reqbody self.

Definition authenticate_2_0_with_password : M unit :=
    fun self =>
      let data :=
        PyDict [("auth", PyDict (with_tenant self
          [("passwordCredentials",
            PyDict [("username", PyStr (user_id self));
                    ("password", PyStr (key self))])]))] in
      let reqbody := json_dumps data in
      authenticate_2_0_with_body reqbody self.

  (** Return [true] if the current token is already cached and hasn't
      expired yet.  [utcnow] is the reading of
      [datetime.datetime.utcnow()]. *)
Definition _is_token_valid (self : t) (utcnow : datetime) : bool :=
    if negb (truthy (auth_token self)) then false
    else
      match auth_token_expires self with
      | None => false
      | Some auth_token_expires =>
          let expires :=
            (auth_token_expires
             - timedelta_seconds AUTH_TOKEN_EXPIRES_GRACE_SECONDS)%Z in
          let time_tuple_expires := utctimetuple expires in
          let time_tuple_now := utctimetuple utcnow in
          if time_tuple_lt time_tuple_now time_tuple_expires then true
          else false
      end.

  (** Authenticate against the keystone api.  [force]: forcefully update
      the token even if it's already cached and still valid. *)
Definition authenticate (force : bool) (utcnow : datetime) : M unit :=
    fun self =>
      if negb force
         && existsb (String.eqb (auth_version self)) AUTH_VERSIONS_WITH_EXPIRES
         && _is_token_valid self utcnow
      then
        (* If token is still valid, there is no need to re-authenticate *)
        ret tt self
      else if auth_version self =? "1.0" then authenticate_1_0 self
      else if auth_version self =? "1.1" then authenticate_1_1 self
      else if (auth_version self =? "2.0")
              || (auth_version self =? "2.0_apikey") then
        authenticate_2_0_with_apikey self
      else if auth_version self =? "2.0_password" then
        authenticate_2_0_with_password self
      else raise (LibcloudError "Unsupported Auth Version requested") self.

End Client.
End OpenStackAuthConnection.

(* ===================================================================== *)
(** ** OpenStackBaseConnection *)
(* ===================================================================== *)

(** [bool(v)] of an argument that is [None] or a string: [None] and the
    empty string are false. *)
Definition given (o : option string) : bool :=
  match o with
  | Some s => negb (s =? "")
  | None => false
  end.

(** An argument that is [None] or a string, as a dict key and as a
    value. *)
Definition key_of (o : option string) : pykey :=
  match o with
  | Some s => KStr s
  | None => KNone
  end.

Definition value_of (o : option string) : pyval :=
  match o with
  | Some s => PyStr s
  | None => PyNone
  end.

(** [binascii.hexlify]: two hexadecimal digits per byte, the high half
    first, the letters in lower case. *)
Definition hex_digit (n : N) : ascii :=
  nth (N.to_nat n) (list_ascii_of_string "0123456789abcdef") "0"%char.

Fixpoint hexlify (bs : list Byte.byte) : string :=
  match bs with
  | [] => ""
  | b :: bs' =>
      String (hex_digit (Byte.to_N b / 16))
        (String (hex_digit (Byte.to_N b mod 16)) (hexlify bs'))
  end.

(** The digits that [hexlify] writes. *)
Definition is_hex_digit (c : ascii) : bool :=
  existsb (Ascii.eqb c) (list_ascii_of_string "0123456789abcdef").

(** The value of a digit and the bytes of a text of digit pairs, for
    reading back what [hexlify] wrote. *)
Fixpoint digit_index (c : ascii) (digits : list ascii) (i : N) : N :=
  match digits with
  | [] => 0
  | a :: digits' =>
      if Ascii.eqb a c then i else digit_index c digits' (i + 1)
  end.

Definition hex_value (c : ascii) : N :=
  digit_index c (list_ascii_of_string "0123456789abcdef") 0.

Fixpoint unhexlify (s : string) : list Byte.byte :=
  match s with
  | String hi (String lo rest) =>
      match Byte.of_N (hex_value hi * 16 + hex_value lo) with
      | Some b => b :: unhexlify rest
      | None => []
      end
  | _ => []
  end.

Module OpenStackBaseConnection.

  (** What [_tuple_from_url] returns:
      [(host, port, secure, request_path)]. *)
Record url_tuple : Type := {
    host : string;
    port : Z;
    secure : bool;
    request_path : string
  }.

  (** The class attributes that the connection class of a provider
      overrides; this class has [None] for each of the first five and
      leaves [accept_format] to the provider's class. *)
Record class_attributes : Type := {
    class_auth_url : option string;
    class_service_type : option string;
    class_service_name : option string;
    class_service_region : option string;
    class_auth_version : option string;
    class_accept_format : pyval
  }.

  (** The keyword arguments of the constructor that this class keeps.
      [secure] and [timeout] travel on to the inherited constructor, and
      [host] and [port] are not used. *)
Record options : Type := {
    ex_force_base_url : option string;
    ex_force_auth_url : option string;
    ex_force_auth_version : option string;
    ex_force_auth_token : option string;
    ex_tenant_name : option string;
    ex_force_service_type : option string;
    ex_force_service_name : option string;
    ex_force_service_region : option string;
    ex_auth_connection : option OpenStackAuthConnection.t
  }.

  (** The attributes of the connection that this module reads and writes.
      [connection_info] is
      [(self.host, self.port, self.secure, self.request_path)] as
      [_populate_hosts_and_request_paths] assigned it, [None] before.
      [_auth_connection] holds the auth connection with the state its
      methods left it in: the object is shared, not copied. *)
Record t : Type := {
    auth_url : option string;
    service_type : option string;
    service_name : option string;
    service_region : option string;
    accept_format : pyval;
    user_id : string;
    key : string;
    _ex_force_base_url : option string;
    _ex_force_auth_url : option string;
    _auth_version : string;
    _ex_tenant_name : option string;
    _ex_force_service_type : option string;
    _ex_force_service_name : option string;
    _ex_force_service_region : option string;
    _auth_connection : option OpenStackAuthConnection.t;
    auth_token : pyval;
    auth_token_expires : option datetime;
    auth_user_info : pyval;
    service_catalog : option OpenStackServiceCatalog.t;
    connection_info : option url_tuple
  }.

Definition set_auth_connection (v : option OpenStackAuthConnection.t)
             (self : t) : t :=
    {| auth_url := auth_url self; service_type := service_type self;
       service_name := service_name self;
       service_region := service_region self;
       accept_format := accept_format self; user_id := user_id self;
       key := key self; _ex_force_base_url := _ex_force_base_url self;
       _ex_force_auth_url := _ex_force_auth_url self;
       _auth_version := _auth_version self;
       _ex_tenant_name := _ex_tenant_name self;
       _ex_force_service_type := _ex_force_service_type self;
       _ex_force_service_name := _ex_force_service_name self;
       _ex_force_service_region := _ex_force_service_region self;
       _auth_connection := v; auth_token := auth_token self;
       auth_token_expires := auth_token_expires self;
       auth_user_info := auth_user_info self;
       service_catalog := service_catalog self;
       connection_info := connection_info self |}.

Definition set_auth_token (v : pyval) (self : t) : t :=
    {| auth_url := auth_url self; service_type := service_type self;
       service_name := service_name self;
       service_region := service_region self;
       accept_format := accept_format self; user_id := user_id self;
       key := key self; _ex_force_base_url := _ex_force_base_url self;
       _ex_force_auth_url := _ex_force_auth_url self;
       _auth_version := _auth_version self;
       _ex_tenant_name := _ex_tenant_name self;
       _ex_force_service_type := _ex_force_service_type self;
       _ex_force_service_name := _ex_force_service_name self;
       _ex_force_service_region := _ex_force_service_region self;
       _auth_connection := _auth_connection self; auth_token := v;
       auth_token_expires := auth_token_expires self;
       auth_user_info := auth_user_info self;
       service_catalog := service_catalog self;
       connection_info := connection_info self |}.

Definition set_auth_token_expires (v : option datetime) (self : t) : t :=
    {| auth_url := auth_url self; service_type := service_type self;
       service_name := service_name self;
       service_region := service_region self;
       accept_format := accept_format self; user_id := user_id self;
       key := key self; _ex_force_base_url := _ex_force_base_url self;
       _ex_force_auth_url := _ex_force_auth_url self;
       _auth_version := _auth_version self;
       _ex_tenant_name := _ex_tenant_name self;
       _ex_force_service_type := _ex_force_service_type self;
       _ex_force_service_name := _ex_force_service_name self;
       _ex_force_service_region := _ex_force_service_region self;
       _auth_connection := _auth_connection self;
       auth_token := auth_token self; auth_token_expires := v;
       auth_user_info := auth_user_info self;
       service_catalog := service_catalog self;
       connection_info := connection_info self |}.

Definition set_auth_user_info (v : pyval) (self : t) : t :=
    {| auth_url := auth_url self; service_type := service_type self;
       service_name := service_name self;
       service_region := service_region self;
       accept_format := accept_format self; user_id := user_id self;
       key := key self; _ex_force_base_url := _ex_force_base_url self;
       _ex_force_auth_url := _ex_force_auth_url self;
       _auth_version := _auth_version self;
       _ex_tenant_name := _ex_tenant_name self;
       _ex_force_service_type := _ex_force_service_type self;
       _ex_force_service_name := _ex_force_service_name self;
       _ex_force_service_region := _ex_force_service_region self;
       _auth_connection := _auth_connection self;
       auth_token := auth_token self;
       auth_token_expires := auth_token_expires self; auth_user_info := v;
       service_catalog := service_catalog self;
       connection_info := connection_info self |}.

Definition set_service_catalog (v : option OpenStackServiceCatalog.t)
             (self : t) : t :=
    {| auth_url := auth_url self; service_type := service_type self;
       service_name := service_name self;
       service_region := service_region self;
       accept_format := accept_format self; user_id := user_id self;
       key := key self; _ex_force_base_url := _ex_force_base_url self;
       _ex_force_auth_url := _ex_force_auth_url self;
       _auth_version := _auth_version self;
       _ex_tenant_name := _ex_tenant_name self;
       _ex_force_service_type := _ex_force_service_type self;
       _ex_force_service_name := _ex_force_service_name self;
       _ex_force_service_region := _ex_force_service_region self;
       _auth_connection := _auth_connection self;
       auth_token := auth_token self;
       auth_token_expires := auth_token_expires self;
       auth_user_info := auth_user_info self; service_catalog := v;
       connection_info := connection_info self |}.

Definition set_connection_info (v : option url_tuple) (self : t) : t :=
    {| auth_url := auth_url self; service_type := service_type self;
       service_name := service_name self;
       service_region := service_region self;
       accept_format := accept_format self; user_id := user_id self;
       key := key self; _ex_force_base_url := _ex_force_base_url self;
       _ex_force_auth_url := _ex_force_auth_url self;
       _auth_version := _auth_version self;
       _ex_tenant_name := _ex_tenant_name self;
       _ex_force_service_type := _ex_force_service_type self;
       _ex_force_service_name := _ex_force_service_name self;
       _ex_force_service_region := _ex_force_service_region self;
       _auth_connection := _auth_connection self;
       auth_token := auth_token self;
       auth_token_expires := auth_token_expires self;
       auth_user_info := auth_user_info self;
       service_catalog := service_catalog self; connection_info := v |}.

  (** [self._auth_version or ex_force_auth_version] *)
Definition or_else (a b : option string) : option string :=
    if given a then a else b.

Definition token_without_url_message : string :=
    "Must also provide ex_force_base_url when specifying "
      ++ "ex_force_auth_token.".

  (** The inherited constructor, which ends [__init__], is not in this
      module; it receives [user_id] and [key], which
      [get_auth_connection_instance] reads back as attributes of those
      names. *)
Definition __init__ (cls : class_attributes) (user_id key : string)
             (kwargs : options) : Result t :=
    let auth_version :=
      or_else (class_auth_version cls) (ex_force_auth_version kwargs) in
    let auth_token :=
      if given (ex_force_auth_token kwargs)
      then value_of (ex_force_auth_token kwargs)
      else PyNone in
    if given (ex_force_auth_token kwargs)
       && negb (given (ex_force_base_url kwargs))
    then Err (LibcloudError token_without_url_message)
    else
      let auth_version :=
        match auth_version with
        | Some v => if v =? "" then AUTH_API_VERSION else v
        | None => AUTH_API_VERSION
        end in
      Ok {| auth_url := class_auth_url cls;
            service_type := class_service_type cls;
            service_name := class_service_name cls;
            service_region := class_service_region cls;
            accept_format := class_accept_format cls;
            user_id := user_id;
            key := key;
            _ex_force_base_url := ex_force_base_url kwargs;
            _ex_force_auth_url := ex_force_auth_url kwargs;
            _auth_version := auth_version;
            _ex_tenant_name := ex_tenant_name kwargs;
            _ex_force_service_type := ex_force_service_type kwargs;
            _ex_force_service_name := ex_force_service_name kwargs;
            _ex_force_service_region := ex_force_service_region kwargs;
            _auth_connection := ex_auth_connection kwargs;
            auth_token := auth_token;
            auth_token_expires := None;
            auth_user_info := PyNone;
            service_catalog := None;
            connection_info := None |}.

  (** Selects the endpoint to use based on provider specific values, or
      overrides passed in by the user when setting up the driver. *)
Definition get_endpoint (self : t) : Result pyval :=
    let service_type := service_type self in
    let service_name := service_name self in
    let service_region := service_region self in
    let service_type :=
      if given (_ex_force_service_type self)
      then _ex_force_service_type self else service_type in
    let service_name :=
      if given (_ex_force_service_name self)
      then _ex_force_service_name self else service_name in
    let service_region :=
      if given (_ex_force_service_region self)
      then _ex_force_service_region self else service_region in
    match service_catalog self with
    | None => Err PyAttributeError
    | Some catalog =>
        ep <- OpenStackServiceCatalog.get_endpoint catalog
                (key_of service_type) (key_of service_name)
                (key_of service_region) ;;
        has <- py_contains "publicURL" ep ;;
        if (has : bool) then py_getitem ep "publicURL"
        else Err (LibcloudError "Could not find specified endpoint")
    end.

  (** Return an [OpenStackAuthConnection] instance for this connection. *)
Definition get_auth_connection_instance (self : t)
    : Result OpenStackAuthConnection.t * t :=
    let auth_url := auth_url self in
    let auth_url :=
      match _ex_force_auth_url self with
      | Some forced => Some forced
      | None => auth_url
      end in
    match auth_url with
    | None =>
        (Err (LibcloudError ("OpenStack instance must "
                               ++ "have auth_url set")), self)
    | Some auth_url =>
        match _auth_connection self with
        | None =>
            let conn :=
              OpenStackAuthConnection.__init__ auth_url (_auth_version self)
                (user_id self) (key self) (_ex_tenant_name self) in
            (Ok conn, set_auth_connection (Some conn) self)
        | Some conn => (Ok conn, self)
        end
    end.

Definition add_default_headers (headers : dict string pyval) (self : t)
    : dict string pyval :=
    let headers := dset headers "X-Auth-Token" (auth_token self) in
    let headers := dset headers "Accept" (accept_format self) in
    headers.

Section Connection.

Variable transport : nat -> Request -> Result Response.
Variable json_loads : string -> option pyval.
Variable json_dumps : pyval -> string.
Variable parse_date : pyval -> Result datetime.
Variable str_of_headers : dict string string -> string.
  (** [self._tuple_from_url], of the inherited connection class. *)
Variable _tuple_from_url : pyval -> Result url_tuple.

  (** The first half of [_populate_hosts_and_request_paths]:
      [if not self.auth_token: ...].  [utcnow] is the clock reading that
      [authenticate] takes. *)
Definition ensure_token (utcnow : datetime) (self : t) : Result unit * t :=
    if negb (truthy (auth_token self)) then
      match get_auth_connection_instance self with
      | (Err e, self) => (Err e, self)
      | (Ok auth_connection, self) =>
          (* may throw InvalidCreds, etc *)
          match OpenStackAuthConnection.authenticate transport json_loads
                  json_dumps parse_date str_of_headers false utcnow
                  auth_connection with
          | (Err e, auth_connection) =>
              (Err e, set_auth_connection (Some auth_connection) self)
          | (Ok _, auth_connection) =>
              let self := set_auth_connection (Some auth_connection) self in
              let self :=
                set_auth_token
                  (OpenStackAuthConnection.auth_token auth_connection) self in
              let self :=
                set_auth_token_expires
                  (OpenStackAuthConnection.auth_token_expires auth_connection)
                  self in
              let self :=
                set_auth_user_info
                  (OpenStackAuthConnection.auth_user_info auth_connection)
                  self in
              (* pull out and parse the service catalog *)
              match OpenStackServiceCatalog.__init__
                      (OpenStackAuthConnection.urls auth_connection)
                      (Some (_auth_version self)) with
              | Err e => (Err e, self)
              | Ok catalog => (Ok tt, set_service_catalog (Some catalog) self)
              end
          end
      end
    else (Ok tt, self).

  (** OpenStack uses a separate host for API calls which is only provided
      after an initial authentication request. *)
Definition _populate_hosts_and_request_paths (utcnow : datetime) (self : t)
    : Result unit * t :=
    match ensure_token utcnow self with
    | (Err e, self) => (Err e, self)
    | (Ok _, self) =>
        (* Set up connection info *)
        let url :=
          if given (_ex_force_base_url self)
          then Ok (value_of (_ex_force_base_url self))
          else get_endpoint self in
        match (url <- url ;; _tuple_from_url url) with
        | Err e => (Err e, self)
        | Ok parts => (Ok tt, set_connection_info (Some parts) self)
        end
    end.

Definition get_service_catalog (utcnow : datetime) (self : t)
    : Result (option OpenStackServiceCatalog.t) * t :=
    match service_catalog self with
    | None =>
        match _populate_hosts_and_request_paths utcnow self with
        | (Err e, self) => (Err e, self)
        | (Ok _, self) => (Ok (service_catalog self), self)
        end
    | Some catalog => (Ok (Some catalog), self)
    end.

End Connection.

  (** The [params] of a request: a dict, a list of pairs, or something
      else. *)
Inductive params_t : Type :=
  | ParamsDict (d : dict string string)
  | ParamsList (l : list (string * string))
  | ParamsOther.

  (** [urandom] is [os.urandom]; the returned value is [params] after the
      call. *)
Definition _add_cache_busting_to_params (urandom : nat -> list Byte.byte)
             (params : params_t) : Result params_t :=
    let cache_busting_number := hexlify (urandom 8%nat) in
    match params with
    | ParamsDict d =>
        Ok (ParamsDict (dset d "cache-busting" cache_busting_number))
    | ParamsList l =>
        Ok (ParamsList (l ++ [("cache-busting", cache_busting_number)]))
    | ParamsOther => Err PyAttributeError
    end.

End OpenStackBaseConnection.

(* ===================================================================== *)
(** ** OpenStackDriverMixin *)
(* ===================================================================== *)

Module OpenStackDriverMixin.

  (** Extenstion arguments which are passed to the connection class. *)
Definition EXTENSTION_ARGUMENTS : list string :=
    ["ex_force_base_url";
     "ex_force_auth_token";
     "ex_force_auth_url";
     "ex_force_auth_version";
     "ex_tenant_name";
     "ex_force_service_type";
     "ex_force_service_name";
     "ex_force_service_region";
     "ex_auth_connection"].

Definition _get_argument_pairs : list (string * string) :=
    fold_left (fun result argument_name =>
                 let attribute_name := ("_" ++ argument_name)%string in
                 result ++ [(argument_name, attribute_name)])
              EXTENSTION_ARGUMENTS [].

  (** The instance attributes of [self] are a dict from attribute name to
      value; [__init__] receives the attributes set so far.  The body of
      its loop: *)
Definition init_body (kwargs : dict string pyval)
             (self : dict string pyval) (pair : string * string)
    : dict string pyval :=
    let '(argument_name, attribute_name) := pair in
    let value := getd kwargs argument_name PyNone in
    if is_None value then self
    else dset self attribute_name value.

Definition __init__ (self : dict string pyval) (kwargs : dict string pyval)
    : dict string pyval :=
    let pairs := _get_argument_pairs in
    fold_left (init_body kwargs) pairs self.

  (** The body of the loop of [openstack_connection_kwargs]; [getattr]
      with the default [None] reads the attribute dict. *)
Definition kwargs_body (self : dict string pyval)
             (result : dict string pyval) (pair : string * string)
    : dict string pyval :=
    let '(argument_name, attribute_name) := pair in
    let value := getd self attribute_name PyNone in
    if negb (truthy value) then result
    else dset result argument_name value.

Definition openstack_connection_kwargs (self : dict string pyval)
    : dict string pyval :=
    let result := [] in
    let pairs := _get_argument_pairs in
    fold_left (kwargs_body self) pairs result.

End OpenStackDriverMixin.

(* ===================================================================== *)
(** ** What the catalog is expected to answer *)
(* ===================================================================== *)

(** The catalog lookups stated on the raw catalog the constructor was
    given, for comparison with the index the constructor builds. *)
Module CatalogSpec.

  (** The key an endpoint record is filed under: [endpoint.get('region')],
      hashed. *)
Definition region_of (endpoint : pyval) : Result pykey :=
    region <- py_get endpoint "region" PyNone ;;
    to_key region.

  (** Endpoint values paired with their region key. *)
Definition keyed (eps : list pyval) : list (pykey * pyval) :=
    flat_map (fun e => match region_of e with
                       | Ok r => [(r, e)]
                       | Err _ => []
                       end) eps.

Definition type_key (service : pyval) : Result pykey :=
    v <- py_getitem service "type" ;; to_key v.

Definition name_key (service : pyval) : Result pykey :=
    v <- py_get service "name" PyNone ;; to_key v.

Definition service_eps (service : pyval) : list pyval :=
    match (e <- py_get service "endpoints" (PyList []) ;; py_iter e) with
    | Ok l => l
    | Err _ => []
    end.

  (** The candidates one service record contributes to a query: its
      endpoints, when its type is [service_type] and its name is [name]. *)
Definition service_cands (service_type name : pykey) (service : pyval)
    : list (pykey * pyval) :=
    match type_key service, name_key service with
    | Ok tk, Ok nk =>
        if pykey_eqb tk service_type && pykey_eqb nk name
        then keyed (service_eps service)
        else []
    | _, _ => []
    end.

  (** 2.0 shape: the endpoints of the service records whose type is
      [service_type] and whose name is [name], in catalog order. *)
Definition candidates_v2 (service_catalog : pyval)
             (service_type name : pykey) : list (pykey * pyval) :=
    match py_iter service_catalog with
    | Ok services => flat_map (service_cands service_type name) services
    | Err _ => []
    end.

  (** 1.x shape: the endpoints listed under the service key [name]. *)
Definition candidates_v1 (service_catalog : pyval) (name : pykey)
    : list (pykey * pyval) :=
    match service_catalog, name with
    | PyDict d, KStr s =>
        match dget d s with
        | Some endpoints =>
            match py_iter endpoints with
            | Ok l => keyed l
            | Err _ => []
            end
        | None => []
        end
    | _, _ => []
    end.

  (** The endpoints a [(service_type, name)] query is about, by the
      version the catalog was built for. *)
Definition candidates (auth_version : string) (service_catalog : pyval)
             (service_type name : pykey) : list (pykey * pyval) :=
    if str_contains "2.0" auth_version
    then candidates_v2 service_catalog service_type name
    else candidates_v1 service_catalog name.

  (** The candidates whose region is [region]; an absent region is the
      region [None]. *)
Definition matching (region : pykey) (eps : list (pykey * pyval))
    : list pyval :=
    map snd (filter (fun re => pykey_eqb (fst re) region) eps).

  (** The other reading of a query, the one of the spec's example: a
      query that names no region is about the endpoints of every
      region. *)
Definition matching_any (region : option pykey)
           (eps : list (pykey * pyval)) : list pyval :=
    match region with
    | Some r => matching r eps
    | None => map snd eps
    end.

  (** One endpoint per region: the first one listed for it, the regions
      in the order they first appear. *)
Fixpoint first_per_region (seen : list pykey) (eps : list (pykey * pyval))
    : list pyval :=
    match eps with
    | [] => []
    | (r, e) :: rest =>
        if existsb (fun k => pykey_eqb k r) seen
        then first_per_region seen rest
        else e :: first_per_region (seen ++ [r]) rest
    end.

  (** The [publicURL] values of the endpoints that have the field. *)
Definition public_urls_of (eps : list pyval) : list pyval :=
    flat_map (fun e => match e with
                       | PyDict d => match dget d "publicURL" with
                                     | Some url => [url]
                                     | None => []
                                     end
                       | _ => []
                       end) eps.

  (** The region dict the endpoint loop leaves, started from [catalog]. *)
Definition group (eps : list (pykey * pyval))
             (catalog : OpenStackServiceCatalog.regions)
    : OpenStackServiceCatalog.regions :=
    fold_left (fun catalog re =>
                 OpenStackServiceCatalog.append_endpoint catalog
                   (fst re) (snd re))
              eps catalog.

  (** [sc[service_type][name]], with [{}] for what is absent. *)
Definition regions_at2
             (sc : dict pykey (dict pykey OpenStackServiceCatalog.regions))
             (t n : pykey) : OpenStackServiceCatalog.regions :=
    getd (getd sc t []) n [].

  (** No region of the dict has an empty endpoint list. *)
Definition nonempty (catalog : OpenStackServiceCatalog.regions) : Prop :=
    Forall (fun kv : pykey * list pyval => snd kv <> []) catalog.

  (** The first endpoint of every region of a region dict. *)
Definition heads (catalog : OpenStackServiceCatalog.regions)
    : list pyval :=
    flat_map (fun kv => match snd kv with
                        | e :: _ => [e]
                        | [] => []
                        end) catalog.

End CatalogSpec.

(* ===================================================================== *)
(** ** Sample catalogs *)
(* ===================================================================== *)

Module CatalogExamples.

Definition endpoint_in (region url : string) : pyval :=
    PyDict [("region", PyStr region); ("publicURL", PyStr url)].

  (** A 2.0 catalog: one [compute]/[nova] service with an endpoint in
      DFW and one in ORD. *)
Definition nova_catalog : pyval :=
    PyList [PyDict [("type", PyStr "compute");
                    ("name", PyStr "nova");
                    ("endpoints",
                     PyList [endpoint_in "DFW" "https://dfw.example/v2";
                             endpoint_in "ORD" "https://ord.example/v2"])]].

  (** A 2.0 catalog whose [object-store] service lists two endpoints for
      DFW, and one for ORD that has no [publicURL]. *)
Definition swift_catalog : pyval :=
    PyList [PyDict [("type", PyStr "object-store");
                    ("name", PyStr "swift");
                    ("endpoints",
                     PyList [endpoint_in "DFW" "https://a.example";
                             PyDict [("region", PyStr "ORD");
                                     ("internalURL", PyStr "https://i.example")];
                             endpoint_in "DFW" "https://b.example"])]].

  (** A 2.0 catalog with a single endpoint: [compute]/[nova] in DFW. *)
Definition dfw_only_catalog : pyval :=
    PyList [PyDict [("type", PyStr "compute");
                    ("name", PyStr "nova");
                    ("endpoints",
                     PyList [endpoint_in "DFW" "https://dfw.example/v2"])]].

End CatalogExamples.

(* ===================================================================== *)
(** ** What the auth client is expected to do *)
(* ===================================================================== *)

Module AuthSpec.

  (** The versions [authenticate] dispatches on. *)
Definition SUPPORTED_VERSIONS : list string :=
    ["1.0"; "1.1"; "2.0"; "2.0_apikey"; "2.0_password"].

  (** The path the handshake of a version requests. *)
Definition handshake_path (auth_version : string) : string :=
    if auth_version =? "1.0" then "/v1.0"
    else if auth_version =? "1.1" then "/v1.1/auth"
    else "/v2.0/tokens".

  (** The status codes the handshake of a version takes as success. *)
Definition success_codes (auth_version : string) : list Z :=
    if auth_version =? "1.0" then [NO_CONTENT]
    else if auth_version =? "1.1" then [OK]
    else [OK; NON_AUTHORITATIVE_INFORMATION].

  (** [sub] occurs in [s]. *)
Definition includes (sub s : string) : Prop :=
    exists pre post, s = (pre ++ sub ++ post)%string.

  (** [v[k1][k2]...] *)
Fixpoint py_path (v : pyval) (ks : list string) : Result pyval :=
    match ks with
    | [] => Ok v
    | k :: ks' => x <- py_getitem v k ;; py_path x ks'
    end.

  (** A connection that cached the token [tok] expiring at [expires]. *)
Definition cached (auth_version : string) (expires : datetime)
    : OpenStackAuthConnection.t :=
    OpenStackAuthConnection.set_auth_token_expires (Some expires)
      (OpenStackAuthConnection.set_auth_token (PyStr "tok")
         (OpenStackAuthConnection.__init__
            "https://auth.example" auth_version "user" "key" None)).

  (** A method that issues no request. *)
Definition quiet {A} (m : OpenStackAuthConnection.M A) : Prop :=
    forall self,
      OpenStackAuthConnection.sent (snd (m self))
      = OpenStackAuthConnection.sent self.

  (** The state right after [self.request(req)] returned or raised. *)
Definition requested (req : Request) (self : OpenStackAuthConnection.t)
    : OpenStackAuthConnection.t :=
    OpenStackAuthConnection.set_sent
      (OpenStackAuthConnection.sent self ++ [req]) self.

  (** Sample surroundings: a transport that answers every request with
      [resp], and stand-ins for the JSON codec, the date parser and the
      printing of headers. *)
Definition always (resp : Response) : nat -> Request -> Result Response :=
    fun _ _ => Ok resp.

Definition answer (status : Z) (headers : dict string string)
             (body : string) : Response :=
    {| status := status; headers := headers; body := body |}.

Definition loads_never : string -> option pyval := fun _ => None.
Definition loads_to (doc : pyval) : string -> option pyval :=
    fun _ => Some doc.
Definition dumps_blank : pyval -> string := fun _ => "".
Definition date_never : pyval -> Result datetime := fun _ => Err ParseError.
Definition date_at (d : datetime) : pyval -> Result datetime :=
    fun _ => Ok d.
Definition headers_blank : dict string string -> string := fun _ => "".

  (** A 1.1 auth document. *)
Definition auth_1_1_doc : pyval :=
    PyDict [("auth",
             PyDict [("token",
                      PyDict [("id", PyStr "abc");
                              ("expires", PyStr "2031-01-01T00:00:00Z")]);
                     ("serviceCatalog", PyDict [])])].

  (** A 204 answer of the 1.0 service that names the storage URL and
      carries no [x-auth-token], and the outcome of a 1.0 handshake that
      receives it on a connection holding a cached token. *)
Definition tokenless_204 : Response :=
    answer 204 [("x-storage-url", "https://storage.example/v1")] "".

Definition after_tokenless_204 : Result unit * OpenStackAuthConnection.t :=
    OpenStackAuthConnection.authenticate_1_0
      (always tokenless_204) headers_blank (cached "1.0" 0%Z).

  (** [authenticate(force=False)] at the instant 0 on a connection of the
      given version whose cached token expires at [expires]; every request
      is answered with 401. *)
Definition reauth (auth_version : string) (expires : datetime)
    : Result unit * OpenStackAuthConnection.t :=
    OpenStackAuthConnection.authenticate
      (always (answer 401 [] "")) loads_never dumps_blank date_never
      headers_blank false 0%Z (cached auth_version expires).

End AuthSpec.

(* ===================================================================== *)
(** ** What the decoder is expected to do *)
(* ===================================================================== *)

Module DecoderSpec.

Definition lower_ascii (c : ascii) : ascii :=
    let n := nat_of_ascii c in
    if (65 <=? n)%nat && (n <=? 90)%nat then ascii_of_nat (n + 32) else c.

  (** [s.lower()] on ASCII text. *)
Fixpoint lower (s : string) : string :=
    match s with
    | EmptyString => EmptyString
    | String c s' => String (lower_ascii c) (lower s')
    end.

  (** The headers have [name] under some casing. *)
Definition has_header_nocase (hs : dict string string) (name : string)
    : Prop :=
    exists k v, In (k, v) hs /\ lower k = name.

  (** A JSON answer whose header name is in capitals. *)
Definition shouting : Response :=
    {| status := 200;
       headers := [("CONTENT-TYPE", "application/json; charset=utf-8")];
       body := "{}" |}.

End DecoderSpec.

(* ===================================================================== *)
(** ** The response object behind [self.request] *)
(* ===================================================================== *)

Module ResponseObject.

(** Modelled from the spec: the constructor of the response object,
    [libcloud.common.base.Response.__init__], which [OpenStackAuthResponse]
    inherits ([responseCls = OpenStackAuthResponse]) and which is not among
    the sources.  The response parsing boundary consumes the status code,
    the headers, whose names come in any casing, and the body; the
    content type is found whatever the casing of its name: the object
    keeps the status and the body and stores each header under its
    lower-cased name, a later header of the same name replacing an
    earlier one. *)
Definition lower_step (d : dict string string) (kv : string * string)
  : dict string string :=
  dset d (DecoderSpec.lower (fst kv)) (snd kv).

Definition lowercase_keys (hs : list (string * string))
  : dict string string :=
  fold_left lower_step hs [].

Definition build (raw : Response) : Response :=
  {| status := status raw;
     headers := lowercase_keys (headers raw);
     body := body raw |}.

(** Modelled from the spec: the same constructor passes the response to
    the Auth Response Decoder: [success()] is [True] for every status, and
    [parse_body] runs on the new object; what it raises leaves the
    constructor, and with it [self.request].  ([success()] being [True],
    the branch of an unsuccessful response is never taken.) *)
Definition construct (json_loads : string -> option pyval) (raw : Response)
  : Result Response :=
  if OpenStackAuthResponse.success (build raw) then
    _ <- OpenStackAuthResponse.parse_body json_loads (build raw) ;;
    Ok (build raw)
  else Err (TransportError "").

(** [self.request] over a wire that delivers raw responses: the answer is
    the response object constructed from what the wire delivered. *)
Definition request_through (json_loads : string -> option pyval)
           (wire : nat -> Request -> Result Response)
  : nat -> Request -> Result Response :=
  fun n req => raw <- wire n req ;; construct json_loads raw.

(** Sample answers: a 401 that announces JSON and carries an HTML page, a
    401 without a body, a 500 with a plain text, and a 500 with a body and
    no content type. *)
Definition denied_html : Response :=
  {| status := 401;
     headers := [("Content-Type", "application/json")];
     body := "<html>denied</html>" |}.

Definition denied_empty : Response :=
  {| status := 401; headers := []; body := "" |}.

Definition broken_text : Response :=
  {| status := 500;
     headers := [("Content-Type", "text/plain")];
     body := "oops" |}.

Definition broken_bare : Response :=
  {| status := 500; headers := []; body := "oops" |}.

(** [authenticate(force=True)] of a fresh 2.0 connection whose request is
    answered with [raw]; [json.loads] raises on every body sampled here. *)
Definition forced_2_0 (raw : Response) : Result unit :=
  fst (OpenStackAuthConnection.authenticate
         (request_through AuthSpec.loads_never (AuthSpec.always raw))
         AuthSpec.loads_never AuthSpec.dumps_blank AuthSpec.date_never
         AuthSpec.headers_blank true 0%Z
         (OpenStackAuthConnection.__init__
            "https://auth.example" "2.0" "user" "key" None)).

End ResponseObject.

(* ===================================================================== *)
(** ** What the handshakes are expected to send *)
(* ===================================================================== *)

Module WireSpec.

  (** The optional tenant of a 2.0 request: present when a tenant name
      that is not empty was given. *)
Definition tenant_entry (conn : OpenStackAuthConnection.t)
    : list (string * pyval) :=
    match OpenStackAuthConnection.tenant_name conn with
    | Some tn => if tn =? "" then [] else [("tenantName", PyStr tn)]
    | None => []
    end.

  (** The JSON document of a 2.0 request: the credentials under the key
      [kind], the secret under the key [secret]. *)
Definition auth_document (conn : OpenStackAuthConnection.t)
             (kind secret : string) : pyval :=
    PyDict
      [("auth",
        PyDict
          ((kind,
            PyDict [("username",
                     PyStr (OpenStackAuthConnection.user_id conn));
                    (secret, PyStr (OpenStackAuthConnection.key conn))])
             :: tenant_entry conn))].

  (** The one request of the handshake of each version. *)
Definition handshake_request (json_dumps : pyval -> string)
             (conn : OpenStackAuthConnection.t) : Request :=
    let version := OpenStackAuthConnection.auth_version conn in
    if version =? "1.0" then
      {| action := "/v1.0";
         data := None;
         req_headers :=
           [("X-Auth-User", OpenStackAuthConnection.user_id conn);
            ("X-Auth-Key", OpenStackAuthConnection.key conn)];
         method := "GET" |}
    else if version =? "1.1" then
      {| action := "/v1.1/auth";
         data :=
           Some (json_dumps
                   (PyDict
                      [("credentials",
                        PyDict
                          [("username",
                            PyStr (OpenStackAuthConnection.user_id conn));
                           ("key",
                            PyStr (OpenStackAuthConnection.key conn))])]));
         req_headers := [];
         method := "POST" |}
    else
      {| action := "/v2.0/tokens";
         data :=
           Some (json_dumps
                   (if version =? "2.0_password"
                    then auth_document conn "passwordCredentials" "password"
                    else auth_document conn "RAX-KSKEY:apiKeyCredentials"
                           "apiKey"));
         req_headers := [("Content-Type", "application/json")];
         method := "POST" |}.

End WireSpec.

(* ===================================================================== *)
(** ** Sample connections *)
(* ===================================================================== *)

Module ConnectionExamples.

  (** The connection class of a provider of compute in DFW. *)
Definition provider : OpenStackBaseConnection.class_attributes :=
    {| OpenStackBaseConnection.class_auth_url := Some "https://auth.example";
       OpenStackBaseConnection.class_service_type := Some "compute";
       OpenStackBaseConnection.class_service_name := Some "nova";
       OpenStackBaseConnection.class_service_region := Some "DFW";
       OpenStackBaseConnection.class_auth_version := None;
       OpenStackBaseConnection.class_accept_format :=
         PyStr "application/json" |}.

  (** The connection class of a provider of cloud servers that speaks
      1.0 and names no region. *)
Definition legacy_provider : OpenStackBaseConnection.class_attributes :=
    {| OpenStackBaseConnection.class_auth_url := Some "https://auth.example";
       OpenStackBaseConnection.class_service_type := None;
       OpenStackBaseConnection.class_service_name := Some "cloudServers";
       OpenStackBaseConnection.class_service_region := None;
       OpenStackBaseConnection.class_auth_version := Some "1.0";
       OpenStackBaseConnection.class_accept_format :=
         PyStr "application/json" |}.

Definition no_options : OpenStackBaseConnection.options :=
    {| OpenStackBaseConnection.ex_force_base_url := None;
       OpenStackBaseConnection.ex_force_auth_url := None;
       OpenStackBaseConnection.ex_force_auth_version := None;
       OpenStackBaseConnection.ex_force_auth_token := None;
       OpenStackBaseConnection.ex_tenant_name := None;
       OpenStackBaseConnection.ex_force_service_type := None;
       OpenStackBaseConnection.ex_force_service_name := None;
       OpenStackBaseConnection.ex_force_service_region := None;
       OpenStackBaseConnection.ex_auth_connection := None |}.

  (** A token and a base URL obtained elsewhere. *)
Definition forced_token : OpenStackBaseConnection.options :=
    {| OpenStackBaseConnection.ex_force_base_url :=
         Some "https://api.example/v2";
       OpenStackBaseConnection.ex_force_auth_url := None;
       OpenStackBaseConnection.ex_force_auth_version := Some "2.0";
       OpenStackBaseConnection.ex_force_auth_token := Some "tok";
       OpenStackBaseConnection.ex_tenant_name := None;
       OpenStackBaseConnection.ex_force_service_type := None;
       OpenStackBaseConnection.ex_force_service_name := None;
       OpenStackBaseConnection.ex_force_service_region := None;
       OpenStackBaseConnection.ex_auth_connection := None |}.

  (** A token without a base URL. *)
Definition token_only : OpenStackBaseConnection.options :=
    {| OpenStackBaseConnection.ex_force_base_url := None;
       OpenStackBaseConnection.ex_force_auth_url := None;
       OpenStackBaseConnection.ex_force_auth_version := None;
       OpenStackBaseConnection.ex_force_auth_token := Some "tok";
       OpenStackBaseConnection.ex_tenant_name := None;
       OpenStackBaseConnection.ex_force_service_type := None;
       OpenStackBaseConnection.ex_force_service_name := None;
       OpenStackBaseConnection.ex_force_service_region := None;
       OpenStackBaseConnection.ex_auth_connection := None |}.

  (** A stand-in for [_tuple_from_url]: the URL as the host of a secure
      connection. *)
Definition split_url (url : pyval)
    : Result OpenStackBaseConnection.url_tuple :=
    match url with
    | PyStr s =>
        Ok {| OpenStackBaseConnection.host := s;
              OpenStackBaseConnection.port := 443;
              OpenStackBaseConnection.secure := true;
              OpenStackBaseConnection.request_path := "" |}
    | _ => Err PyAttributeError
    end.

  (** A 204 answer of the 1.0 identity service. *)
Definition no_content : Response :=
    {| status := 204;
       headers := [("X-Auth-Token", "tok");
                   ("X-Server-Management-Url",
                    "https://servers.example/v1.0/1")];
       body := "" |}.

  (** The same class with the auth version 2.0 forced. *)
Definition version_2_0 : OpenStackBaseConnection.options :=
    {| OpenStackBaseConnection.ex_force_base_url := None;
       OpenStackBaseConnection.ex_force_auth_url := None;
       OpenStackBaseConnection.ex_force_auth_version := Some "2.0";
       OpenStackBaseConnection.ex_force_auth_token := None;
       OpenStackBaseConnection.ex_tenant_name := None;
       OpenStackBaseConnection.ex_force_service_type := None;
       OpenStackBaseConnection.ex_force_service_name := None;
       OpenStackBaseConnection.ex_force_service_region := None;
       OpenStackBaseConnection.ex_auth_connection := None |}.

  (** A 2.0 auth document with the catalog [nova_catalog], and the 200
      answer that carries it. *)
Definition access_doc : pyval :=
    PyDict [("access",
             PyDict [("token",
                      PyDict [("id", PyStr "abc");
                              ("expires", PyStr "2031-01-01T00:00:00Z")]);
                     ("serviceCatalog", CatalogExamples.nova_catalog);
                     ("user", PyDict [("name", PyStr "user")])])].

Definition access_granted : Response :=
    {| status := 200;
       headers := [("Content-Type", "application/json")];
       body := "{...}" |}.

  (** A stand-in for [json.dumps] that shows the keys and the texts of a
      document, without quotes. *)
Fixpoint show (v : pyval) : string :=
    match v with
    | PyNone => "null"
    | PyBool b => if b then "true" else "false"
    | PyInt n => str_of_int n
    | PyStr s => s
    | PyList l =>
        ("[" ++ (fix each (l : list pyval) : string :=
                   match l with
                   | [] => ""
                   | x :: rest => show x ++ "," ++ each rest
                   end) l ++ "]")%string
    | PyDict d =>
        ("{" ++ (fix each (d : list (string * pyval)) : string :=
                   match d with
                   | [] => ""
                   | (k, x) :: rest =>
                       k ++ ":" ++ show x ++ "," ++ each rest
                   end) d ++ "}")%string
    | PyObj _ => "?"
    end.

  (** [os.urandom] that always answers with the byte [ab]. *)
Definition steady (n : nat) : list Byte.byte := repeat Byte.xab n.

End ConnectionExamples.

(* ===================================================================== *)
(** * Properties *)
(* ===================================================================== *)

Unset Implicit Arguments.

(** ** Dictionaries *)

Class KeyEqLaws (K : Type) `{KeyEq K} : Prop := {
  keqb_eq : forall a b : K, keqb a b = true <-> a = b
}.
Arguments KeyEqLaws K {_}.

Lemma pykey_eqb_eq (a b : pykey) : pykey_eqb a b = true <-> a = b.
Proof.
  destruct a, b; simpl; split; intros E; try discriminate; try reflexivity.
  - apply Z.eqb_eq in E. now subst.
  - inversion E. apply Z.eqb_refl.
  - apply String.eqb_eq in E. now subst.
  - inversion E. apply String.eqb_refl.
  - apply Nat.eqb_eq in E. now subst.
  - inversion E. apply Nat.eqb_refl.
Qed.

#[export] Instance KeyEqLaws_string : KeyEqLaws string.
Proof. constructor. exact String.eqb_eq. Qed.

#[export] Instance KeyEqLaws_pykey : KeyEqLaws pykey.
Proof. constructor. exact pykey_eqb_eq. Qed.

Section DictFacts.
Context {K V : Type} `{KeyEqLaws K}.
Implicit Types (d : dict K V) (k : K) (v : V).

Lemma keqb_spec k k' : reflect (k = k') (keqb k k').
  Proof.
    destruct (keqb k k') eqn:E; constructor.
    - now apply keqb_eq.
    - intros ->. assert (keqb k' k' = true) by now apply keqb_eq.
      congruence.
  Qed.

Lemma keqb_refl k : keqb k k = true.
  Proof. now apply keqb_eq. Qed.

Lemma dget_dset d k v k' :
    dget (dset d k v) k' = if keqb k k' then Some v else dget d k'.
  Proof.
    induction d as [|[k0 v0] d IH]; simpl.
    - reflexivity.
    - destruct (keqb_spec k0 k) as [->|Hne]; simpl.
      + now destruct (keqb k k').
      + rewrite IH. destruct (keqb_spec k0 k') as [->|Hne']; [|reflexivity].
        destruct (keqb_spec k k') as [->|_]; [now elim Hne | reflexivity].
  Qed.

Lemma getd_dset d k v k' dflt :
    getd (dset d k v) k' dflt = if keqb k k' then v else getd d k' dflt.
  Proof. unfold getd. rewrite dget_dset. now destruct (keqb k k'). Qed.

Lemma dmem_keys d k :
    dmem d k = existsb (fun k' => keqb k' k) (keys d).
  Proof.
    unfold dmem. induction d as [|[k0 v0] d IH]; simpl; [reflexivity|].
    destruct (keqb k0 k); simpl; [reflexivity | exact IH].
  Qed.

Lemma keys_dset d k v :
    keys (dset d k v) = if dmem d k then keys d else keys d ++ [k].
  Proof.
    unfold dmem, keys. induction d as [|[k0 v0] d IH]; simpl; [reflexivity|].
    destruct (keqb k0 k); simpl; [reflexivity|].
    rewrite IH. now destruct (dget d k).
  Qed.

Lemma getd_not_mem d k dflt : dmem d k = false -> getd d k dflt = dflt.
  Proof. unfold dmem, getd. now destruct (dget d k). Qed.

  (** [items]: every key once, read as in the dict itself. *)
Lemma dget_items_from seen d k :
    dget (items_from seen d) k =
    if existsb (keqb k) seen then None else dget d k.
  Proof.
    revert seen. induction d as [|[k0 v0] d IH]; intros seen; simpl.
    - now destruct (existsb (keqb k) seen).
    - destruct (existsb (keqb k0) seen) eqn:E0.
      + rewrite IH. destruct (existsb (keqb k) seen) eqn:E; [reflexivity|].
        destruct (keqb_spec k0 k) as [->|_]; [congruence | reflexivity].
      + simpl. rewrite IH. simpl.
        destruct (keqb_spec k0 k) as [->|Hne].
        * now rewrite E0.
        * destruct (keqb_spec k k0) as [->|_]; [now elim Hne | reflexivity].
  Qed.

Lemma dget_items d k : dget (items d) k = dget d k.
  Proof. unfold items. now rewrite dget_items_from. Qed.

Lemma items_from_keys seen d k :
    In k (map fst (items_from seen d)) -> existsb (keqb k) seen = false.
  Proof.
    revert seen. induction d as [|[k0 v0] d IH]; intros seen; simpl.
    - intros [].
    - destruct (existsb (keqb k0) seen) eqn:E0.
      + apply IH.
      + simpl. intros [<-|Hin]; [exact E0|].
        apply IH in Hin. simpl in Hin.
        now apply orb_false_iff in Hin.
  Qed.

Lemma items_from_NoDup seen d : NoDup (map fst (items_from seen d)).
  Proof.
    revert seen. induction d as [|[k0 v0] d IH]; intros seen; simpl.
    - constructor.
    - destruct (existsb (keqb k0) seen); [apply IH|].
      simpl. constructor; [|apply IH].
      intros Hin. apply items_from_keys in Hin. simpl in Hin.
      now rewrite keqb_refl in Hin.
  Qed.

Lemma items_NoDup d : NoDup (map fst (items d)).
  Proof. apply items_from_NoDup. Qed.

Lemma dget_not_in d k : ~ In k (keys d) -> dget d k = None.
  Proof.
    induction d as [|[k0 v0] d IH]; simpl; [reflexivity|].
    intros Hn. destruct (keqb_spec k0 k) as [->|_].
    - elim Hn. now left.
    - apply IH. intros Hin. apply Hn. now right.
  Qed.
End DictFacts.

Section DictOrder.
Context {K V : Type} `{KeyEqLaws K}.
Implicit Types (d : dict K V) (k : K) (v : V).

Lemma dset_not_mem d k v : dmem d k = false -> dset d k v = d ++ [(k, v)].
  Proof.
    unfold dmem. induction d as [|[k0 v0] d IH]; simpl; [reflexivity|].
    destruct (keqb k0 k); [discriminate|].
    intros E. now rewrite IH.
  Qed.

Lemma dset_last d k v v' :
    dmem d k = false -> dset (d ++ [(k, v)]) k v' = d ++ [(k, v')].
  Proof.
    unfold dmem. induction d as [|[k0 v0] d IH]; simpl.
    - now rewrite keqb_refl.
    - destruct (keqb k0 k); [discriminate|].
      intros E. now rewrite IH.
  Qed.

Lemma Forall_dset (Q : V -> Prop) d k v :
    Forall (fun kv => Q (snd kv)) d -> Q v ->
    Forall (fun kv => Q (snd kv)) (dset d k v).
  Proof.
    intros Hd Hv. induction d as [|[k0 v0] d IH]; simpl.
    - now constructor.
    - inversion Hd; subst. destruct (keqb k0 k); constructor; auto.
  Qed.

Lemma dget_Forall (Q : V -> Prop) d k v :
    Forall (fun kv => Q (snd kv)) d -> dget d k = Some v -> Q v.
  Proof.
    induction d as [|[k0 v0] d IH]; simpl; [discriminate|].
    intros Hd. inversion Hd; subst. destruct (keqb k0 k); auto.
    intros [= <-]. assumption.
  Qed.
End DictOrder.

(** ** The region dict of the endpoint loop *)

Lemma pykey_eqb_refl (r : pykey) : pykey_eqb r r = true.
Proof. now apply pykey_eqb_eq. Qed.

Lemma pykey_eqb_neq (r r' : pykey) : r <> r' -> pykey_eqb r r' = false.
Proof.
  intros Hne. destruct (pykey_eqb r r') eqn:E; [|reflexivity].
  apply pykey_eqb_eq in E. contradiction.
Qed.

Section Grouping.
Import OpenStackServiceCatalog CatalogSpec.
Implicit Types (catalog : regions) (r : pykey) (e : pyval).

Lemma append_endpoint_mem catalog r e :
    dmem catalog r = true ->
    append_endpoint catalog r e = dset catalog r (getd catalog r [] ++ [e]).
  Proof. unfold append_endpoint. now intros ->. Qed.

Lemma append_endpoint_new catalog r e :
    dmem catalog r = false ->
    append_endpoint catalog r e = catalog ++ [(r, [e])].
  Proof.
    intros E. unfold append_endpoint. rewrite E.
    rewrite getd_dset, (keqb_refl (K:=pykey)).
    rewrite (dset_not_mem catalog r [] E). simpl. now apply dset_last.
  Qed.

Lemma getd_append_endpoint catalog r e r' :
    getd (append_endpoint catalog r e) r' [] =
    if pykey_eqb r r' then getd catalog r [] ++ [e] else getd catalog r' [].
  Proof.
    destruct (dmem catalog r) eqn:E.
    - rewrite append_endpoint_mem by exact E. now rewrite getd_dset.
    - unfold append_endpoint. rewrite E, !getd_dset.
      rewrite (keqb_refl (K:=pykey)). change (keqb r r') with (pykey_eqb r r').
      rewrite (getd_not_mem catalog r [] E). now destruct (pykey_eqb r r').
  Qed.

Lemma group_cons r e eps catalog :
    group ((r, e) :: eps) catalog = group eps (append_endpoint catalog r e).
  Proof. reflexivity. Qed.

Lemma group_app eps1 eps2 catalog :
    group (eps1 ++ eps2) catalog = group eps2 (group eps1 catalog).
  Proof. unfold group. apply fold_left_app. Qed.

Lemma getd_group eps catalog r :
    getd (group eps catalog) r [] = getd catalog r [] ++ matching r eps.
  Proof.
    revert catalog. induction eps as [|[r0 e0] eps IH]; intros catalog.
    - simpl. now rewrite app_nil_r.
    - rewrite group_cons, IH, getd_append_endpoint. unfold matching. simpl.
      destruct (pykey_eqb r0 r) eqn:E; simpl; [|reflexivity].
      apply pykey_eqb_eq in E. subst. now rewrite <- app_assoc.
  Qed.

Lemma nonempty_append_endpoint catalog r e :
    nonempty catalog -> nonempty (append_endpoint catalog r e).
  Proof.
    intros Hn. destruct (dmem catalog r) eqn:E.
    - rewrite append_endpoint_mem by exact E.
      apply (Forall_dset (fun l => l <> [])); [assumption|].
      now destruct (getd catalog r []).
    - rewrite append_endpoint_new by exact E. apply Forall_app. split; [assumption|].
      repeat constructor. discriminate.
  Qed.

Lemma nonempty_group eps catalog :
    nonempty catalog -> nonempty (group eps catalog).
  Proof.
    revert catalog. induction eps as [|[r e] eps IH]; intros catalog Hn.
    - assumption.
    - rewrite group_cons. apply IH. now apply nonempty_append_endpoint.
  Qed.

Lemma keys_append_endpoint catalog r e :
    keys (append_endpoint catalog r e) =
    if dmem catalog r then keys catalog else keys catalog ++ [r].
  Proof.
    destruct (dmem catalog r) eqn:E.
    - rewrite append_endpoint_mem by exact E. rewrite keys_dset. now rewrite E.
    - rewrite append_endpoint_new by exact E. unfold keys. now rewrite map_app.
  Qed.

Lemma heads_app c1 c2 : heads (c1 ++ c2) = heads c1 ++ heads c2.
  Proof. unfold heads. apply flat_map_app. Qed.

Lemma heads_dset_append catalog r l e :
    dget catalog r = Some l -> l <> [] ->
    heads (dset catalog r (l ++ [e])) = heads catalog.
  Proof.
    induction catalog as [|[r0 l0] catalog IH]; simpl; [discriminate|].
    change (keqb r0 r) with (pykey_eqb r0 r).
    destruct (pykey_eqb r0 r).
    - intros [= ->] Hl. simpl. destruct l; [contradiction | reflexivity].
    - intros Hg Hl. simpl. now rewrite IH.
  Qed.

Lemma heads_append_endpoint catalog r e :
    nonempty catalog ->
    heads (append_endpoint catalog r e) =
    if dmem catalog r then heads catalog else heads catalog ++ [e].
  Proof.
    intros Hn. destruct (dmem catalog r) eqn:E.
    - rewrite append_endpoint_mem by exact E. unfold dmem, getd in *.
      destruct (dget catalog r) as [l|] eqn:G; [|discriminate].
      apply heads_dset_append; [assumption|].
      eapply (dget_Forall (fun l => l <> [])); eassumption.
    - rewrite append_endpoint_new by exact E. rewrite heads_app. reflexivity.
  Qed.

Lemma heads_group eps catalog :
    nonempty catalog ->
    heads (group eps catalog) =
    heads catalog ++ first_per_region (keys catalog) eps.
  Proof.
    revert catalog. induction eps as [|[r e] eps IH]; intros catalog Hn.
    - simpl. now rewrite app_nil_r.
    - rewrite group_cons, IH by now apply nonempty_append_endpoint.
      rewrite heads_append_endpoint, keys_append_endpoint by assumption.
      simpl. change (existsb (fun k => pykey_eqb k r) (keys catalog))
        with (existsb (fun k => keqb k r) (keys catalog)).
      rewrite <- (dmem_keys catalog r).
      destruct (dmem catalog r); [reflexivity|].
      now rewrite <- app_assoc.
  Qed.

  (** The loop of [get_endpoints] over a region dict without empty lists. *)
Lemma get_endpoints_loop catalog acc :
    nonempty catalog ->
    for_each catalog
      (fun '(regionName, values) eps =>
         v <- index0 values ;; Ok (eps ++ [v])) acc
    = Ok (acc ++ heads catalog).
  Proof.
    revert acc. induction catalog as [|[r l] catalog IH]; intros acc Hn.
    - simpl. now rewrite app_nil_r.
    - inversion Hn as [|? ? Hl Hn']; subst. simpl in Hl.
      destruct l as [|e l]; [contradiction|].
      simpl. rewrite IH by assumption. unfold heads. simpl.
      now rewrite <- app_assoc.
  Qed.
End Grouping.

(** ** The index the constructor builds *)

Lemma bind_Ok {A B} (r : Result A) (k : A -> Result B) (b : B) :
  bind r k = Ok b -> exists a, r = Ok a /\ k a = Ok b.
Proof. destruct r as [a|e]; simpl; [eauto | discriminate]. Qed.

Ltac inv_bind H :=
  let a := fresh "a" in
  let E := fresh "E" in
  apply bind_Ok in H; destruct H as (a & E & H).

Section Parsing.
Import OpenStackServiceCatalog CatalogSpec.

Lemma regions_at2_dset sc tk nk c t n :
    regions_at2 (dset sc tk (dset (getd sc tk []) nk c)) t n =
    if pykey_eqb tk t && pykey_eqb nk n then c else regions_at2 sc t n.
  Proof.
    unfold regions_at2. rewrite getd_dset.
    change (keqb tk t) with (pykey_eqb tk t).
    destruct (pykey_eqb tk t) eqn:Et; simpl; [|reflexivity].
    apply pykey_eqb_eq in Et. subst t.
    rewrite getd_dset. reflexivity.
  Qed.

Lemma v2_endpoint_body_Ok tk nk endpoint sc sc' :
    v2_endpoint_body tk nk endpoint sc = Ok sc' ->
    exists r, region_of endpoint = Ok r /\
      forall t n, regions_at2 sc' t n =
        if pykey_eqb tk t && pykey_eqb nk n
        then append_endpoint (regions_at2 sc tk nk) r endpoint
        else regions_at2 sc t n.
  Proof.
    unfold v2_endpoint_body, region_of. intros Hb.
    destruct (py_get endpoint "region" PyNone) as [v|]; simpl in *;
      [|discriminate].
    destruct (to_key v) as [r|]; simpl in *; [|discriminate].
    injection Hb as <-. exists r. split; [reflexivity|].
    intros t n. apply regions_at2_dset.
  Qed.

Lemma keyed_cons_Ok endpoint r eps :
    region_of endpoint = Ok r -> keyed (endpoint :: eps) = (r, endpoint) :: keyed eps.
  Proof. intros E. unfold keyed. simpl. now rewrite E. Qed.

Lemma v2_endpoint_loop tk nk eps sc sc' :
    for_each eps (v2_endpoint_body tk nk) sc = Ok sc' ->
    forall t n, regions_at2 sc' t n =
      if pykey_eqb tk t && pykey_eqb nk n
      then group (keyed eps) (regions_at2 sc tk nk)
      else regions_at2 sc t n.
  Proof.
    revert sc. induction eps as [|e eps IH]; intros sc Hl t n.
    - simpl in Hl. injection Hl as <-. simpl.
      destruct (pykey_eqb tk t) eqn:Et, (pykey_eqb nk n) eqn:En; simpl;
        try reflexivity.
      apply pykey_eqb_eq in Et, En. now subst.
    - simpl in Hl. inv_bind Hl.
      apply v2_endpoint_body_Ok in E. destruct E as (r & Hr & Hs).
      rewrite (IH _ Hl), (keyed_cons_Ok _ _ _ Hr), group_cons.
      rewrite !Hs, !pykey_eqb_refl. simpl.
      now destruct (pykey_eqb tk t && pykey_eqb nk n).
  Qed.

Lemma v2_service_body_Ok service sc sc' :
    v2_service_body service sc = Ok sc' ->
    forall t n, regions_at2 sc' t n =
      group (service_cands t n service) (regions_at2 sc t n).
  Proof.
    unfold v2_service_body, service_cands, type_key, name_key, service_eps.
    intros Hb t n.
    destruct (py_getitem service "type") as [ty|]; simpl in *; [|discriminate].
    destruct (py_get service "name" PyNone) as [nm|]; simpl in *;
      [|discriminate].
    destruct (to_key ty) as [tk|]; simpl in *; [|discriminate].
    destruct (to_key nm) as [nk|]; simpl in *; [|discriminate].
    destruct (py_get service "endpoints" (PyList [])) as [ev|]; simpl in *;
      [|discriminate].
    destruct (py_iter ev) as [eps|]; simpl in *; [|discriminate].
    rewrite (v2_endpoint_loop _ _ _ _ _ Hb).
    (* creating the missing dicts does not change what is read *)
    set (sc1 := if dmem sc tk then sc else dset sc tk []) in *.
    set (sc2 := if dmem (getd sc1 tk []) nk then sc1
                else dset sc1 tk (dset (getd sc1 tk []) nk [])) in *.
    assert (H1 : forall t n, regions_at2 sc1 t n = regions_at2 sc t n).
    { intros t' n'. subst sc1. destruct (dmem sc tk) eqn:E; [reflexivity|].
      unfold regions_at2. rewrite getd_dset.
      change (keqb tk t') with (pykey_eqb tk t').
      destruct (pykey_eqb tk t') eqn:Et; [|reflexivity].
      apply pykey_eqb_eq in Et. subst t'.
      now rewrite (getd_not_mem sc tk [] E). }
    assert (H2 : forall t n, regions_at2 sc2 t n = regions_at2 sc t n).
    { intros t' n'. rewrite <- H1. subst sc2.
      destruct (dmem (getd sc1 tk []) nk) eqn:E; [reflexivity|].
      rewrite regions_at2_dset.
      destruct (pykey_eqb tk t') eqn:Et, (pykey_eqb nk n') eqn:En; simpl;
        try reflexivity.
      apply pykey_eqb_eq in Et, En. subst t' n'.
      unfold regions_at2. symmetry. now apply getd_not_mem. }
    rewrite !H2.
    destruct (pykey_eqb tk t) eqn:Et, (pykey_eqb nk n) eqn:En; simpl;
      try reflexivity.
    apply pykey_eqb_eq in Et, En. now subst.
  Qed.

Lemma v2_service_loop services sc sc' :
    for_each services v2_service_body sc = Ok sc' ->
    forall t n, regions_at2 sc' t n =
      group (flat_map (service_cands t n) services) (regions_at2 sc t n).
  Proof.
    revert sc. induction services as [|s services IH]; intros sc Hl t n.
    - simpl in Hl. now injection Hl as <-.
    - simpl in Hl. inv_bind Hl.
      rewrite (IH _ Hl), (v2_service_body_Ok _ _ _ E). simpl.
      now rewrite group_app.
  Qed.

Lemma parse_auth_v2_Ok service_catalog sc :
    _parse_auth_v2 service_catalog [] = Ok sc ->
    forall t n, regions_at2 sc t n = group (candidates_v2 service_catalog t n) [].
  Proof.
    unfold _parse_auth_v2, candidates_v2. intros Hp t n.
    destruct (py_iter service_catalog) as [services|]; simpl in *;
      [|discriminate].
    now rewrite (v2_service_loop _ _ _ Hp).
  Qed.

Lemma v1_endpoint_body_Ok service endpoint sc sc' :
    v1_endpoint_body service endpoint sc = Ok sc' ->
    exists r, region_of endpoint = Ok r /\
      sc' = dset sc (KStr service)
                 (append_endpoint (getd sc (KStr service) []) r endpoint).
  Proof.
    unfold v1_endpoint_body, region_of. intros Hb.
    destruct (py_get endpoint "region" PyNone) as [v|]; simpl in *;
      [|discriminate].
    destruct (to_key v) as [r|]; simpl in *; [|discriminate].
    injection Hb as <-. now exists r.
  Qed.

Lemma v1_endpoint_loop service eps sc sc' :
    for_each eps (v1_endpoint_body service) sc = Ok sc' ->
    forall n, getd sc' n [] =
      if pykey_eqb (KStr service) n
      then group (keyed eps) (getd sc (KStr service) [])
      else getd sc n [].
  Proof.
    revert sc. induction eps as [|e eps IH]; intros sc Hl n.
    - simpl in Hl. injection Hl as <-.
      destruct (pykey_eqb (KStr service) n) eqn:En; [|reflexivity].
      apply pykey_eqb_eq in En. now subst.
    - simpl in Hl. inv_bind Hl.
      apply v1_endpoint_body_Ok in E. destruct E as (r & Hr & ->).
      rewrite (IH _ Hl), (keyed_cons_Ok _ _ _ Hr), group_cons.
      rewrite !getd_dset. rewrite (keqb_refl (K:=pykey)).
      change (keqb (KStr service) n) with (pykey_eqb (KStr service) n).
      now destruct (pykey_eqb (KStr service) n).
  Qed.

Lemma v1_service_body_Ok service endpoints sc sc' :
    v1_service_body (service, endpoints) sc = Ok sc' ->
    exists eps, py_iter endpoints = Ok eps /\
      forall n, getd sc' n [] =
        if pykey_eqb (KStr service) n then group (keyed eps) []
        else getd sc n [].
  Proof.
    unfold v1_service_body. intros Hb.
    destruct (py_iter endpoints) as [eps|]; simpl in Hb; [|discriminate].
    exists eps. split; [reflexivity|]. intros n.
    rewrite (v1_endpoint_loop _ _ _ _ Hb). rewrite !getd_dset.
    rewrite (keqb_refl (K:=pykey)).
    change (keqb (KStr service) n) with (pykey_eqb (KStr service) n).
    now destruct (pykey_eqb (KStr service) n).
  Qed.

  (** What the entry of a 1.x catalog under [name] contributes. *)
Lemma v1_service_loop its sc sc' :
    NoDup (map fst its) ->
    for_each its v1_service_body sc = Ok sc' ->
    forall n, getd sc' n [] =
      match n with
      | KStr s =>
          match dget its s with
          | Some endpoints =>
              match py_iter endpoints with
              | Ok l => group (keyed l) []
              | Err _ => []
              end
          | None => getd sc n []
          end
      | _ => getd sc n []
      end.
  Proof.
    revert sc. induction its as [|[s0 e0] its IH]; intros sc Hnd Hl n.
    - simpl in Hl. injection Hl as <-. now destruct n.
    - simpl in Hl. inv_bind Hl.
      apply v1_service_body_Ok in E. destruct E as (eps & Hit & Ha).
      inversion Hnd as [|? ? Hnotin Hnd']; subst.
      rewrite (IH _ Hnd' Hl).
      destruct n as [| |s|]; try (rewrite Ha; reflexivity).
      simpl. destruct (String.eqb_spec s0 s) as [->|Hne].
      + rewrite (dget_not_in its s Hnotin), Ha. simpl.
        now rewrite String.eqb_refl, Hit.
      + destruct (dget its s); [reflexivity|].
        rewrite Ha. simpl.
        destruct (String.eqb_spec s0 s); [contradiction | reflexivity].
  Qed.

Lemma parse_auth_v1_Ok service_catalog sc :
    _parse_auth_v1 service_catalog [] = Ok sc ->
    forall n, getd sc n [] = group (candidates_v1 service_catalog n) [].
  Proof.
    unfold _parse_auth_v1, candidates_v1. intros Hp n.
    destruct service_catalog as [| | | | |d|]; simpl in *; try discriminate.
    rewrite (v1_service_loop _ _ _ (items_NoDup d) Hp).
    destruct n as [| |s|]; try reflexivity.
    rewrite dget_items. destruct (dget d s) as [endpoints|]; [|reflexivity].
    now destruct (py_iter endpoints).
  Qed.

  (** A constructed catalog reads, for a query, the region dict that the
      endpoint loop builds from the candidates of that query. *)
Lemma select_regions_constructed service_catalog version c :
    __init__ service_catalog version = Ok c ->
    forall t n,
      select_regions c t n =
      Ok (group (candidates (_auth_version c) service_catalog t n) []).
  Proof.
    unfold __init__, select_regions, candidates.
    set (ver := match version with
                | Some v => if (v =? "")%string then AUTH_API_VERSION else v
                | None => AUTH_API_VERSION
                end).
    intros Hc t n.
    destruct (str_contains "2.0" ver) eqn:E2.
    - inv_bind Hc. injection Hc as <-. simpl. rewrite E2.
      f_equal. apply (parse_auth_v2_Ok _ _ E).
    - destruct (str_contains "1.1" ver || str_contains "1.0" ver) eqn:E1;
        [|discriminate].
      inv_bind Hc. injection Hc as <-. simpl. rewrite E2, E1.
      f_equal. apply (parse_auth_v1_Ok _ _ E).
  Qed.
End Parsing.

(** ** Keys of the region dict *)

Section DictKeys.
Context {K V : Type} `{KeyEqLaws K}.
Implicit Types (d : dict K V) (k : K) (v : V).

Lemma In_keys_dmem d k : In k (keys d) <-> dmem d k = true.
  Proof.
    rewrite dmem_keys, existsb_exists. split.
    - intros Hin. exists k. split; [assumption | apply keqb_refl].
    - intros (k' & Hin & E). apply keqb_eq in E. now subst.
  Qed.

Lemma NoDup_keys_dset d k v : NoDup (keys d) -> NoDup (keys (dset d k v)).
  Proof.
    intros Hnd. rewrite keys_dset. destruct (dmem d k) eqn:E; [assumption|].
    apply NoDup_app; [assumption | repeat constructor; intros [] |].
    intros x Hx [<-|[]]. apply In_keys_dmem in Hx. congruence.
  Qed.
End DictKeys.

Section RegionKeys.
Import OpenStackServiceCatalog CatalogSpec.

Lemma NoDup_keys_append_endpoint catalog r e :
    NoDup (keys catalog) -> NoDup (keys (append_endpoint catalog r e)).
  Proof.
    intros Hnd. unfold append_endpoint.
    apply NoDup_keys_dset. destruct (dmem catalog r); [assumption|].
    now apply NoDup_keys_dset.
  Qed.

Lemma NoDup_keys_group eps catalog :
    NoDup (keys catalog) -> NoDup (keys (group eps catalog)).
  Proof.
    revert catalog. induction eps as [|[r e] eps IH]; intros catalog Hnd.
    - assumption.
    - rewrite group_cons. apply IH. now apply NoDup_keys_append_endpoint.
  Qed.

Lemma heads_keys (catalog : regions) :
    NoDup (keys catalog) -> nonempty catalog ->
    heads catalog = map (fun r => hd PyNone (getd catalog r [])) (keys catalog).
  Proof.
    induction catalog as [|[r l] catalog IH]; intros Hnd Hne.
    - reflexivity.
    - inversion Hnd as [|? ? Hnotin Hnd']; subst.
      inversion Hne as [|? ? Hl Hne']; subst. simpl in Hl.
      destruct l as [|e l]; [contradiction|].
      unfold heads in *. simpl. unfold getd at 1. simpl.
      rewrite pykey_eqb_refl. simpl. f_equal.
      rewrite (IH Hnd' Hne'). apply map_ext_in. intros r' Hin.
      unfold getd. simpl. rewrite pykey_eqb_neq; [reflexivity|].
      intros ->. contradiction.
  Qed.

Lemma mem_nonempty (catalog : regions) r :
    nonempty catalog -> (dmem catalog r = true <-> getd catalog r [] <> []).
  Proof.
    intros Hne. unfold dmem, getd.
    destruct (dget catalog r) as [l|] eqn:G.
    - split; [|reflexivity]. intros _.
      exact (dget_Forall (fun l => l <> []) _ _ _ Hne G).
    - split; [discriminate | intros Hc; now elim Hc].
  Qed.

Lemma first_per_region_In seen eps e :
    In e (first_per_region seen eps) -> In e (map snd eps).
  Proof.
    revert seen. induction eps as [|[r0 e0] eps IH]; intros seen; simpl.
    - intros [].
    - destruct (existsb (fun k => pykey_eqb k r0) seen).
      + intros Hin. right. eapply IH, Hin.
      + intros [<-|Hin]; [now left | right; eapply IH, Hin].
  Qed.

Lemma keyed_dict l r e : In (r, e) (keyed l) -> exists d, e = PyDict d.
  Proof.
    unfold keyed. rewrite in_flat_map. intros (x & _ & Hx).
    destruct (region_of x) as [r'|] eqn:E; [|destruct Hx].
    destruct Hx as [[= <- <-]|[]].
    unfold region_of in E. destruct x; simpl in E; try discriminate.
    eauto.
  Qed.

Lemma candidates_dict ver service_catalog t n r e :
    In (r, e) (candidates ver service_catalog t n) -> exists d, e = PyDict d.
  Proof.
    unfold candidates, candidates_v2, candidates_v1, service_cands.
    destruct (str_contains "2.0" ver).
    - destruct (py_iter service_catalog) as [services|]; [|intros []].
      rewrite in_flat_map. intros (s & _ & Hs).
      destruct (type_key s), (name_key s); try destruct Hs.
      destruct (pykey_eqb a t && pykey_eqb a0 n); [|destruct Hs].
      eapply keyed_dict, Hs.
    - destruct service_catalog; try (intros []).
      destruct n; try (intros []).
      destruct (dget d s); [|intros []].
      destruct (py_iter p); [|intros []].
      apply keyed_dict.
  Qed.

  (** The loop of [get_public_urls] over endpoint records that are dicts. *)
Lemma get_public_urls_loop eps acc :
    Forall (fun e => exists d, e = PyDict d) eps ->
    for_each eps
      (fun endpoint result =>
         has <- py_contains "publicURL" endpoint ;;
         if (has : bool) then
           url <- py_getitem endpoint "publicURL" ;;
           Ok (result ++ [url])
         else Ok result) acc
    = Ok (acc ++ public_urls_of eps).
  Proof.
    revert acc. induction eps as [|e eps IH]; intros acc Hd.
    - simpl. now rewrite app_nil_r.
    - inversion Hd as [|? ? (d & ->) Hd']; subst.
      simpl. unfold dmem.
      destruct (dget d "publicURL") as [url|]; simpl.
      + rewrite (IH _ Hd'). now rewrite <- app_assoc.
      + now rewrite (IH _ Hd').
  Qed.
End RegionKeys.

(** ** The catalog lookups *)

Section CatalogLookups.
Import OpenStackServiceCatalog CatalogSpec.

Lemma get_endpoints_constructed service_catalog version c t n :
    __init__ service_catalog version = Ok c ->
    get_endpoints c t n =
    Ok (first_per_region []
          (candidates (_auth_version c) service_catalog t n)).
  Proof.
    intros Hc. unfold get_endpoints.
    rewrite (select_regions_constructed _ _ _ Hc). simpl.
    rewrite get_endpoints_loop by (apply nonempty_group; constructor).
    rewrite heads_group by constructor. reflexivity.
  Qed.
End CatalogLookups.

Section CatalogClaims.
Import OpenStackServiceCatalog CatalogSpec CatalogExamples.

(** C3 (as the code has it).  A constructed catalog answers
    [get_endpoint] from the endpoints of the raw catalog that match the
    query, where a match is an endpoint of a service with that type (2.0
    only) and that name, filed under that region, an omitted name or
    region being the value [None] and not any value: when exactly one
    endpoint matches, it is returned; when none or several match, the
    result is the empty record [{}], and no exception is raised. *)
Theorem get_endpoint_sole_match
        service_catalog version c service_type name region :
  __init__ service_catalog version = Ok c ->
  let found :=
    matching region
      (candidates (_auth_version c) service_catalog service_type name) in
  (forall e, found = [e] ->
             get_endpoint c service_type name region = Ok e) /\
  (List.length found <> 1%nat ->
   get_endpoint c service_type name region = Ok (PyDict [])).
Proof.
  intros Hc found. unfold get_endpoint.
  rewrite (select_regions_constructed _ _ _ Hc). simpl.
  rewrite getd_group. change (getd [] region []) with (@nil pyval).
  simpl. fold found. split.
  - intros e ->. reflexivity.
  - intros Hlen. destruct (Nat.eqb_spec (List.length found) 1);
      [contradiction | reflexivity].
Qed.

(** With a DFW and an ORD endpoint of compute/nova, the query for DFW
    returns the DFW record and the query without a region returns [{}]. *)
Lemma get_endpoint_sole_match_witness :
  exists c,
    __init__ nova_catalog (Some "2.0"%string) = Ok c /\
    get_endpoint c (KStr "compute") (KStr "nova") (KStr "DFW")
    = Ok (endpoint_in "DFW" "https://dfw.example/v2") /\
    get_endpoint c (KStr "compute") (KStr "nova") KNone = Ok (PyDict []).
Proof.
  eexists. split; [reflexivity|]. split.
  - apply (proj1 (get_endpoint_sole_match nova_catalog (Some "2.0"%string) _
                    (KStr "compute") (KStr "nova") (KStr "DFW") eq_refl)).
    reflexivity.
  - apply (proj2 (get_endpoint_sole_match nova_catalog (Some "2.0"%string) _
                    (KStr "compute") (KStr "nova") KNone eq_refl)).
    simpl. discriminate.
Defined.

(** The claim as stated, a query without a region being about the
    endpoints of every region, fails: the catalog has exactly one
    endpoint of compute/nova, and the query without a region returns
    [{}] and not that endpoint. *)
Lemma get_endpoint_any_region_counterexample :
  exists c,
    __init__ dfw_only_catalog (Some "2.0"%string) = Ok c /\
    matching_any None
      (candidates (_auth_version c) dfw_only_catalog
         (KStr "compute") (KStr "nova"))
    = [endpoint_in "DFW" "https://dfw.example/v2"] /\
    get_endpoint c (KStr "compute") (KStr "nova") KNone = Ok (PyDict []) /\
    endpoint_in "DFW" "https://dfw.example/v2" <> PyDict [].
Proof.
  eexists. split; [reflexivity|]. repeat split. discriminate.
Qed.



(** C9.  On a constructed catalog [get_public_urls] raises nothing and
    returns the [publicURL] values of the records that [get_endpoints]
    returns, in that order, leaving out the records without the field. *)
Theorem get_public_urls_present_only
        service_catalog version c service_type name :
  __init__ service_catalog version = Ok c ->
  exists eps,
    get_endpoints c service_type name = Ok eps /\
    get_public_urls c service_type name = Ok (public_urls_of eps).
Proof.
  intros Hc.
  pose proof (get_endpoints_constructed _ _ _ service_type name Hc) as Hg.
  eexists. split; [exact Hg|].
  unfold get_public_urls. rewrite Hg. simpl.
  apply get_public_urls_loop.
  apply Forall_forall. intros e Hin.
  apply first_per_region_In, in_map_iff in Hin.
  destruct Hin as ([r e'] & <- & Hin). simpl.
  eapply candidates_dict, Hin.
Qed.

(** The ORD record of the object-store service has no [publicURL]: only
    the DFW URL is returned. *)
Lemma get_public_urls_present_only_witness :
  exists c,
    __init__ swift_catalog (Some "2.0"%string) = Ok c /\
    get_public_urls c (KStr "object-store") (KStr "swift")
    = Ok [PyStr "https://a.example"].
Proof.
  eexists. split; [reflexivity|].
  destruct (get_public_urls_present_only swift_catalog (Some "2.0"%string) _
              (KStr "object-store") (KStr "swift") eq_refl)
    as (eps & Heps & Hurls).
  injection Heps as <-. exact Hurls.
Defined.

End CatalogClaims.

(** ** Token validity *)

Lemma time_tuple_lt_seconds (a b : datetime) :
  time_tuple_lt (utctimetuple a) (utctimetuple b)
  = (a / 1000000 <? b / 1000000)%Z.
Proof.
  unfold time_tuple_lt, utctimetuple.
  set (s := (a / 1000000)%Z). set (u := (b / 1000000)%Z).
  apply eq_true_iff_eq.
  rewrite !orb_true_iff, !andb_true_iff, !orb_true_iff, !andb_true_iff,
    !orb_true_iff, !andb_true_iff, !Z.ltb_lt, !Z.eqb_eq.
  Z.div_mod_to_equations. lia.
Qed.

Arguments utctimetuple : simpl never.
Arguments time_tuple_lt : simpl never.

Section TokenValidity.
Import OpenStackAuthConnection.

(** C1 (as the code has it).  The cached token is valid exactly when the
    token is set and not empty, the expiry is known, and the expiry less
    the grace period of 5 seconds falls in a later whole second of UTC than
    the current instant: both are cut to whole seconds before they are
    compared.  An expiry exactly 5 seconds from now is never valid, an
    expiry 6 seconds from now is valid for every token that is set. *)
Theorem is_token_valid_iff :
  (forall (self : t) (utcnow : datetime),
      _is_token_valid self utcnow = true <->
      truthy (auth_token self) = true /\
      exists expires,
        auth_token_expires self = Some expires /\
        (utcnow / 1000000
         < (expires - timedelta_seconds 5) / 1000000)%Z) /\
  (forall (self : t) (utcnow : datetime),
      _is_token_valid
        (set_auth_token_expires (Some (utcnow + timedelta_seconds 5)%Z) self)
        utcnow = false) /\
  (forall (self : t) (utcnow : datetime) (token : string),
      _is_token_valid
        (set_auth_token_expires (Some (utcnow + timedelta_seconds 6)%Z)
           (set_auth_token (PyStr (String "t" token)) self))
        utcnow = true).
Proof.
  split; [|split].
  - intros self utcnow. unfold _is_token_valid.
    destruct (truthy (auth_token self)); simpl.
    + destruct (auth_token_expires self) as [e|].
      * rewrite time_tuple_lt_seconds.
        change (timedelta_seconds AUTH_TOKEN_EXPIRES_GRACE_SECONDS)
          with 5000000%Z.
        change (timedelta_seconds 5) with 5000000%Z.
        match goal with
        | |- context [Z.ltb ?x ?y] => destruct (Z.ltb_spec x y)
        end.
        -- split; [|reflexivity]. intros _. split; [reflexivity|].
           exists e. now split.
        -- split; [discriminate|]. intros (_ & e' & [= <-] & Hlt). lia.
      * split; [discriminate|]. intros (_ & e' & He & _). discriminate.
    + split; [discriminate|]. intros (Ht & _). discriminate.
  - intros self utcnow. unfold _is_token_valid. simpl.
    destruct (truthy (auth_token self)); simpl; [|reflexivity].
    rewrite time_tuple_lt_seconds.
    unfold timedelta_seconds, AUTH_TOKEN_EXPIRES_GRACE_SECONDS.
    change (5 * 1000000)%Z with 5000000%Z.
    replace (utcnow + 5000000 - 5000000)%Z with utcnow by lia.
    now rewrite Z.ltb_irrefl.
  - intros self utcnow token. unfold _is_token_valid. simpl.
    rewrite time_tuple_lt_seconds.
    unfold timedelta_seconds, AUTH_TOKEN_EXPIRES_GRACE_SECONDS.
    change (5 * 1000000)%Z with 5000000%Z.
    change (6 * 1000000)%Z with 6000000%Z.
    replace (utcnow + 6000000 - 5000000)%Z
      with (utcnow + 1 * 1000000)%Z by lia.
    rewrite Z.div_add by lia.
    destruct (Z.ltb_spec (utcnow / 1000000) (utcnow / 1000000 + 1));
      [reflexivity | lia].
Qed.

(** The claim as stated, with the instants compared as they are: it fails
    for an expiry 5.5 seconds after the current instant. *)
Lemma is_token_valid_instant_counterexample :
  ~ (_is_token_valid (AuthSpec.cached "2.0" 5500000%Z) 0%Z = true <->
     truthy (auth_token (AuthSpec.cached "2.0" 5500000%Z)) = true /\
     exists expires,
       auth_token_expires (AuthSpec.cached "2.0" 5500000%Z) = Some expires /\
       (0 < expires - timedelta_seconds 5)%Z).
Proof.
  intros [_ Hback].
  assert (Hv : _is_token_valid (AuthSpec.cached "2.0" 5500000%Z) 0%Z = true).
  { apply Hback. split; [reflexivity|].
    exists 5500000%Z. split; reflexivity. }
  vm_compute in Hv. discriminate.
Qed.

End TokenValidity.

(** ** The handshakes *)

Section Handshakes.
Import OpenStackAuthConnection AuthSpec.

Variable transport : nat -> Request -> Result Response.
Variable json_loads : string -> option pyval.
Variable json_dumps : pyval -> string.
Variable parse_date : pyval -> Result datetime.
Variable str_of_headers : dict string string -> string.

Local Abbreviation authenticate :=
    (authenticate transport json_loads json_dumps parse_date str_of_headers).
Local Abbreviation authenticate_1_0 := (authenticate_1_0 transport str_of_headers).
Local Abbreviation authenticate_1_1 :=
    (authenticate_1_1 transport json_loads json_dumps parse_date).
Local Abbreviation authenticate_2_0_with_body :=
    (authenticate_2_0_with_body transport json_loads parse_date).

Lemma quiet_ret {A} (a : A) : quiet (ret a).
  Proof. intros self. reflexivity. Qed.

Lemma quiet_raise {A} (e : exn) : quiet (@raise A e).
  Proof. intros self. reflexivity. Qed.

Lemma quiet_lift {A} (r : Result A) : quiet (lift r).
  Proof. intros self. reflexivity. Qed.

Lemma quiet_assign (f : t -> t) :
    (forall self, sent (f self) = sent self) -> quiet (assign f).
  Proof. intros Hf self. apply Hf. Qed.

Lemma quiet_mbind {A B} (m : M A) (k : A -> M B) :
    quiet m -> (forall a, quiet (k a)) -> quiet (mbind m k).
  Proof.
    intros Hm Hk self. unfold mbind. specialize (Hm self).
    destruct (m self) as [[a|e] self']; simpl in *.
    - now rewrite Hk.
    - assumption.
  Qed.

Lemma quiet_except_KeyError {A} (m : M A) (value : string) :
    quiet m -> quiet (except_KeyError m value).
  Proof.
    intros Hm self. unfold except_KeyError. specialize (Hm self).
    destruct (m self) as [[a|[]] self']; assumption.
  Qed.

Ltac quiet :=
    cbv zeta;
    lazymatch goal with
    | |- quiet (ret _) => apply quiet_ret
    | |- quiet (raise _) => apply quiet_raise
    | |- quiet (lift _) => apply quiet_lift
    | |- quiet (assign _) => apply quiet_assign; intros; reflexivity
    | |- quiet (except_KeyError _ _) => apply quiet_except_KeyError; quiet
    | |- quiet (mbind _ _) => apply quiet_mbind; [quiet | intros; quiet]
    | |- quiet (if ?c then _ else _) => destruct c; quiet
    | |- quiet (match ?x with _ => _ end) => destruct x; quiet
    | |- quiet (fun _ => _) =>
        let s := fresh "s" in
        intros s; cbv beta;
        repeat match goal with
               | |- context [if ?c then _ else _] => destruct c
               end;
        reflexivity
    end.

  (** A handshake starts with its request and issues no other. *)
Lemma request_then_quiet {A} (req : Request) (k : Response -> M A) self :
    (forall resp, quiet (k resp)) ->
    sent (snd (mbind (request transport req) k self)) = sent self ++ [req].
  Proof.
    intros Hk. unfold mbind, request.
    destruct (transport (List.length (sent self)) req) as [resp|e]; simpl.
    - now rewrite Hk.
    - reflexivity.
  Qed.

Lemma authenticate_1_0_sent self :
    exists req, sent (snd (authenticate_1_0 self)) = sent self ++ [req] /\
                action req = "/v1.0"%string.
  Proof.
    eexists. split.
    - unfold OpenStackAuthConnection.authenticate_1_0. cbv beta.
      apply request_then_quiet. intros resp. quiet.
    - reflexivity.
  Qed.

Lemma authenticate_1_1_sent self :
    exists req, sent (snd (authenticate_1_1 self)) = sent self ++ [req] /\
                action req = "/v1.1/auth"%string.
  Proof.
    eexists. split.
    - unfold OpenStackAuthConnection.authenticate_1_1. cbv beta zeta.
      apply request_then_quiet. intros resp. quiet.
    - reflexivity.
  Qed.

Lemma authenticate_2_0_with_body_sent reqbody self :
    exists req,
      sent (snd (authenticate_2_0_with_body reqbody self))
      = sent self ++ [req] /\
      action req = "/v2.0/tokens"%string.
  Proof.
    eexists. split.
    - unfold OpenStackAuthConnection.authenticate_2_0_with_body.
      apply request_then_quiet. intros resp. quiet.
    - reflexivity.
  Qed.


Lemma handshake_needed force utcnow self :
    force = true \/ _is_token_valid self utcnow = false ->
    negb force
    && existsb (String.eqb (auth_version self)) AUTH_VERSIONS_WITH_EXPIRES
    && _is_token_valid self utcnow = false.
  Proof.
    intros [-> | ->]; [reflexivity | now rewrite andb_false_r].
  Qed.

  (** Unless the cached token is served, [authenticate] is the dispatch
      on the version. *)
Lemma authenticate_dispatch force utcnow self :
    negb force
    && existsb (String.eqb (auth_version self)) AUTH_VERSIONS_WITH_EXPIRES
    && _is_token_valid self utcnow = false ->
    authenticate force utcnow self =
    if (auth_version self =? "1.0")%string then authenticate_1_0 self
    else if (auth_version self =? "1.1")%string then authenticate_1_1 self
    else if ((auth_version self =? "2.0")
             || (auth_version self =? "2.0_apikey"))%string then
      authenticate_2_0_with_apikey transport json_loads json_dumps parse_date
        self
    else if (auth_version self =? "2.0_password")%string then
      authenticate_2_0_with_password transport json_loads json_dumps
        parse_date self
    else raise (LibcloudError "Unsupported Auth Version requested") self.
  Proof.
    intros Hg. unfold OpenStackAuthConnection.authenticate.
    now rewrite Hg.
  Qed.

Lemma str_app_assoc (a b c : string) :
    ((a ++ b) ++ c = a ++ b ++ c)%string.
  Proof. induction a as [|x a IH]; simpl; [reflexivity | now rewrite IH]. Qed.

Lemma str_app_nil_r (a : string) : (a ++ "" = a)%string.
  Proof. induction a as [|x a IH]; simpl; [reflexivity | now rewrite IH]. Qed.

Lemma includes_refl s : includes s s.
  Proof. exists ""%string, ""%string. simpl. now rewrite str_app_nil_r. Qed.

Lemma includes_app_r sub s pre :
    includes sub s -> includes sub (pre ++ s)%string.
  Proof.
    intros (p & q & ->). exists (pre ++ p)%string, q.
    now rewrite str_app_assoc.
  Qed.

Lemma includes_app_l sub s post :
    includes sub s -> includes sub (s ++ post)%string.
  Proof.
    intros (p & q & ->). exists p, (q ++ post)%string.
    now rewrite !str_app_assoc.
  Qed.

Lemma includes_cons sub s c : includes sub s -> includes sub (String c s).
  Proof. intros (p & q & ->). now exists (String c p), q. Qed.

Ltac includes :=
    solve [ apply includes_refl
          | apply includes_app_l; apply includes_refl
          | apply includes_cons; includes
          | apply includes_app_r; includes ].

(** What a handshake does with the response that [self.request]
    returned, by its status. *)
Lemma handshake_status_returned
        (self : t) (force : bool) (utcnow : datetime) (resp : Response) :
  In (auth_version self) SUPPORTED_VERSIONS ->
  force = true \/ _is_token_valid self utcnow = false ->
  (forall req, transport (List.length (sent self)) req = Ok resp) ->
  (status resp = UNAUTHORIZED ->
   fst (authenticate force utcnow self) = Err InvalidCredsError /\
   forall value body,
     fst (authenticate force utcnow self)
     <> Err (MalformedResponseError value body)) /\
  (status resp <> UNAUTHORIZED ->
   ~ In (status resp) (success_codes (auth_version self)) ->
   exists text,
     fst (authenticate force utcnow self)
     = Err (MalformedResponseError "Malformed response" (BodyText text)) /\
     includes (str_of_int (status resp)) text /\
     includes (body resp) text).
Proof.
  intros Hv Hh Ht.
  rewrite (authenticate_dispatch _ _ _ (handshake_needed _ _ _ Hh)).
  assert (H401 : status resp = UNAUTHORIZED ->
                 (status resp =? UNAUTHORIZED)%Z = true)
    by (intros ->; reflexivity).
  assert (Hn401 : status resp <> UNAUTHORIZED ->
                  (status resp =? UNAUTHORIZED)%Z = false)
    by (intros Hn; now apply Z.eqb_neq).
  simpl in Hv.
  destruct Hv as [E|[E|[E|[E|[E|[]]]]]]; rewrite <- E; simpl;
    unfold OpenStackAuthConnection.authenticate_1_0,
      OpenStackAuthConnection.authenticate_1_1,
      authenticate_2_0_with_apikey, authenticate_2_0_with_password,
      OpenStackAuthConnection.authenticate_2_0_with_body, mbind, request;
    rewrite Ht; simpl; (split; [intros H1; rewrite (H401 H1); simpl;
      split; [reflexivity | discriminate] |]);
    intros H1 H2; rewrite (Hn401 H1); simpl in H2 |- *.
  - destruct (Z.eqb_spec (status resp) NO_CONTENT) as [E2|_];
      [elim H2; now left|]. simpl. eexists. split; [reflexivity|].
    split; includes.
  - destruct (Z.eqb_spec (status resp) OK) as [E2|_];
      [elim H2; now left|]. simpl. eexists. split; [reflexivity|].
    split; includes.
  - destruct (Z.eqb_spec (status resp) OK) as [E2|_];
      [elim H2; now left|].
    destruct (Z.eqb_spec (status resp) NON_AUTHORITATIVE_INFORMATION)
      as [E3|_]; [elim H2; right; now left|].
    simpl. eexists. split; [reflexivity|]. split; includes.
  - destruct (Z.eqb_spec (status resp) OK) as [E2|_];
      [elim H2; now left|].
    destruct (Z.eqb_spec (status resp) NON_AUTHORITATIVE_INFORMATION)
      as [E3|_]; [elim H2; right; now left|].
    simpl. eexists. split; [reflexivity|]. split; includes.
  - destruct (Z.eqb_spec (status resp) OK) as [E2|_];
      [elim H2; now left|].
    destruct (Z.eqb_spec (status resp) NON_AUTHORITATIVE_INFORMATION)
      as [E3|_]; [elim H2; right; now left|].
    simpl. eexists. split; [reflexivity|]. split; includes.
Qed.

Lemma In_existsb_eqb (v : string) (l : list string) :
    existsb (String.eqb v) l = true <-> In v l.
  Proof.
    rewrite existsb_exists. split.
    - intros (x & Hin & E). apply String.eqb_eq in E. now subst.
    - intros Hin. exists v. split; [assumption | apply String.eqb_refl].
  Qed.



  (** What [authenticate_1_0] does with a 204 response. *)
Lemma authenticate_1_0_no_content (self : t) (resp : Response) :
    (forall req, transport (List.length (sent self)) req = Ok resp) ->
    status resp = NO_CONTENT ->
    exists req,
      authenticate_1_0 self =
      let self' :=
        set_auth_user_info PyNone
          (set_auth_token (header_get (headers resp) "x-auth-token")
             (set_urls
                (PyDict
                   [("cloudServers"%string,
                     PyList [PyDict [("publicURL"%string,
                        header_get (headers resp) "x-server-management-url")]]);
                    ("cloudFilesCDN"%string,
                     PyList [PyDict [("publicURL"%string,
                        header_get (headers resp) "x-cdn-management-url")]]);
                    ("cloudFiles"%string,
                     PyList [PyDict [("publicURL"%string,
                        header_get (headers resp) "x-storage-url")]])])
                (requested req self))) in
      (if truthy (header_get (headers resp) "x-auth-token") then Ok tt
       else Err (MalformedResponseError missing_token_message BodyNone),
       self').
  Proof.
    intros Ht Hs. eexists.
    unfold OpenStackAuthConnection.authenticate_1_0, mbind, request.
    rewrite Ht, Hs. simpl.
    destruct (truthy (header_get (headers resp) "x-auth-token"));
      reflexivity.
  Qed.

(** C5.  When the 1.0 handshake is answered with status 204 and the
    headers [x-auth-token: T] and [x-storage-url: U], the connection's
    token becomes [T] and the catalog built from its [urls] answers
    [get_endpoints(name="cloudFiles")] with one endpoint whose [publicURL]
    is [U] (the handshake returns normally when [T] is not empty); when
    the 204 response has no [x-auth-token] header, the handshake raises
    [MalformedResponseError]. *)
Theorem authenticate_1_0_token_and_catalog (self : t) (resp : Response) :
  (forall req, transport (List.length (sent self)) req = Ok resp) ->
  status resp = NO_CONTENT ->
  (forall T U,
      dget (headers resp) "x-auth-token" = Some T ->
      dget (headers resp) "x-storage-url" = Some U ->
      auth_token (snd (authenticate_1_0 self)) = PyStr T /\
      (exists c,
          OpenStackServiceCatalog.__init__
            (urls (snd (authenticate_1_0 self))) (Some "1.0"%string) = Ok c /\
          OpenStackServiceCatalog.get_endpoints c KNone (KStr "cloudFiles")
          = Ok [PyDict [("publicURL"%string, PyStr U)]]) /\
      (T <> ""%string -> fst (authenticate_1_0 self) = Ok tt)) /\
  (dget (headers resp) "x-auth-token" = None ->
   fst (authenticate_1_0 self)
   = Err (MalformedResponseError missing_token_message BodyNone)).
Proof.
  intros Ht Hs.
  destruct (authenticate_1_0_no_content self resp Ht Hs) as (req & ->).
  split.
  - intros T U HT HU. cbv zeta. unfold header_get at 1. simpl.
    unfold header_get. rewrite HT, HU. split; [reflexivity|]. split.
    + destruct (dget (headers resp) "x-server-management-url"),
        (dget (headers resp) "x-cdn-management-url");
        (eexists; split; reflexivity).
    + intros HTne. simpl.
      destruct (String.eqb_spec T ""); [contradiction | reflexivity].
  - intros HT. cbv zeta. unfold header_get. rewrite HT. reflexivity.
Qed.

Ltac run_handshake Ht :=
    unfold OpenStackAuthConnection.authenticate_1_0,
      OpenStackAuthConnection.authenticate_1_1,
      authenticate_2_0_with_apikey, authenticate_2_0_with_password,
      OpenStackAuthConnection.authenticate_2_0_with_body,
      except_KeyError, mbind, request, lift, assign, ret, raise;
    rewrite Ht; cbn [fst snd].

Lemma authenticate_1_1_outcome (self : t) (resp : Response) :
    (forall req, transport (List.length (sent self)) req = Ok resp) ->
    (status resp <> OK \/ json_loads (body resp) = None ->
     exists req, snd (authenticate_1_1 self) = requested req self) /\
    (fst (authenticate_1_1 self) = Ok tt ->
     exists doc d,
       json_loads (body resp) = Some doc /\
       py_path doc ["auth"; "token"; "id"]%string
       = Ok (auth_token (snd (authenticate_1_1 self))) /\
       (x <- py_path doc ["auth"; "token"; "expires"]%string ;; parse_date x)
       = Ok d /\
       auth_token_expires (snd (authenticate_1_1 self)) = Some d /\
       py_path doc ["auth"; "serviceCatalog"]%string
       = Ok (urls (snd (authenticate_1_1 self))) /\
       auth_user_info (snd (authenticate_1_1 self)) = PyNone).
  Proof.
    intros Ht. run_handshake Ht.
    destruct (Z.eqb_spec (status resp) UNAUTHORIZED) as [E1|N1]; cbn [negb].
    { split; [intros _; eexists; reflexivity | discriminate]. }
    destruct (Z.eqb_spec (status resp) OK) as [E2|N2]; cbn [negb].
    2:{ split; [intros _; eexists; reflexivity | discriminate]. }
    destruct (json_loads (body resp)) as [doc|] eqn:Ej.
    2:{ split; [intros _; eexists; reflexivity | discriminate]. }
    split; [intros [Hc|Hc]; [contradiction | discriminate]|].
    cbn [py_path].
    destruct (py_getitem doc "auth") as [a|e] eqn:Ea; cbn [bind fst snd];
      [|destruct e; discriminate].
    destruct (py_getitem a "token") as [tk|e] eqn:Etk; cbn [bind fst snd];
      [|destruct e; discriminate].
    destruct (py_getitem tk "expires") as [ex|e] eqn:Eex; cbn [bind fst snd];
      [|destruct e; discriminate].
    destruct (py_getitem tk "id") as [id|e] eqn:Eid; cbn [bind fst snd];
      [|destruct e; discriminate].
    destruct (parse_date ex) as [d|e] eqn:Ed; cbn [bind fst snd];
      [|destruct e; discriminate].
    destruct (py_getitem a "serviceCatalog") as [cat|e] eqn:Ecat;
      cbn [bind fst snd]; [|destruct e; discriminate].
    intros _. exists doc, d. cbn [py_path].
    do 4 (rewrite ?Ea, ?Etk, ?Eid, ?Eex, ?Ed, ?Ecat; cbn [bind]).
    repeat split; reflexivity.
  Qed.

Lemma authenticate_2_0_outcome (reqbody : string) (self : t)
        (resp : Response) :
    (forall req, transport (List.length (sent self)) req = Ok resp) ->
    (~ In (status resp) [OK; NON_AUTHORITATIVE_INFORMATION]
     \/ json_loads (body resp) = None ->
     exists req,
       snd (authenticate_2_0_with_body reqbody self) = requested req self) /\
    (fst (authenticate_2_0_with_body reqbody self) = Ok tt ->
     exists doc d access,
       json_loads (body resp) = Some doc /\
       py_path doc ["access"; "token"; "id"]%string
       = Ok (auth_token (snd (authenticate_2_0_with_body reqbody self))) /\
       (x <- py_path doc ["access"; "token"; "expires"]%string ;;
        parse_date x) = Ok d /\
       auth_token_expires (snd (authenticate_2_0_with_body reqbody self))
       = Some d /\
       py_path doc ["access"; "serviceCatalog"]%string
       = Ok (urls (snd (authenticate_2_0_with_body reqbody self))) /\
       py_getitem doc "access" = Ok access /\
       py_get access "user" (PyDict [])
       = Ok (auth_user_info (snd (authenticate_2_0_with_body reqbody self)))).
  Proof.
    intros Ht. run_handshake Ht.
    destruct (Z.eqb_spec (status resp) UNAUTHORIZED) as [E1|N1]; cbn [negb].
    { split; [intros _; eexists; reflexivity | discriminate]. }
    destruct (Z.eqb_spec (status resp) OK) as [E2|N2];
      destruct (Z.eqb_spec (status resp) NON_AUTHORITATIVE_INFORMATION)
        as [E3|N3]; cbn [negb orb];
      try (split; [intros _; eexists; reflexivity | discriminate]);
      (destruct (json_loads (body resp)) as [doc|] eqn:Ej;
       [|split; [intros _; eexists; reflexivity | discriminate]]);
      (split; [intros [Hc|Hc]; [elim Hc; simpl; auto | discriminate]|]);
      cbn [py_path];
      (destruct (py_getitem doc "access") as [a|e] eqn:Ea;
       cbn [bind fst snd]; [|destruct e; discriminate]);
      (destruct (py_getitem a "token") as [tk|e] eqn:Etk;
       cbn [bind fst snd]; [|destruct e; discriminate]);
      (destruct (py_getitem tk "expires") as [ex|e] eqn:Eex;
       cbn [bind fst snd]; [|destruct e; discriminate]);
      (destruct (py_getitem tk "id") as [id|e] eqn:Eid;
       cbn [bind fst snd]; [|destruct e; discriminate]);
      (destruct (parse_date ex) as [d|e] eqn:Ed;
       cbn [bind fst snd]; [|destruct e; discriminate]);
      (destruct (py_getitem a "serviceCatalog") as [cat|e] eqn:Ecat;
       cbn [bind fst snd]; [|destruct e; discriminate]);
      (destruct (py_get a "user" (PyDict [])) as [u|e] eqn:Eu;
       cbn [bind fst snd]; [|destruct e; discriminate]);
      intros _; exists doc, d, a; cbn [py_path];
      do 4 (rewrite ?Ea, ?Etk, ?Eid, ?Eex, ?Ed, ?Ecat, ?Eu; cbn [bind]);
      repeat split; reflexivity.
  Qed.

(** C6 (as the code has it).  For each supported version, when the
    handshake is performed: a response whose status is not a success code
    of the version (401 included), and for 1.1 and 2.0 a success response
    whose body is not JSON, leaves the token, its expiry, the raw catalog
    and the user info exactly as they were; when the handshake returns
    normally, the token, the raw catalog and the user info are the values
    read from the response alone, and so is the expiry for 1.1 and 2.0,
    while 1.0 leaves the expiry as it was. *)
Theorem handshake_replaces_or_keeps
        (self : t) (force : bool) (utcnow : datetime) (resp : Response) :
  In (auth_version self) SUPPORTED_VERSIONS ->
  force = true \/ _is_token_valid self utcnow = false ->
  (forall req, transport (List.length (sent self)) req = Ok resp) ->
  (~ In (status resp) (success_codes (auth_version self))
   \/ (auth_version self <> "1.0"%string /\ json_loads (body resp) = None) ->
   exists req, snd (authenticate force utcnow self) = requested req self) /\
  (fst (authenticate force utcnow self) = Ok tt ->
   if (auth_version self =? "1.0")%string then
     auth_token (snd (authenticate force utcnow self))
     = header_get (headers resp) "x-auth-token" /\
     urls (snd (authenticate force utcnow self))
     = PyDict
         [("cloudServers"%string,
           PyList [PyDict [("publicURL"%string,
              header_get (headers resp) "x-server-management-url")]]);
          ("cloudFilesCDN"%string,
           PyList [PyDict [("publicURL"%string,
              header_get (headers resp) "x-cdn-management-url")]]);
          ("cloudFiles"%string,
           PyList [PyDict [("publicURL"%string,
              header_get (headers resp) "x-storage-url")]])] /\
     auth_user_info (snd (authenticate force utcnow self)) = PyNone /\
     auth_token_expires (snd (authenticate force utcnow self))
     = auth_token_expires self
   else
     let root := if (auth_version self =? "1.1")%string
                 then "auth"%string else "access"%string in
     exists doc d,
       json_loads (body resp) = Some doc /\
       py_path doc [root; "token"; "id"]%string
       = Ok (auth_token (snd (authenticate force utcnow self))) /\
       (x <- py_path doc [root; "token"; "expires"]%string ;; parse_date x)
       = Ok d /\
       auth_token_expires (snd (authenticate force utcnow self)) = Some d /\
       py_path doc [root; "serviceCatalog"]%string
       = Ok (urls (snd (authenticate force utcnow self))) /\
       (if (auth_version self =? "1.1")%string
        then auth_user_info (snd (authenticate force utcnow self)) = PyNone
        else exists access,
            py_getitem doc "access" = Ok access /\
            py_get access "user" (PyDict [])
            = Ok (auth_user_info (snd (authenticate force utcnow self))))).
Proof.
  intros Hv Hh Ht.
  rewrite (authenticate_dispatch _ _ _ (handshake_needed _ _ _ Hh)).
  simpl in Hv.
  destruct Hv as [E|[E|[E|[E|[E|[]]]]]]; rewrite <- E; simpl.
  - (* 1.0 *)
    split.
    + intros [Hs|[Hc _]]; [|now elim Hc].
      run_handshake Ht.
      destruct (Z.eqb_spec (status resp) UNAUTHORIZED); cbn [negb];
        [eexists; reflexivity|].
      destruct (Z.eqb_spec (status resp) NO_CONTENT) as [E2|N2]; cbn [negb];
        [elim Hs; now left | eexists; reflexivity].
    + run_handshake Ht.
      destruct (Z.eqb_spec (status resp) UNAUTHORIZED); cbn [negb];
        [discriminate|].
      destruct (Z.eqb_spec (status resp) NO_CONTENT) as [E2|N2]; cbn [negb];
        [|discriminate].
      cbn.
      destruct (truthy (header_get (headers resp) "x-auth-token")); cbn;
        [|discriminate].
      intros _. repeat split; reflexivity.
  - (* 1.1 *)
    destruct (authenticate_1_1_outcome self resp Ht) as [Hk Hr]. split.
    + intros [Hs|[_ Hj]]; apply Hk; [left | now right].
      intros Hok. apply Hs. now left.
    + intros Hok. destruct (Hr Hok) as (doc & d & H1 & H2 & H3 & H4 & H5 & H6).
      exists doc, d. repeat split; assumption.
  - (* 2.0 *)
    unfold authenticate_2_0_with_apikey.
    match goal with
    | |- context [OpenStackAuthConnection.authenticate_2_0_with_body
                    _ _ _ ?b self] =>
        destruct (authenticate_2_0_outcome b self resp Ht) as [Hk Hr]
    end.
    split.
    + intros [Hs|[_ Hj]]; apply Hk; [now left | now right].
    + intros Hok.
      destruct (Hr Hok) as (doc & d & a & H1 & H2 & H3 & H4 & H5 & H6 & H7).
      exists doc, d. repeat split; try assumption. now exists a.
  - (* 2.0_apikey *)
    unfold authenticate_2_0_with_apikey.
    match goal with
    | |- context [OpenStackAuthConnection.authenticate_2_0_with_body
                    _ _ _ ?b self] =>
        destruct (authenticate_2_0_outcome b self resp Ht) as [Hk Hr]
    end.
    split.
    + intros [Hs|[_ Hj]]; apply Hk; [now left | now right].
    + intros Hok.
      destruct (Hr Hok) as (doc & d & a & H1 & H2 & H3 & H4 & H5 & H6 & H7).
      exists doc, d. repeat split; try assumption. now exists a.
  - (* 2.0_password *)
    unfold authenticate_2_0_with_password.
    match goal with
    | |- context [OpenStackAuthConnection.authenticate_2_0_with_body
                    _ _ _ ?b self] =>
        destruct (authenticate_2_0_outcome b self resp Ht) as [Hk Hr]
    end.
    split.
    + intros [Hs|[_ Hj]]; apply Hk; [now left | now right].
    + intros Hok.
      destruct (Hr Hok) as (doc & d & a & H1 & H2 & H3 & H4 & H5 & H6 & H7).
      exists doc, d. repeat split; try assumption. now exists a.
Qed.

End Handshakes.

Section HandshakeSamples.
Import OpenStackAuthConnection AuthSpec.



(** A 204 answer with token [T0] and a storage URL. *)
Lemma authenticate_1_0_token_and_catalog_witness :
  auth_token
    (snd (authenticate_1_0
            (always (answer 204 [("x-auth-token", "T0");
                                 ("x-storage-url", "https://s.example")] ""))
            headers_blank (cached "1.0" 0%Z)))
  = PyStr "T0".
Proof.
  exact (proj1 (proj1 (authenticate_1_0_token_and_catalog
    (always (answer 204 [("x-auth-token", "T0");
                         ("x-storage-url", "https://s.example")] ""))
    headers_blank (cached "1.0" 0%Z)
    (answer 204 [("x-auth-token", "T0");
                 ("x-storage-url", "https://s.example")] "")
    (fun _ => eq_refl) eq_refl)
    "T0"%string "https://s.example"%string eq_refl eq_refl)).
Defined.

(** A 1.1 handshake answered with 500 leaves the cached token, expiry,
    catalog and user info as they were. *)
Lemma handshake_replaces_or_keeps_witness :
  exists req,
    snd (authenticate (always (answer 500 [] "oops")) loads_never
           dumps_blank date_never headers_blank true 0%Z
           (cached "1.1" 0%Z))
    = requested req (cached "1.1" 0%Z).
Proof.
  refine (proj1 (handshake_replaces_or_keeps
    (always (answer 500 [] "oops")) loads_never dumps_blank date_never
    headers_blank (cached "1.1" 0%Z) true 0%Z (answer 500 [] "oops")
    _ (or_introl eq_refl) (fun _ => eq_refl)) _).
  - simpl. auto.
  - left. simpl. intros [E|[]]. discriminate E.
Defined.

(** The claim as stated fails: the 1.0 handshake that receives a 204
    answer without [x-auth-token] raises, and leaves the catalog URLs
    replaced and the token absent. *)
Lemma handshake_partial_update_counterexample :
  fst after_tokenless_204
  = Err (MalformedResponseError missing_token_message BodyNone) /\
  auth_token (cached "1.0" 0%Z) = PyStr "tok" /\
  auth_token (snd after_tokenless_204) = PyNone /\
  urls (cached "1.0" 0%Z) = PyDict [] /\
  urls (snd after_tokenless_204)
  = PyDict
      [("cloudServers"%string,
        PyList [PyDict [("publicURL"%string, PyNone)]]);
       ("cloudFilesCDN"%string,
        PyList [PyDict [("publicURL"%string, PyNone)]]);
       ("cloudFiles"%string,
        PyList [PyDict [("publicURL"%string,
                         PyStr "https://storage.example/v1")]])].
Proof. repeat split. Qed.

End HandshakeSamples.

(** ** The auth response decoder *)

Section Decoder.
Import OpenStackAuthResponse DecoderSpec.

Variable json_loads : string -> option pyval.

Lemma str_find_none_split (c : ascii) (s : string) :
    str_find c s = (-1)%Z -> str_split_head c s = s.
  Proof.
    induction s as [|a s IH]; simpl; [reflexivity|].
    destruct (Ascii.eqb a c); [discriminate|].
    destruct (Z.eqb_spec (str_find c s) (-1)) as [E|N].
    - intros _. now rewrite IH.
    - intros Hc. assert (0 <= str_find c s)%Z; [|lia].
      clear -N. induction s as [|b s IHs]; simpl in *; [contradiction|].
      destruct (Ascii.eqb b c); [lia|].
      destruct (Z.eqb_spec (str_find c s) (-1)); [contradiction|].
      specialize (IHs n). lia.
  Qed.

Lemma str_split_head_app (c : ascii) (t rest : string) :
    str_find c t = (-1)%Z ->
    str_split_head c (t ++ String c rest) = t.
  Proof.
    induction t as [|a t IH]; simpl.
    - intros _. now rewrite Ascii.eqb_refl.
    - destruct (Ascii.eqb a c); [discriminate|].
      destruct (Z.eqb_spec (str_find c t) (-1)) as [E|N].
      + intros _. now rewrite IH.
      + intros Hc. assert (0 <= str_find c t)%Z; [|lia].
        clear -N. induction t as [|b t IHt]; simpl in *; [contradiction|].
        destruct (Ascii.eqb b c); [lia|].
        destruct (Z.eqb_spec (str_find c t) (-1)); [contradiction|].
        specialize (IHt n). lia.
  Qed.

  (** The media type the decoder compares: the text before the first
      [;], the whole value when there is none. *)
Lemma media_type_split (ct : string) :
    (if negb (str_find semicolon ct =? -1)%Z
     then str_split_head semicolon ct else ct)
    = str_split_head semicolon ct.
  Proof.
    destruct (Z.eqb_spec (str_find semicolon ct) (-1)) as [E|N]; simpl;
      [|reflexivity].
    symmetry. now apply str_find_none_split.
  Qed.

Lemma dget_In (hs : dict string string) (k v : string) :
    dget hs k = Some v -> In (k, v) hs.
  Proof.
    induction hs as [|[k0 v0] hs IH]; simpl; [discriminate|].
    destruct (String.eqb_spec k0 k) as [->|_].
    - intros [= ->]. now left.
    - intros Hg. right. now apply IH.
  Qed.

(** The decoder on a response object as it is: the content type is read
    under the name [content-type] and, when that is absent, under
    [Content-Type]; the value is compared by the text before its first
    [;]. *)
Lemma parse_body_exact_names (self : Response) :
  (body self = ""%string -> parse_body json_loads self = Ok PyNone) /\
  (body self <> ""%string ->
   dget (headers self) "content-type" = None ->
   dget (headers self) "Content-Type" = None ->
   parse_body json_loads self
   = Err (LibcloudError "Missing content-type header")) /\
  (body self <> ""%string ->
   ~ has_header_nocase (headers self) "content-type" ->
   parse_body json_loads self
   = Err (LibcloudError "Missing content-type header")) /\
  (body self <> ""%string ->
   forall ct,
     dget (headers self) "content-type" = Some ct \/
     (dget (headers self) "content-type" = None /\
      dget (headers self) "Content-Type" = Some ct) ->
     parse_body json_loads self
     = if (str_split_head semicolon ct =? "application/json")%string
       then match json_loads (body self) with
            | Some data => Ok data
            | None => Err (MalformedResponseError "Failed to parse JSON"
                                                  (BodyText (body self)))
            end
       else Ok (PyStr (body self))) /\
  (forall t rest,
      str_find semicolon t = (-1)%Z ->
      str_split_head semicolon (t ++ String semicolon rest) = t).
Proof.
  assert (Hmissing : body self <> ""%string ->
            dget (headers self) "content-type" = None ->
            dget (headers self) "Content-Type" = None ->
            parse_body json_loads self
            = Err (LibcloudError "Missing content-type header")).
  { intros Hb H1 H2. unfold parse_body, dmem.
    destruct (String.eqb_spec (body self) ""); [contradiction|].
    now rewrite H1, H2. }
  split; [|split; [|split; [|split]]].
  - intros Hb. unfold parse_body. now rewrite Hb.
  - exact Hmissing.
  - intros Hb Hno. apply Hmissing; [assumption| |].
    + destruct (dget (headers self) "content-type") as [v|] eqn:E;
        [|reflexivity].
      elim Hno. exists "content-type"%string, v.
      split; [now apply dget_In | reflexivity].
    + destruct (dget (headers self) "Content-Type") as [v|] eqn:E;
        [|reflexivity].
      elim Hno. exists "Content-Type"%string, v.
      split; [now apply dget_In | reflexivity].
  - intros Hb ct Hct. unfold parse_body, dmem.
    destruct (String.eqb_spec (body self) ""); [contradiction|].
    destruct Hct as [H1|[H1 H2]].
    + rewrite H1. cbn [bind]. rewrite H1. cbn [bind].
      rewrite media_type_split.
      destruct (str_split_head semicolon ct =? "application/json")%string;
        [reflexivity|].
      now destruct (str_split_head semicolon ct =? "text/plain")%string.
    + rewrite H1, H2. cbn [bind]. rewrite H2. cbn [bind].
      rewrite media_type_split.
      destruct (str_split_head semicolon ct =? "application/json")%string;
        [reflexivity|].
      now destruct (str_split_head semicolon ct =? "text/plain")%string.
  - intros t rest. apply str_split_head_app.
Qed.

End Decoder.


(** ** The driver argument adapter *)

Section Adapter.
Import OpenStackDriverMixin.

Lemma argument_pairs :
    _get_argument_pairs
    = map (fun a => (a, ("_" ++ a)%string)) EXTENSTION_ARGUMENTS.
  Proof. reflexivity. Qed.

Lemma init_other kwargs pairs self attr :
    ~ In attr (map snd pairs) ->
    dget (fold_left (init_body kwargs) pairs self) attr = dget self attr.
  Proof.
    revert self. induction pairs as [|[a0 at0] pairs IH]; intros self Hn.
    - reflexivity.
    - simpl in Hn. simpl fold_left. rewrite IH by tauto.
      unfold init_body.
      destruct (is_None (getd kwargs a0 PyNone)); [reflexivity|].
      rewrite dget_dset.
      destruct (keqb_spec at0 attr) as [E|_]; [|reflexivity].
      elim Hn. now left.
  Qed.

Lemma init_attr kwargs pairs self a attr :
    NoDup (map snd pairs) -> In (a, attr) pairs ->
    dget (fold_left (init_body kwargs) pairs self) attr
    = if is_None (getd kwargs a PyNone) then dget self attr
      else Some (getd kwargs a PyNone).
  Proof.
    revert self. induction pairs as [|[a0 at0] pairs IH]; intros self Hnd Hin.
    - destruct Hin.
    - inversion Hnd as [|? ? Hnotin Hnd']; subst. simpl fold_left.
      destruct Hin as [[= -> ->]|Hin].
      + rewrite init_other by assumption. unfold init_body.
        destruct (is_None (getd kwargs a PyNone)); [reflexivity|].
        rewrite dget_dset. now rewrite (keqb_refl (K:=string)).
      + rewrite (IH _ Hnd' Hin).
        assert (Hne : at0 <> attr).
        { intros ->. apply Hnotin.
          change attr with (snd (a, attr)). now apply in_map. }
        unfold init_body.
        destruct (is_None (getd kwargs a0 PyNone)); [reflexivity|].
        rewrite dget_dset.
        destruct (keqb_spec at0 attr); [contradiction | reflexivity].
  Qed.

Lemma kwargs_other self pairs result name :
    ~ In name (map fst pairs) ->
    dget (fold_left (kwargs_body self) pairs result) name = dget result name.
  Proof.
    revert result. induction pairs as [|[a0 at0] pairs IH]; intros result Hn.
    - reflexivity.
    - simpl in Hn. simpl fold_left. rewrite IH by tauto.
      unfold kwargs_body.
      destruct (truthy (getd self at0 PyNone)); [|reflexivity].
      cbn [negb]. rewrite dget_dset.
      destruct (keqb_spec a0 name) as [E|_]; [|reflexivity].
      elim Hn. now left.
  Qed.

Lemma kwargs_name self pairs result name attr :
    NoDup (map fst pairs) -> In (name, attr) pairs ->
    dget (fold_left (kwargs_body self) pairs result) name
    = if truthy (getd self attr PyNone) then Some (getd self attr PyNone)
      else dget result name.
  Proof.
    revert result.
    induction pairs as [|[a0 at0] pairs IH]; intros result Hnd Hin.
    - destruct Hin.
    - inversion Hnd as [|? ? Hnotin Hnd']; subst. simpl fold_left.
      destruct Hin as [[= -> ->]|Hin].
      + rewrite kwargs_other by assumption. unfold kwargs_body.
        destruct (truthy (getd self attr PyNone)); [|reflexivity].
        cbn [negb]. rewrite dget_dset. now rewrite (keqb_refl (K:=string)).
      + rewrite (IH _ Hnd' Hin).
        assert (Hne : a0 <> name).
        { intros ->. apply Hnotin.
          change name with (fst (name, attr)). now apply in_map. }
        unfold kwargs_body.
        destruct (truthy (getd self at0 PyNone)); [|reflexivity].
        cbn [negb]. rewrite dget_dset.
        destruct (keqb_spec a0 name); [contradiction | reflexivity].
  Qed.

Lemma NoDup_arguments : NoDup EXTENSTION_ARGUMENTS.
  Proof.
    unfold EXTENSTION_ARGUMENTS.
    repeat (constructor; [simpl; intuition discriminate|]). constructor.
  Qed.

Lemma NoDup_pairs_fst : NoDup (map fst _get_argument_pairs).
  Proof.
    rewrite argument_pairs, map_map. simpl map. apply NoDup_arguments.
  Qed.

Lemma NoDup_pairs_snd : NoDup (map snd _get_argument_pairs).
  Proof.
    rewrite argument_pairs, map_map. simpl.
    repeat (constructor; [simpl; intuition discriminate|]). constructor.
  Qed.

Lemma truthy_not_None v : truthy v = true -> is_None v = false.
  Proof. now destruct v. Qed.

(** C10 (as the code has it).  For a driver constructed with the keyword
    arguments [kwargs] on an object without attributes,
    [openstack_connection_kwargs] binds a name exactly when the name is
    one of the extension arguments and its value in [kwargs] is truthy
    (neither absent, nor [None], nor empty, zero or [False]), and then to
    that very value; [ex_tenant_name="t1"] comes back as
    [{"ex_tenant_name": "t1"}]. *)
Theorem connection_kwargs_round_trip :
  (forall (kwargs : dict string pyval) (name : string),
      dget (openstack_connection_kwargs (__init__ [] kwargs)) name
      = if existsb (String.eqb name) EXTENSTION_ARGUMENTS
           && truthy (getd kwargs name PyNone)
        then Some (getd kwargs name PyNone)
        else None) /\
  openstack_connection_kwargs
    (__init__ [] [("ex_tenant_name"%string, PyStr "t1")])
  = [("ex_tenant_name"%string, PyStr "t1")].
Proof.
  split; [|reflexivity].
  intros kwargs name. unfold openstack_connection_kwargs, __init__.
  cbv zeta.
  destruct (existsb (String.eqb name) EXTENSTION_ARGUMENTS) eqn:E.
  - apply existsb_exists in E. destruct E as (x & Hin & Ex).
    apply String.eqb_eq in Ex. subst x.
    assert (Hp : In (name, ("_" ++ name)%string) _get_argument_pairs).
    { rewrite argument_pairs.
      now apply (in_map (fun a => (a, ("_" ++ a)%string))). }
    rewrite (kwargs_name _ _ _ _ _ NoDup_pairs_fst Hp).
    assert (Hattr : getd (fold_left (init_body kwargs) _get_argument_pairs [])
                         ("_" ++ name)%string PyNone
                    = getd kwargs name PyNone).
    { unfold getd at 1.
      rewrite (init_attr _ _ _ _ _ NoDup_pairs_snd Hp).
      destruct (getd kwargs name PyNone); reflexivity. }
    rewrite Hattr. cbn [andb].
    now destruct (truthy (getd kwargs name PyNone)).
  - cbn [andb]. apply kwargs_other.
    rewrite argument_pairs, map_map. simpl map.
    intros Hin.
    assert (existsb (String.eqb name) EXTENSTION_ARGUMENTS = true);
      [|congruence].
    apply existsb_exists. exists name.
    split; [assumption | apply String.eqb_refl].
Qed.

(** The claim as stated fails: the empty string is not [None], and
    [ex_tenant_name=""] does not come back. *)
Lemma connection_kwargs_empty_counterexample :
  is_None (PyStr "") = false /\
  dget (openstack_connection_kwargs
          (__init__ [] [("ex_tenant_name"%string, PyStr "")]))
       "ex_tenant_name" = None.
Proof. split; reflexivity. Qed.

End Adapter.

(** ** The response object *)

Section ResponseObjects.
Import OpenStackAuthResponse DecoderSpec ResponseObject.

Lemma lowercase_keys_from (hs : list (string * string))
      (d0 : dict string string) (key v : string) :
  dget (fold_left lower_step hs d0) key = Some v ->
  dget d0 key = Some v \/ exists k, In (k, v) hs /\ lower k = key.
Proof.
  revert d0. induction hs as [|[k0 v0] hs IH]; intros d0; simpl.
  - now left.
  - intros Hg. destruct (IH _ Hg) as [Hd|(k & Hin & Hk)].
    + unfold lower_step in Hd. rewrite dget_dset in Hd. simpl in Hd.
      destruct (String.eqb_spec (lower k0) key) as [E|_].
      * injection Hd as <-. right. exists k0. split; [now left | exact E].
      * now left.
    + right. exists k. split; [now right | exact Hk].
Qed.

Lemma lowercase_keys_kept (hs : list (string * string))
      (d0 : dict string string) (key v : string) :
  dget d0 key = Some v ->
  exists v', dget (fold_left lower_step hs d0) key = Some v'.
Proof.
  revert d0 v. induction hs as [|[k0 v0] hs IH]; intros d0 v Hd; simpl.
  - now exists v.
  - unfold lower_step at 2. simpl.
    destruct (String.eqb_spec (lower k0) key) as [E|N].
    + apply (IH _ v0). rewrite dget_dset. simpl.
      now rewrite E, String.eqb_refl.
    + apply (IH _ v). rewrite dget_dset. simpl.
      destruct (String.eqb_spec (lower k0) key); [contradiction | exact Hd].
Qed.

Lemma lowercase_keys_found (hs : list (string * string))
      (d0 : dict string string) (k v : string) :
  In (k, v) hs ->
  exists v', dget (fold_left lower_step hs d0) (lower k) = Some v'.
Proof.
  revert d0. induction hs as [|[k0 v0] hs IH]; intros d0 Hin; simpl.
  - destruct Hin.
  - destruct Hin as [[= -> ->]|Hin].
    + apply (lowercase_keys_kept _ _ _ v). unfold lower_step.
      rewrite dget_dset. simpl. now rewrite String.eqb_refl.
    + now apply IH.
Qed.

(** The object has a header exactly when the raw response has it under
    some casing, and then with the value of one of those. *)
Lemma lowercase_keys_nocase (hs : list (string * string)) (name : string) :
  (~ has_header_nocase hs name -> dget (lowercase_keys hs) name = None) /\
  (has_header_nocase hs name ->
   exists k v, In (k, v) hs /\ lower k = name /\
               dget (lowercase_keys hs) name = Some v).
Proof.
  unfold lowercase_keys. split.
  - intros Hno.
    destruct (dget (fold_left lower_step hs []) name) as [v|] eqn:E;
      [|reflexivity].
    destruct (lowercase_keys_from _ _ _ _ E) as [Hd|(k & Hin & Hk)];
      [discriminate|].
    elim Hno. now exists k, v.
  - intros (k & v & Hin & Hk).
    destruct (lowercase_keys_found hs [] k v Hin) as (v' & Hv').
    rewrite Hk in Hv'.
    destruct (lowercase_keys_from _ _ _ _ Hv') as [Hd|(k' & Hin' & Hk')];
      [discriminate|].
    now exists k', v'.
Qed.

(** C7.  For the response object constructed from a raw response, with
    its headers under lower-cased names: an empty body decodes to [None]
    and raises nothing; a body without a content-type header under any
    casing of the name raises the missing header error; a content-type
    header is accepted under any casing of its name, and its value is
    compared by the text before its first [;] only: [application/json]
    is decoded as JSON, anything else is returned as text. *)
Theorem parse_body_any_casing
        (json_loads : string -> option pyval) (raw : Response) :
  (body raw = ""%string ->
   parse_body json_loads (build raw) = Ok PyNone) /\
  (body raw <> ""%string ->
   ~ has_header_nocase (headers raw) "content-type" ->
   parse_body json_loads (build raw)
   = Err (LibcloudError "Missing content-type header")) /\
  (body raw <> ""%string ->
   has_header_nocase (headers raw) "content-type" ->
   exists name ct,
     In (name, ct) (headers raw) /\
     lower name = "content-type"%string /\
     parse_body json_loads (build raw)
     = if (str_split_head semicolon ct =? "application/json")%string
       then match json_loads (body raw) with
            | Some data => Ok data
            | None => Err (MalformedResponseError "Failed to parse JSON"
                                                  (BodyText (body raw)))
            end
       else Ok (PyStr (body raw))) /\
  (forall t rest,
      str_find semicolon t = (-1)%Z ->
      str_split_head semicolon (t ++ String semicolon rest) = t).
Proof.
  destruct (parse_body_exact_names json_loads (build raw))
    as (Hempty & Hmissing & _ & Hfound & Hsplit).
  destruct (lowercase_keys_nocase (headers raw) "content-type")
    as [Hnone Hsome].
  split; [|split; [|split]].
  - exact Hempty.
  - intros Hb Hno. apply Hmissing; [exact Hb | now apply Hnone |].
    destruct (dget (headers (build raw)) "Content-Type") as [v|] eqn:E;
      [|reflexivity].
    unfold build, lowercase_keys in E. simpl in E.
    destruct (lowercase_keys_from _ _ _ _ E) as [Hd|(k & _ & Hk)];
      [discriminate|].
    exfalso. clear -Hk. destruct k as [|c k]; [discriminate|].
    simpl in Hk. injection Hk as Hc _.
    assert (Hl : forall a, lower_ascii a <> "C"%char).
    { intros a. unfold lower_ascii.
      destruct ((65 <=? nat_of_ascii a)%nat && (nat_of_ascii a <=? 90)%nat)
        eqn:Er.
      - apply andb_true_iff in Er. destruct Er as [E1 E2].
        apply Nat.leb_le in E1, E2. intros Ha.
        apply (f_equal nat_of_ascii) in Ha.
        rewrite nat_ascii_embedding in Ha by lia.
        change (nat_of_ascii "C"%char) with 67%nat in Ha. lia.
      - intros ->. discriminate Er. }
    exact (Hl c Hc).
  - intros Hb Hhas.
    destruct (Hsome Hhas) as (k & v & Hin & Hk & Hv).
    exists k, v. split; [exact Hin|]. split; [exact Hk|].
    apply (Hfound Hb v). now left.
  - exact Hsplit.
Qed.

(** The content type under the name [CONTENT-TYPE], with a parameter:
    the body [{}] is decoded as JSON. *)
Lemma parse_body_any_casing_witness :
  parse_body (AuthSpec.loads_to (PyDict [])) (build shouting)
  = Ok (PyDict []).
Proof.
  destruct (proj1 (proj2 (proj2 (parse_body_any_casing
              (AuthSpec.loads_to (PyDict [])) shouting))))
    as (name & ct & Hin & Hname & Hparse).
  - discriminate.
  - exists "CONTENT-TYPE"%string, "application/json; charset=utf-8"%string.
    split; [now left | reflexivity].
  - destruct Hin as [[= <- <-]|[]]. exact Hparse.
Defined.

End ResponseObjects.

(** ** The handshakes behind the decoder *)

Section DecodedHandshakes.
Import OpenStackAuthResponse OpenStackAuthConnection AuthSpec ResponseObject.

Variable wire : nat -> Request -> Result Response.
Variable json_loads : string -> option pyval.
Variable json_dumps : pyval -> string.
Variable parse_date : pyval -> Result datetime.
Variable str_of_headers : dict string string -> string.

(** What [self.request] raises, the handshake raises. *)
Lemma handshake_request_raises
      (transport : nat -> Request -> Result Response)
      (self : t) (force : bool) (utcnow : datetime) (e : exn) :
  In (auth_version self) SUPPORTED_VERSIONS ->
  force = true \/ _is_token_valid self utcnow = false ->
  (forall req, transport (List.length (sent self)) req = Err e) ->
  fst (authenticate transport json_loads json_dumps parse_date
         str_of_headers force utcnow self) = Err e.
Proof.
  intros Hv Hh Ht.
  rewrite (authenticate_dispatch _ _ _ _ _ _ _ _ (handshake_needed _ _ _ Hh)).
  simpl in Hv.
  destruct Hv as [E|[E|[E|[E|[E|[]]]]]]; rewrite <- E; simpl;
    unfold authenticate_1_0, authenticate_1_1,
      authenticate_2_0_with_apikey, authenticate_2_0_with_password,
      authenticate_2_0_with_body, mbind, request;
    rewrite Ht; reflexivity.
Qed.

(** C4 (as the code has it).  For each supported version, when the
    handshake is performed, the response passes through the decoder
    before the handshake looks at its status.  A response that the
    decoder rejects makes [authenticate] raise the decoder's exception,
    whatever the status.  For a response that the decoder accepts:
    status 401 raises [InvalidCredsError], which is not a
    [MalformedResponseError]; a status that is neither 401 nor a success
    code of the version (204 for 1.0, 200 for 1.1, 200 or 203 for 2.0)
    raises [MalformedResponseError] with a text that includes the status
    code and the response body. *)
Theorem handshake_errors_after_decoding
        (self : t) (force : bool) (utcnow : datetime) (raw : Response) :
  In (auth_version self) SUPPORTED_VERSIONS ->
  force = true \/ _is_token_valid self utcnow = false ->
  (forall req, wire (List.length (sent self)) req = Ok raw) ->
  (forall e,
      parse_body json_loads (build raw) = Err e ->
      fst (authenticate (request_through json_loads wire) json_loads
             json_dumps parse_date str_of_headers force utcnow self)
      = Err e) /\
  (forall v,
      parse_body json_loads (build raw) = Ok v ->
      (status raw = UNAUTHORIZED ->
       fst (authenticate (request_through json_loads wire) json_loads
              json_dumps parse_date str_of_headers force utcnow self)
       = Err InvalidCredsError /\
       forall value body,
         fst (authenticate (request_through json_loads wire) json_loads
                json_dumps parse_date str_of_headers force utcnow self)
         <> Err (MalformedResponseError value body)) /\
      (status raw <> UNAUTHORIZED ->
       ~ In (status raw) (success_codes (auth_version self)) ->
       exists text,
         fst (authenticate (request_through json_loads wire) json_loads
                json_dumps parse_date str_of_headers force utcnow self)
         = Err (MalformedResponseError "Malformed response"
                                       (BodyText text)) /\
         includes (str_of_int (status raw)) text /\
         includes (body raw) text)).
Proof.
  intros Hv Hh Hw. split.
  - intros e He. apply handshake_request_raises; try assumption.
    intros req. unfold request_through, construct. rewrite Hw. simpl.
    now rewrite He.
  - intros v Hp.
    assert (Ht : forall req,
               request_through json_loads wire (List.length (sent self)) req
               = Ok (build raw)).
    { intros req. unfold request_through, construct. rewrite Hw. simpl.
      now rewrite Hp. }
    exact (handshake_status_returned (request_through json_loads wire)
             json_loads json_dumps parse_date str_of_headers
             self force utcnow (build raw) Hv Hh Ht).
Qed.

End DecodedHandshakes.

Section DecodedSamples.
Import OpenStackAuthResponse OpenStackAuthConnection AuthSpec ResponseObject.

(** A 401 without a body raises [InvalidCredsError]; a 500 with the
    plain text [oops] raises [MalformedResponseError] with the text
    [code: 500 body: oops]; a 500 with the body [oops] and no content
    type raises the decoder's missing header error. *)
Lemma handshake_errors_after_decoding_witness :
  forced_2_0 denied_empty = Err InvalidCredsError /\
  (exists text,
      forced_2_0 broken_text
      = Err (MalformedResponseError "Malformed response" (BodyText text)) /\
      includes "500" text /\ includes "oops" text) /\
  forced_2_0 broken_text
  = Err (MalformedResponseError "Malformed response"
                                (BodyText "code: 500 body: oops")) /\
  forced_2_0 broken_bare = Err (LibcloudError "Missing content-type header").
Proof.
  split; [|split; [|split]].
  - refine (proj1 (proj1 (proj2 (handshake_errors_after_decoding
      (always denied_empty) loads_never dumps_blank date_never headers_blank
      (__init__ "https://auth.example" "2.0" "user" "key" None)
      true 0%Z denied_empty _ (or_introl eq_refl) (fun _ => eq_refl))
      PyNone eq_refl) eq_refl)).
    simpl. auto.
  - refine (proj2 (proj2 (handshake_errors_after_decoding
      (always broken_text) loads_never dumps_blank date_never headers_blank
      (__init__ "https://auth.example" "2.0" "user" "key" None)
      true 0%Z broken_text _ (or_introl eq_refl) (fun _ => eq_refl))
      (PyStr "oops") eq_refl) _ _).
    + simpl. auto.
    + discriminate.
    + simpl. intros [E|[E|[]]]; discriminate E.
  - reflexivity.
  - refine (proj1 (handshake_errors_after_decoding
      (always broken_bare) loads_never dumps_blank date_never headers_blank
      (__init__ "https://auth.example" "2.0" "user" "key" None)
      true 0%Z broken_bare _ (or_introl eq_refl) (fun _ => eq_refl))
      (LibcloudError "Missing content-type header") eq_refl).
    simpl. auto.
Defined.

(** The claim as stated fails on responses that the decoder rejects: a
    401 that announces JSON and carries an HTML page makes the 2.0
    handshake raise [MalformedResponseError], not [InvalidCredsError];
    a 500 with a body and no content type makes it raise the missing
    header error, not [MalformedResponseError]. *)
Lemma handshake_401_undecodable_counterexample :
  status denied_html = UNAUTHORIZED /\
  forced_2_0 denied_html
  = Err (MalformedResponseError "Failed to parse JSON"
                                (BodyText "<html>denied</html>")) /\
  forced_2_0 denied_html <> Err InvalidCredsError /\
  status broken_bare = 500%Z /\
  forced_2_0 broken_bare = Err (LibcloudError "Missing content-type header") /\
  (forall value body,
      forced_2_0 broken_bare <> Err (MalformedResponseError value body)).
Proof. repeat split; discriminate. Qed.

End DecodedSamples.

(** ** The requests of the handshakes *)

Section Wire.
Import OpenStackAuthConnection AuthSpec.

Variable transport : nat -> Request -> Result Response.
Variable json_loads : string -> option pyval.
Variable json_dumps : pyval -> string.
Variable parse_date : pyval -> Result datetime.
Variable str_of_headers : dict string string -> string.

Local Abbreviation authenticate :=
  (authenticate transport json_loads json_dumps parse_date str_of_headers).

Ltac silent :=
  cbv zeta;
  lazymatch goal with
  | |- quiet (ret _) => apply quiet_ret
  | |- quiet (raise _) => apply quiet_raise
  | |- quiet (lift _) => apply quiet_lift
  | |- quiet (assign _) => apply quiet_assign; intros; reflexivity
  | |- quiet (except_KeyError _ _) => apply quiet_except_KeyError; silent
  | |- quiet (mbind _ _) => apply quiet_mbind; [silent | intros; silent]
  | |- quiet (if ?c then _ else _) => destruct c; silent
  | |- quiet (match ?x with _ => _ end) => destruct x; silent
  | |- quiet (fun _ => _) =>
      let s := fresh "s" in
      intros s; cbv beta;
      repeat match goal with
             | |- context [if ?c then _ else _] => destruct c
             end;
      reflexivity
  end.

Lemma with_tenant_entry (conn : t) (kind : string) (v : pyval) :
  (kind =? "tenantName")%string = false ->
  with_tenant conn [(kind, v)] = (kind, v) :: WireSpec.tenant_entry conn.
Proof.
  intros Hk. unfold with_tenant, WireSpec.tenant_entry.
  destruct (tenant_name conn) as [tn|]; [|reflexivity].
  destruct (tn =? "")%string; simpl; [reflexivity|].
  now rewrite Hk.
Qed.

Lemma authenticate_2_0_with_body_request (reqbody : string) (conn : t) :
  sent (snd (authenticate_2_0_with_body transport json_loads parse_date
               reqbody conn))
  = sent conn
    ++ [{| action := "/v2.0/tokens";
           data := Some reqbody;
           req_headers := [("Content-Type", "application/json")]%string;
           method := "POST" |}].
Proof.
  unfold authenticate_2_0_with_body.
  apply request_then_quiet. intros resp. silent.
Qed.

(** X1.  Whenever a handshake is performed, the auth connection sends
    exactly one request, whatever the answer: for 1.0 a [GET] of [/v1.0]
    with the user and the key in the headers [X-Auth-User] and
    [X-Auth-Key] and no body; for 1.1 a [POST] to [/v1.1/auth] of the
    JSON document [{credentials: {username, key}}]; for 2.0 and
    2.0_apikey a [POST] to [/v2.0/tokens] of [{auth:
    {RAX-KSKEY:apiKeyCredentials: {username, apiKey}}}], for
    2.0_password of [{auth: {passwordCredentials: {username,
    password}}}], both declared as JSON and with [tenantName] beside the
    credentials exactly when a tenant name that is not empty is set. *)
Theorem handshake_sends_credentials
        (conn : t) (force : bool) (utcnow : datetime) :
  In (auth_version conn) SUPPORTED_VERSIONS ->
  force = true \/ _is_token_valid conn utcnow = false ->
  sent (snd (authenticate force utcnow conn))
  = sent conn ++ [WireSpec.handshake_request json_dumps conn].
Proof.
  intros Hv Hh.
  rewrite (authenticate_dispatch _ _ _ _ _ _ _ _ (handshake_needed _ _ _ Hh)).
  unfold WireSpec.handshake_request. simpl in Hv.
  destruct Hv as [E|[E|[E|[E|[E|[]]]]]]; rewrite <- E;
    cbn [String.eqb Ascii.eqb Bool.eqb orb].
  - unfold authenticate_1_0. cbv beta.
    apply request_then_quiet. intros resp. silent.
  - unfold authenticate_1_1. cbv beta zeta.
    apply request_then_quiet. intros resp. silent.
  - unfold authenticate_2_0_with_apikey.
    rewrite authenticate_2_0_with_body_request.
    rewrite with_tenant_entry by reflexivity. reflexivity.
  - unfold authenticate_2_0_with_apikey.
    rewrite authenticate_2_0_with_body_request.
    rewrite with_tenant_entry by reflexivity. reflexivity.
  - unfold authenticate_2_0_with_password.
    rewrite authenticate_2_0_with_body_request.
    rewrite with_tenant_entry by reflexivity. reflexivity.
Qed.

End Wire.

(** ** The index of the catalog *)

Section CatalogIndex.
Import OpenStackServiceCatalog CatalogSpec.

(** X2.  The index that [get_catalog] hands out files every endpoint
    record of the raw catalog exactly once and unchanged: under its
    service type (2.0 only), its service name and its region it holds
    the records of the raw catalog for that type, name and region, in
    the order of the raw catalog, and nothing else. *)
Theorem get_catalog_files_every_endpoint
        (service_catalog : pyval) (version : option string) (c : t) :
  __init__ service_catalog version = Ok c ->
  match get_catalog c with
  | IndexV2 sc =>
      str_contains "2.0" (_auth_version c) = true /\
      forall service_type name region,
        getd (getd (getd sc service_type []) name []) region []
        = matching region (candidates_v2 service_catalog service_type name)
  | IndexV1 sc =>
      str_contains "2.0" (_auth_version c) = false /\
      forall name region,
        getd (getd sc name []) region []
        = matching region (candidates_v1 service_catalog name)
  end.
Proof.
  unfold __init__, get_catalog.
  set (ver := match version with
              | Some v => if (v =? "")%string then AUTH_API_VERSION else v
              | None => AUTH_API_VERSION
              end).
  destruct (str_contains "2.0" ver) eqn:E2.
  - destruct (_parse_auth_v2 service_catalog []) as [sc|e] eqn:Ep;
      [|discriminate].
    intros [= <-]. cbn [_service_catalog _auth_version].
    split; [exact E2|]. intros ty name region.
    change (getd (getd sc ty []) name []) with (regions_at2 sc ty name).
    rewrite (parse_auth_v2_Ok _ _ Ep). rewrite getd_group. reflexivity.
  - destruct (str_contains "1.1" ver || str_contains "1.0" ver);
      [|discriminate].
    destruct (_parse_auth_v1 service_catalog []) as [sc|e] eqn:Ep;
      [|discriminate].
    intros [= <-]. cbn [_service_catalog _auth_version].
    split; [exact E2|]. intros name region.
    rewrite (parse_auth_v1_Ok _ _ Ep). rewrite getd_group. reflexivity.
Qed.

(** X3.  How the construction of a catalog fails.  A version that names
    none of 2.0, 1.1 and 1.0 is refused, whatever the raw catalog; an
    absent or empty version stands for 1.1.  The raw catalog has to have
    the shape of the version: a 2.0 catalog whose first service record
    has no [type] raises [KeyError], a dict that is not empty is not a
    2.0 catalog, and a list is not a 1.x catalog. *)
Theorem catalog_construction_errors (service_catalog : pyval) :
  (forall v,
      v <> ""%string ->
      str_contains "2.0" v = false -> str_contains "1.1" v = false ->
      str_contains "1.0" v = false ->
      __init__ service_catalog (Some v)
      = Err (LibcloudError ("auth version " ++ dquote ++ v ++ dquote
                              ++ " not supported"))) /\
  __init__ service_catalog None = __init__ service_catalog (Some "1.1"%string)
  /\
  __init__ service_catalog (Some ""%string)
  = __init__ service_catalog (Some "1.1"%string) /\
  (forall v d rest,
      str_contains "2.0" v = true ->
      service_catalog = PyList (PyDict d :: rest) ->
      dget d "type" = None ->
      __init__ service_catalog (Some v) = Err (PyKeyError "type")) /\
  (forall v k x d,
      str_contains "2.0" v = true ->
      service_catalog = PyDict ((k, x) :: d) ->
      __init__ service_catalog (Some v) = Err PyTypeError) /\
  (forall v l,
      v <> ""%string ->
      str_contains "2.0" v = false ->
      str_contains "1.1" v || str_contains "1.0" v = true ->
      service_catalog = PyList l ->
      __init__ service_catalog (Some v) = Err PyAttributeError).
Proof.
  unfold __init__. repeat split.
  - intros v Hv H2 H11 H10. apply String.eqb_neq in Hv.
    now rewrite Hv, H2, H11, H10.
  - intros v d rest H2 -> Hd.
    assert (Hv : (v =? "")%string = false).
    { destruct v; [discriminate H2 | reflexivity]. }
    rewrite Hv, H2. unfold _parse_auth_v2. cbn [py_iter bind for_each].
    unfold v2_service_body. cbn [py_getitem]. now rewrite Hd.
  - intros v k x d H2 ->.
    assert (Hv : (v =? "")%string = false).
    { destruct v; [discriminate H2 | reflexivity]. }
    rewrite Hv, H2. unfold _parse_auth_v2. reflexivity.
  - intros v l Hv H2 H1 ->. apply String.eqb_neq in Hv.
    now rewrite Hv, H2, H1.
Qed.

End CatalogIndex.

(** ** The base connection *)

Section BaseConnection.
Import OpenStackBaseConnection.

Variable transport : nat -> Request -> Result Response.
Variable json_loads : string -> option pyval.
Variable json_dumps : pyval -> string.
Variable parse_date : pyval -> Result datetime.
Variable str_of_headers : dict string string -> string.
Variable _tuple_from_url : pyval -> Result url_tuple.

Local Abbreviation ensure_token :=
  (ensure_token transport json_loads json_dumps parse_date str_of_headers).
Local Abbreviation _populate_hosts_and_request_paths :=
  (_populate_hosts_and_request_paths transport json_loads json_dumps
     parse_date str_of_headers _tuple_from_url).
Local Abbreviation get_service_catalog :=
  (get_service_catalog transport json_loads json_dumps parse_date
     str_of_headers _tuple_from_url).

Lemma given_Some (o : option string) :
  given o = true <-> exists s, o = Some s /\ s <> ""%string.
Proof.
  destruct o as [s|]; simpl.
  - rewrite negb_true_iff. split.
    + intros E. exists s. split; [reflexivity|].
      intros ->. discriminate E.
    + intros (s' & [= <-] & Hs). now apply String.eqb_neq.
  - split; [discriminate | intros (s & E & _); discriminate E].
Qed.

Lemma populate_with_token (self : t) (utcnow : datetime) :
  truthy (auth_token self) = true ->
  _populate_hosts_and_request_paths utcnow self
  = match (url <- (if given (_ex_force_base_url self)
                   then Ok (value_of (_ex_force_base_url self))
                   else get_endpoint self) ;; _tuple_from_url url) with
    | Ok parts => (Ok tt, set_connection_info (Some parts) self)
    | Err e => (Err e, self)
    end.
Proof.
  intros Htok.
  unfold OpenStackBaseConnection._populate_hosts_and_request_paths,
    OpenStackBaseConnection.ensure_token.
  rewrite Htok. cbn [negb]. reflexivity.
Qed.

(** X4.  A connection that holds a token resolves its endpoint without
    the auth connection: [_populate_hosts_and_request_paths] leaves the
    auth connection, the token, its expiry, the user info and the
    catalog as they are, at every clock reading and whatever the expiry;
    only the connection info is assigned, and only when the URL is
    resolved. *)
Theorem populate_with_token_never_authenticates
        (self : t) (utcnow : datetime) :
  truthy (auth_token self) = true ->
  ensure_token utcnow self = (Ok tt, self) /\
  (snd (_populate_hosts_and_request_paths utcnow self) = self \/
   exists parts,
     _populate_hosts_and_request_paths utcnow self
     = (Ok tt, set_connection_info (Some parts) self)) /\
  _auth_connection (snd (_populate_hosts_and_request_paths utcnow self))
  = _auth_connection self /\
  auth_token (snd (_populate_hosts_and_request_paths utcnow self))
  = auth_token self /\
  auth_token_expires (snd (_populate_hosts_and_request_paths utcnow self))
  = auth_token_expires self /\
  service_catalog (snd (_populate_hosts_and_request_paths utcnow self))
  = service_catalog self.
Proof.
  intros Htok.
  assert (He : ensure_token utcnow self = (Ok tt, self)).
  { unfold OpenStackBaseConnection.ensure_token. now rewrite Htok. }
  split; [exact He|].
  unfold OpenStackBaseConnection._populate_hosts_and_request_paths.
  rewrite He.
  destruct (url <- (if given (_ex_force_base_url self)
                    then Ok (value_of (_ex_force_base_url self))
                    else get_endpoint self) ;; _tuple_from_url url)
    as [parts|e]; simpl.
  - split; [right; now exists parts|]. repeat split.
  - split; [now left|]. repeat split.
Qed.

(** X5.  The constructor fails exactly when a token is forced without a
    base URL.  Otherwise the connection starts without a catalog, with
    the forced token if one was given, and with the auth version of the
    class if the class has one, else the forced version, else [1.1]: a
    forced version does not override the version of the class. *)
Theorem base_init_outcome
        (cls : class_attributes) (user key : string) (kwargs : options) :
  (given (ex_force_auth_token kwargs) = true ->
   given (ex_force_base_url kwargs) = false ->
   __init__ cls user key kwargs
   = Err (LibcloudError
            ("Must also provide ex_force_base_url when specifying "
               ++ "ex_force_auth_token."))) /\
  (given (ex_force_auth_token kwargs) = false
   \/ given (ex_force_base_url kwargs) = true ->
   exists self,
     __init__ cls user key kwargs = Ok self /\
     (given (class_auth_version cls) = true ->
      Some (_auth_version self) = class_auth_version cls) /\
     (given (class_auth_version cls) = false ->
      given (ex_force_auth_version kwargs) = true ->
      Some (_auth_version self) = ex_force_auth_version kwargs) /\
     (given (class_auth_version cls) = false ->
      given (ex_force_auth_version kwargs) = false ->
      _auth_version self = "1.1"%string) /\
     auth_token self
     = (if given (ex_force_auth_token kwargs)
        then value_of (ex_force_auth_token kwargs) else PyNone) /\
     truthy (auth_token self) = given (ex_force_auth_token kwargs) /\
     _auth_connection self = ex_auth_connection kwargs /\
     service_catalog self = None).
Proof.
  unfold __init__. split.
  - intros -> ->. reflexivity.
  - intros Hok.
    assert (E : given (ex_force_auth_token kwargs)
                && negb (given (ex_force_base_url kwargs)) = false).
    { destruct Hok as [-> | ->]; [reflexivity | apply andb_false_r]. }
    rewrite E. eexists. split; [reflexivity|]. cbn [_auth_version
      auth_token _auth_connection service_catalog]. unfold or_else.
    repeat split.
    + intros Hc. rewrite Hc.
      apply given_Some in Hc. destruct Hc as (v & -> & Hv).
      apply String.eqb_neq in Hv. now rewrite Hv.
    + intros Hc Hf. rewrite Hc.
      apply given_Some in Hf. destruct Hf as (v & -> & Hv).
      apply String.eqb_neq in Hv. now rewrite Hv.
    + intros Hc Hf. rewrite Hc.
      destruct (ex_force_auth_version kwargs) as [v|]; [|reflexivity].
      simpl in Hf. apply negb_false_iff in Hf. now rewrite Hf.
    + destruct (ex_force_auth_token kwargs) as [tk|]; [|reflexivity].
      simpl. destruct (tk =? "")%string eqn:Et; simpl;
        [reflexivity | now rewrite Et].
Qed.

(** X6.  The bypassed mode: a connection constructed with a forced token
    and a forced base URL resolves that URL and nothing else.  No auth
    connection is made or used, and no catalog is built:
    [get_service_catalog] answers [None]. *)
Theorem forced_token_bypasses_authentication
        (cls : class_attributes) (user key : string) (kwargs : options) :
  given (ex_force_auth_token kwargs) = true ->
  given (ex_force_base_url kwargs) = true ->
  exists self,
    __init__ cls user key kwargs = Ok self /\
    forall utcnow,
      _populate_hosts_and_request_paths utcnow self
      = match _tuple_from_url (value_of (ex_force_base_url kwargs)) with
        | Ok parts => (Ok tt, set_connection_info (Some parts) self)
        | Err e => (Err e, self)
        end /\
      _auth_connection (snd (_populate_hosts_and_request_paths utcnow self))
      = ex_auth_connection kwargs /\
      fst (get_service_catalog utcnow self)
      = match _tuple_from_url (value_of (ex_force_base_url kwargs)) with
        | Ok _ => Ok None
        | Err e => Err e
        end.
Proof.
  intros Htok Hbase. unfold __init__. rewrite Htok, Hbase. simpl.
  eexists. split; [reflexivity|].
  match goal with |- forall _, ?P _ ?s = _ /\ _ => set (self := s) end.
  assert (Ht : truthy (auth_token self) = true).
  { subst self. cbn [auth_token].
    destruct (ex_force_auth_token kwargs); [exact Htok | discriminate]. }
  intros utcnow.
  unfold OpenStackBaseConnection.get_service_catalog.
  rewrite (populate_with_token self utcnow Ht).
  change (_ex_force_base_url self) with (ex_force_base_url kwargs).
  change (service_catalog self) with (@None OpenStackServiceCatalog.t).
  rewrite Hbase. cbn [bind].
  destruct (_tuple_from_url (value_of (ex_force_base_url kwargs)));
    repeat split.
Qed.

(** X7.  The auth connection of a connection is made once: with no auth
    URL, neither forced nor of the class, [get_auth_connection_instance]
    raises and changes nothing; with one, a forced URL before the URL of
    the class, it answers the auth connection the connection holds, an
    injected one as it is, and makes one from the URL, the auth version,
    the credentials and the tenant name only when it holds none; a
    second call answers the same one and changes nothing. *)
Theorem auth_connection_instance_made_once (self : t) :
  (_ex_force_auth_url self = None -> auth_url self = None ->
   get_auth_connection_instance self
   = (Err (LibcloudError "OpenStack instance must have auth_url set"),
      self)) /\
  (forall url,
      _ex_force_auth_url self = Some url
      \/ (_ex_force_auth_url self = None /\ auth_url self = Some url) ->
      exists conn,
        get_auth_connection_instance self
        = (Ok conn, set_auth_connection (Some conn) self) /\
        (forall held, _auth_connection self = Some held -> conn = held) /\
        (_auth_connection self = None ->
         conn = OpenStackAuthConnection.__init__ url (_auth_version self)
                  (user_id self) (key self) (_ex_tenant_name self)) /\
        get_auth_connection_instance (set_auth_connection (Some conn) self)
        = (Ok conn, set_auth_connection (Some conn) self)).
Proof.
  unfold get_auth_connection_instance. split.
  - intros -> ->. reflexivity.
  - intros url Hurl.
    assert (E : match _ex_force_auth_url self with
                | Some forced => Some forced
                | None => auth_url self
                end = Some url).
    { destruct Hurl as [-> | [-> ->]]; reflexivity. }
    rewrite E.
    assert (E' : match
                   _ex_force_auth_url
                     (set_auth_connection
                        (Some (OpenStackAuthConnection.__init__ url
                                 (_auth_version self) (user_id self)
                                 (key self) (_ex_tenant_name self))) self)
                 with
                 | Some forced => Some forced
                 | None => auth_url self
                 end = Some url) by exact E.
    destruct (_auth_connection self) as [held|] eqn:Hheld.
    + exists held. split.
      * f_equal. destruct self; simpl in *. now rewrite Hheld.
      * split; [now intros ? [= <-]|]. split; [discriminate|].
        cbn [set_auth_connection _ex_force_auth_url auth_url
               _auth_connection]. now rewrite E.
    + eexists. split; [reflexivity|]. split; [discriminate|].
      split; [reflexivity|].
      cbn [set_auth_connection _ex_force_auth_url auth_url
             _auth_connection]. now rewrite E.
Qed.

End BaseConnection.

Section BaseEndpoint.
Import OpenStackBaseConnection.

(** The override of a provider default: the forced value when it is
    given (not [None], not empty), else the default. *)
Local Abbreviation pick forced default :=
  (if given forced then forced else default).

(** X8.  The endpoint of a connection is the [publicURL] of the one
    endpoint that the catalog has for the service type, name and region
    of the provider's class, each replaced by its forced value when one
    is given.  When the catalog has no such endpoint or several, or when
    the only one has no [publicURL], [get_endpoint] raises. *)
Theorem base_get_endpoint_public_url
        (self : t) (raw : pyval) (version : option string)
        (c : OpenStackServiceCatalog.t) :
  OpenStackServiceCatalog.__init__ raw version = Ok c ->
  service_catalog self = Some c ->
  let found :=
    CatalogSpec.matching
      (key_of (pick (_ex_force_service_region self) (service_region self)))
      (CatalogSpec.candidates (OpenStackServiceCatalog._auth_version c) raw
         (key_of (pick (_ex_force_service_type self) (service_type self)))
         (key_of (pick (_ex_force_service_name self) (service_name self))))
  in
  (forall e url,
      found = [e] -> py_getitem e "publicURL" = Ok url ->
      get_endpoint self = Ok url) /\
  (forall e,
      found = [e] -> py_getitem e "publicURL" = Err (PyKeyError "publicURL") ->
      get_endpoint self
      = Err (LibcloudError "Could not find specified endpoint")) /\
  (List.length found <> 1%nat ->
   get_endpoint self
   = Err (LibcloudError "Could not find specified endpoint")).
Proof.
  intros Hc Hcat found. unfold get_endpoint. rewrite Hcat.
  unfold OpenStackServiceCatalog.get_endpoint.
  rewrite (select_regions_constructed _ _ _ Hc). cbn [bind].
  rewrite getd_group. change (getd [] ?r []) with (@nil pyval).
  cbn [app]. fold found.
  assert (Hdict : forall e, found = [e] -> exists d, e = PyDict d).
  { intros e He.
    assert (Hin : In e found) by (rewrite He; now left).
    unfold found, CatalogSpec.matching in Hin.
    apply in_map_iff in Hin. destruct Hin as ([r e'] & <- & Hin).
    apply filter_In in Hin. destruct Hin as [Hin _].
    exact (candidates_dict _ _ _ _ _ _ Hin). }
  split; [|split].
  - intros e url He Hurl. destruct (Hdict e He) as (d & ->).
    rewrite He. cbn. simpl in Hurl.
    unfold dmem. destruct (dget d "publicURL") as [u|]; [|discriminate].
    exact Hurl.
  - intros e He Hurl. destruct (Hdict e He) as (d & ->).
    rewrite He. cbn. simpl in Hurl.
    unfold dmem. destruct (dget d "publicURL") as [u|]; [discriminate|].
    reflexivity.
  - intros Hlen.
    destruct (Nat.eqb_spec (List.length found) 1); [contradiction|].
    reflexivity.
Qed.

End BaseEndpoint.

Section Unauthorized.

Variable transport : nat -> Request -> Result Response.
Variable json_loads : string -> option pyval.
Variable json_dumps : pyval -> string.
Variable parse_date : pyval -> Result datetime.
Variable str_of_headers : dict string string -> string.

Local Abbreviation authenticate :=
  (OpenStackAuthConnection.authenticate transport json_loads json_dumps
     parse_date str_of_headers).

(** A handshake that is answered with 401 raises [InvalidCredsError]
    and leaves the auth connection as it was, but for the request. *)
Lemma authenticate_unauthorized
      (conn : OpenStackAuthConnection.t) (force : bool) (utcnow : datetime)
      (resp : Response) :
  In (OpenStackAuthConnection.auth_version conn) AuthSpec.SUPPORTED_VERSIONS ->
  force = true \/ OpenStackAuthConnection._is_token_valid conn utcnow = false ->
  (forall req,
      transport (List.length (OpenStackAuthConnection.sent conn)) req
      = Ok resp) ->
  status resp = UNAUTHORIZED ->
  exists req,
    authenticate force utcnow conn
    = (Err InvalidCredsError, AuthSpec.requested req conn) /\
    action req
    = AuthSpec.handshake_path (OpenStackAuthConnection.auth_version conn).
Proof.
  intros Hv Hh Ht Hs.
  rewrite (authenticate_dispatch _ _ _ _ _ _ _ _ (handshake_needed _ _ _ Hh)).
  simpl in Hv.
  destruct Hv as [E|[E|[E|[E|[E|[]]]]]]; rewrite <- E; simpl;
    unfold OpenStackAuthConnection.authenticate_1_0,
      OpenStackAuthConnection.authenticate_1_1,
      OpenStackAuthConnection.authenticate_2_0_with_apikey,
      OpenStackAuthConnection.authenticate_2_0_with_password,
      OpenStackAuthConnection.authenticate_2_0_with_body,
      OpenStackAuthConnection.mbind, OpenStackAuthConnection.request;
    rewrite Ht, Hs; simpl; eexists; split; reflexivity.
Qed.

(** The 1.0 handshake on a 204 answer. *)
Lemma authenticate_1_0_accepted
      (conn : OpenStackAuthConnection.t) (resp : Response) :
  (forall req,
      transport (List.length (OpenStackAuthConnection.sent conn)) req
      = Ok resp) ->
  status resp = NO_CONTENT ->
  OpenStackAuthConnection.authenticate_1_0 transport str_of_headers conn
  = (if truthy (OpenStackAuthConnection.header_get (headers resp)
                  "x-auth-token")
     then Ok tt
     else Err (MalformedResponseError
                 OpenStackAuthConnection.missing_token_message BodyNone),
     OpenStackAuthConnection.set_auth_user_info PyNone
       (OpenStackAuthConnection.set_auth_token
          (OpenStackAuthConnection.header_get (headers resp) "x-auth-token")
          (OpenStackAuthConnection.set_urls
             (PyDict
                [("cloudServers"%string,
                  PyList [PyDict [("publicURL"%string,
                     OpenStackAuthConnection.header_get (headers resp)
                       "x-server-management-url")]]);
                 ("cloudFilesCDN"%string,
                  PyList [PyDict [("publicURL"%string,
                     OpenStackAuthConnection.header_get (headers resp)
                       "x-cdn-management-url")]]);
                 ("cloudFiles"%string,
                  PyList [PyDict [("publicURL"%string,
                     OpenStackAuthConnection.header_get (headers resp)
                       "x-storage-url")]])])
             (AuthSpec.requested
                {| action := "/v1.0";
                   data := None;
                   req_headers :=
                     [("X-Auth-User"%string,
                       OpenStackAuthConnection.user_id conn);
                      ("X-Auth-Key"%string,
                       OpenStackAuthConnection.key conn)];
                   method := "GET" |} conn)))).
Proof.
  intros Ht Hs.
  unfold OpenStackAuthConnection.authenticate_1_0,
    OpenStackAuthConnection.mbind, OpenStackAuthConnection.request.
  rewrite Ht, Hs. simpl.
  destruct (truthy (OpenStackAuthConnection.header_get (headers resp)
                      "x-auth-token")); reflexivity.
Qed.

(** The 2.0 handshake on an answer that has all it reads. *)
Lemma authenticate_2_0_accepted
      (reqbody : string) (conn : OpenStackAuthConnection.t)
      (resp : Response) (doc access tk ex id cat : pyval) (d : datetime) :
  (forall req,
      transport (List.length (OpenStackAuthConnection.sent conn)) req
      = Ok resp) ->
  In (status resp) [OK; NON_AUTHORITATIVE_INFORMATION] ->
  json_loads (body resp) = Some doc ->
  py_getitem doc "access" = Ok access ->
  py_getitem access "token" = Ok tk ->
  py_getitem tk "expires" = Ok ex ->
  py_getitem tk "id" = Ok id ->
  parse_date ex = Ok d ->
  py_getitem access "serviceCatalog" = Ok cat ->
  exists user,
    py_get access "user" (PyDict []) = Ok user /\
    OpenStackAuthConnection.authenticate_2_0_with_body transport json_loads
      parse_date reqbody conn
    = (Ok tt,
       OpenStackAuthConnection.set_auth_user_info user
         (OpenStackAuthConnection.set_urls cat
            (OpenStackAuthConnection.set_auth_token_expires (Some d)
               (OpenStackAuthConnection.set_auth_token id
                  (AuthSpec.requested
                     {| action := "/v2.0/tokens";
                        data := Some reqbody;
                        req_headers :=
                          [("Content-Type", "application/json")]%string;
                        method := "POST" |} conn))))).
Proof.
  intros Ht Hs Hj Ha Htk Hex Hid Hd Hcat.
  assert (Hu : exists user, py_get access "user" (PyDict []) = Ok user).
  { destruct access; try discriminate Htk. eexists. reflexivity. }
  destruct Hu as (user & Hu). exists user. split; [exact Hu|].
  unfold OpenStackAuthConnection.authenticate_2_0_with_body,
    OpenStackAuthConnection.except_KeyError, OpenStackAuthConnection.mbind,
    OpenStackAuthConnection.request, OpenStackAuthConnection.lift,
    OpenStackAuthConnection.assign, OpenStackAuthConnection.ret,
    OpenStackAuthConnection.raise.
  rewrite Ht.
  assert (Hst : (status resp =? UNAUTHORIZED)%Z = false
                /\ negb ((status resp =? OK)%Z
                         || (status resp =? NON_AUTHORITATIVE_INFORMATION)%Z)
                   = false).
  { destruct Hs as [<-|[<-|[]]]; split; reflexivity. }
  destruct Hst as [-> ->]. rewrite Hj. cbn [fst snd].
  rewrite Ha. cbn [bind fst snd]. rewrite Htk. cbn [bind fst snd].
  rewrite Hex, Hid. cbn [bind fst snd]. rewrite Hd. cbn [bind fst snd].
  rewrite Hcat. cbn [bind fst snd]. rewrite Hu. reflexivity.
Qed.

End Unauthorized.

Section LazyAuthentication.
Import OpenStackBaseConnection.

(** What the wire delivers passes through the response object before
    the handshake sees it. *)
Variable wire : nat -> Request -> Result Response.
Variable json_loads : string -> option pyval.
Variable json_dumps : pyval -> string.
Variable parse_date : pyval -> Result datetime.
Variable str_of_headers : dict string string -> string.
Variable _tuple_from_url : pyval -> Result url_tuple.

Local Abbreviation transport :=
  (ResponseObject.request_through json_loads wire).
Local Abbreviation _populate_hosts_and_request_paths :=
  (_populate_hosts_and_request_paths transport json_loads json_dumps
     parse_date str_of_headers _tuple_from_url).

Lemma request_through_accepted (raw : Response) (v : pyval) :
  (forall n req, wire n req = Ok raw) ->
  OpenStackAuthResponse.parse_body json_loads (ResponseObject.build raw)
  = Ok v ->
  forall n req, transport n req = Ok (ResponseObject.build raw).
Proof.
  intros Hw Hp n req.
  unfold ResponseObject.request_through, ResponseObject.construct.
  rewrite Hw. simpl. now rewrite Hp.
Qed.

Lemma get_auth_connection_instance_fresh (self : t) (url : string) :
  _auth_connection self = None ->
  _ex_force_auth_url self = Some url
  \/ (_ex_force_auth_url self = None /\ auth_url self = Some url) ->
  get_auth_connection_instance self
  = (Ok (OpenStackAuthConnection.__init__ url (_auth_version self)
           (user_id self) (key self) (_ex_tenant_name self)),
     set_auth_connection
       (Some (OpenStackAuthConnection.__init__ url (_auth_version self)
                (user_id self) (key self) (_ex_tenant_name self))) self).
Proof.
  intros Hnone Hurl. unfold get_auth_connection_instance. rewrite Hnone.
  destruct Hurl as [-> | [-> ->]]; reflexivity.
Qed.

(** X9.  A connection without a token authenticates on every use until
    it has one.  When the identity service answers 401 with a response
    that the decoder accepts, the use raises [InvalidCredsError] after
    exactly one request to the path of the auth version; the connection
    keeps its auth connection and stays without a token, so that the
    next use sends one more request. *)
Theorem populate_retries_after_unauthorized
        (self : t) (url : string) (raw : Response) (v : pyval)
        (utcnow later : datetime) :
  truthy (auth_token self) = false ->
  _auth_connection self = None ->
  _ex_force_auth_url self = Some url
  \/ (_ex_force_auth_url self = None /\ auth_url self = Some url) ->
  In (_auth_version self) AuthSpec.SUPPORTED_VERSIONS ->
  (forall n req, wire n req = Ok raw) ->
  OpenStackAuthResponse.parse_body json_loads (ResponseObject.build raw)
  = Ok v ->
  status raw = UNAUTHORIZED ->
  exists first second,
    _populate_hosts_and_request_paths utcnow self
    = (Err InvalidCredsError,
       set_auth_connection
         (Some (AuthSpec.requested first
                  (OpenStackAuthConnection.__init__ url (_auth_version self)
                     (user_id self) (key self) (_ex_tenant_name self))))
         self) /\
    action first = AuthSpec.handshake_path (_auth_version self) /\
    (exists conn,
        _populate_hosts_and_request_paths later
          (snd (_populate_hosts_and_request_paths utcnow self))
        = (Err InvalidCredsError, set_auth_connection (Some conn) self) /\
        OpenStackAuthConnection.sent conn = [first; second] /\
        OpenStackAuthConnection.auth_token conn = PyNone) /\
    action second = AuthSpec.handshake_path (_auth_version self).
Proof.
  intros Htok Hnone Hurl Hv Hw Hp Hs.
  pose proof (request_through_accepted raw v Hw Hp) as Ht.
  pose proof (get_auth_connection_instance_fresh self url Hnone Hurl)
    as Hget.
  set (conn0 := OpenStackAuthConnection.__init__ url (_auth_version self)
                  (user_id self) (key self) (_ex_tenant_name self)) in *.
  destruct (authenticate_unauthorized transport json_loads json_dumps
              parse_date str_of_headers conn0 false utcnow
              (ResponseObject.build raw) Hv
              (or_intror eq_refl) (fun req => Ht _ req) Hs)
    as (first & Hauth & Hpath).
  set (conn1 := AuthSpec.requested first conn0) in *.
  set (self1 := set_auth_connection (Some conn1) self).
  assert (Hfirst : _populate_hosts_and_request_paths utcnow self
                   = (Err InvalidCredsError, self1)).
  { unfold OpenStackBaseConnection._populate_hosts_and_request_paths,
      OpenStackBaseConnection.ensure_token.
    rewrite Htok, Hget. cbn [negb]. rewrite Hauth. reflexivity. }
  destruct (authenticate_unauthorized transport json_loads json_dumps
              parse_date str_of_headers conn1 false later
              (ResponseObject.build raw) Hv
              (or_intror eq_refl) (fun req => Ht _ req) Hs)
    as (second & Hauth2 & Hpath2).
  exists first, second. split; [exact Hfirst|]. split; [exact Hpath|].
  split; [|exact Hpath2].
  exists (AuthSpec.requested second conn1). rewrite Hfirst. cbn [snd].
  split; [|split; reflexivity].
  unfold OpenStackBaseConnection._populate_hosts_and_request_paths,
    OpenStackBaseConnection.ensure_token.
  change (auth_token self1) with (auth_token self). rewrite Htok.
  cbn [negb].
  assert (Hget1 : get_auth_connection_instance self1 = (Ok conn1, self1)).
  { unfold get_auth_connection_instance.
    change (_ex_force_auth_url self1) with (_ex_force_auth_url self).
    change (auth_url self1) with (auth_url self).
    change (_auth_connection self1) with (Some conn1).
    destruct Hurl as [-> | [-> ->]]; reflexivity. }
  rewrite Hget1, Hauth2. reflexivity.
Qed.


(** What [ensure_token] assigns when the handshake returns and the
    catalog is built. *)
Lemma ensure_token_authenticated
      (self self1 : t) (conn conn' : OpenStackAuthConnection.t)
      (c : OpenStackServiceCatalog.t) (utcnow : datetime) :
  truthy (auth_token self) = false ->
  get_auth_connection_instance self = (Ok conn, self1) ->
  OpenStackAuthConnection.authenticate transport json_loads json_dumps
    parse_date str_of_headers false utcnow conn = (Ok tt, conn') ->
  OpenStackServiceCatalog.__init__ (OpenStackAuthConnection.urls conn')
    (Some (_auth_version self1)) = Ok c ->
  OpenStackBaseConnection.ensure_token transport json_loads json_dumps
    parse_date str_of_headers utcnow self
  = (Ok tt,
     set_service_catalog (Some c)
       (set_auth_user_info (OpenStackAuthConnection.auth_user_info conn')
          (set_auth_token_expires
             (OpenStackAuthConnection.auth_token_expires conn')
             (set_auth_token (OpenStackAuthConnection.auth_token conn')
                (set_auth_connection (Some conn') self1))))).
Proof.
  intros Htok Hget Hauth Hcat.
  unfold OpenStackBaseConnection.ensure_token.
  rewrite Htok, Hget. cbn [negb]. rewrite Hauth.
  change (_auth_version
            (set_auth_user_info ?a (set_auth_token_expires ?b
               (set_auth_token ?d (set_auth_connection ?f self1)))))
    with (_auth_version self1).
  now rewrite Hcat.
Qed.

(** The [urls] that the 1.0 handshake makes of the response headers. *)
Local Abbreviation urls_1_0 servers cdn storage :=
  (PyDict [("cloudServers"%string,
            PyList [PyDict [("publicURL"%string, servers)]]);
           ("cloudFilesCDN"%string,
            PyList [PyDict [("publicURL"%string, cdn)]]);
           ("cloudFiles"%string,
            PyList [PyDict [("publicURL"%string, storage)]])]).

Lemma catalog_1_0 (servers cdn storage : pyval) :
  exists c,
    OpenStackServiceCatalog.__init__ (urls_1_0 servers cdn storage)
      (Some "1.0"%string) = Ok c /\
    (forall ty,
        OpenStackServiceCatalog.get_endpoint c ty (KStr "cloudServers") KNone
        = Ok (PyDict [("publicURL"%string, servers)]) /\
        OpenStackServiceCatalog.get_endpoint c ty (KStr "cloudFilesCDN") KNone
        = Ok (PyDict [("publicURL"%string, cdn)]) /\
        OpenStackServiceCatalog.get_endpoint c ty (KStr "cloudFiles") KNone
        = Ok (PyDict [("publicURL"%string, storage)])) /\
    (forall ty name r,
        OpenStackServiceCatalog.get_endpoint c ty (KStr name) (KStr r)
        = Ok (PyDict [])).
Proof.
  eexists. split; [vm_compute; reflexivity|]. split.
  - intros ty. repeat split.
  - intros ty name r.
    unfold OpenStackServiceCatalog.get_endpoint,
      OpenStackServiceCatalog.select_regions.
    cbn [OpenStackServiceCatalog._auth_version
           OpenStackServiceCatalog._service_catalog].
    change (str_contains "2.0" "1.0") with false.
    change (str_contains "1.1" "1.0" || str_contains "1.0" "1.0")
      with true.
    cbn [bind]. unfold getd at 2. cbn [dget keqb KeyEq_pykey pykey_eqb].
    destruct (String.eqb "cloudServers" name);
      [reflexivity|].
    destruct (String.eqb "cloudFilesCDN" name);
      [reflexivity|].
    destruct (String.eqb "cloudFiles" name); reflexivity.
Qed.

(** The services of a 1.0 catalog and the response headers that give
    their URLs. *)
Local Abbreviation services_1_0 :=
  [("cloudServers", "x-server-management-url");
   ("cloudFilesCDN", "x-cdn-management-url");
   ("cloudFiles", "x-storage-url")]%string.


(** The user info of a 2.0 answer: [access.get('user', {})]. *)
Local Abbreviation user_of doc :=
  (match AuthSpec.py_path doc ["access"; "user"]%string with
   | Ok user => user
   | Err _ => PyDict []
   end).

(** X11.  The first use of a 2.0 connection: when the identity service
    answers the handshake with 200 or 203 and a JSON document that has
    [access.token.id], an [access.token.expires] that parses and
    [access.serviceCatalog], from which a catalog can be built, the
    connection sends one request and takes the token, its expiry and the
    user info of the document and the catalog built from it for the auth
    version of the connection.  It then resolves the forced base URL if
    one is given, else the endpoint that this catalog has for it. *)
Theorem populate_2_0_takes_token_and_catalog
        (self : t) (url : string) (raw : Response) (v doc id cat : pyval)
        (d : datetime) (c : OpenStackServiceCatalog.t) (utcnow : datetime) :
  truthy (auth_token self) = false ->
  _auth_connection self = None ->
  _ex_force_auth_url self = Some url
  \/ (_ex_force_auth_url self = None /\ auth_url self = Some url) ->
  In (_auth_version self) ["2.0"; "2.0_apikey"; "2.0_password"]%string ->
  (forall req, wire 0 req = Ok raw) ->
  In (status raw) [OK; NON_AUTHORITATIVE_INFORMATION] ->
  OpenStackAuthResponse.parse_body json_loads (ResponseObject.build raw)
  = Ok v ->
  json_loads (body raw) = Some doc ->
  AuthSpec.py_path doc ["access"; "token"; "id"]%string = Ok id ->
  (x <- AuthSpec.py_path doc ["access"; "token"; "expires"]%string ;;
   parse_date x) = Ok d ->
  AuthSpec.py_path doc ["access"; "serviceCatalog"]%string = Ok cat ->
  OpenStackServiceCatalog.__init__ cat (Some (_auth_version self)) = Ok c ->
  let after := snd (_populate_hosts_and_request_paths utcnow self) in
  auth_token after = id /\
  auth_token_expires after = Some d /\
  auth_user_info after = user_of doc /\
  service_catalog after = Some c /\
  (exists conn,
      _auth_connection after = Some conn /\
      OpenStackAuthConnection.sent conn
      = [WireSpec.handshake_request json_dumps
           (OpenStackAuthConnection.__init__ url (_auth_version self)
              (user_id self) (key self) (_ex_tenant_name self))] /\
      OpenStackAuthConnection.auth_token conn = id) /\
  fst (_populate_hosts_and_request_paths utcnow self)
  = (u <- (if given (_ex_force_base_url self)
           then Ok (value_of (_ex_force_base_url self))
           else get_endpoint after) ;;
     _ <- _tuple_from_url u ;; Ok tt) /\
  (forall u parts,
      (if given (_ex_force_base_url self)
       then Ok (value_of (_ex_force_base_url self))
       else get_endpoint after) = Ok u ->
      _tuple_from_url u = Ok parts ->
      connection_info after = Some parts).
Proof.
  intros Htok Hnone Hurl Hver Hw Hs Hp Hj Hid Hex Hcat Hc after.
  pose proof (get_auth_connection_instance_fresh self url Hnone Hurl)
    as Hget.
  set (conn0 := OpenStackAuthConnection.__init__ url (_auth_version self)
                  (user_id self) (key self) (_ex_tenant_name self)) in *.
  set (self1 := set_auth_connection (Some conn0) self) in *.
  assert (Ht : forall req,
             transport (List.length (OpenStackAuthConnection.sent conn0)) req
             = Ok (ResponseObject.build raw)).
  { intros req. unfold ResponseObject.request_through,
      ResponseObject.construct. cbn [OpenStackAuthConnection.sent conn0
        OpenStackAuthConnection.__init__ List.length].
    rewrite Hw. cbn [bind OpenStackAuthResponse.success]. now rewrite Hp. }
  cbn [AuthSpec.py_path] in Hid, Hex, Hcat.
  inv_bind Hid. rename a into access, E into Ha.
  inv_bind Hid. rename a into tk, E into Htk.
  inv_bind Hid. rename a into id', E into Hid'.
  injection Hid as ->.
  rewrite Ha in Hex, Hcat. cbn [bind] in Hex, Hcat. rewrite Htk in Hex.
  cbn [bind] in Hex.
  apply bind_Ok in Hex. destruct Hex as (ex & Hex' & Hex).
  apply bind_Ok in Hex'. destruct Hex' as (ex' & Hex' & [= ->]).
  apply bind_Ok in Hcat. destruct Hcat as (cat' & Hcat' & [= ->]).
  assert (Hauth : exists conn',
    OpenStackAuthConnection.authenticate transport json_loads json_dumps
      parse_date str_of_headers false utcnow conn0 = (Ok tt, conn') /\
    OpenStackAuthConnection.urls conn' = cat /\
    OpenStackAuthConnection.auth_token conn' = id /\
    OpenStackAuthConnection.auth_token_expires conn' = Some d /\
    OpenStackAuthConnection.auth_user_info conn' = user_of doc /\
    OpenStackAuthConnection.sent conn'
    = [WireSpec.handshake_request json_dumps conn0]).
  { rewrite (authenticate_dispatch _ _ _ _ _ _ _ _
               (handshake_needed false utcnow conn0 (or_intror eq_refl))).
    unfold WireSpec.handshake_request.
    change (OpenStackAuthConnection.auth_version conn0)
      with (_auth_version self).
    change (OpenStackAuthConnection.sent conn0) with (@nil Request) in Ht.
    assert (Huser : forall user,
               py_get access "user" (PyDict []) = Ok user ->
               user = user_of doc).
    { intros user Hu. cbn [AuthSpec.py_path]. rewrite Ha. cbn [bind].
      destruct access as [| | | | |da|]; try discriminate Hu.
      simpl in Hu. injection Hu as <-. simpl. unfold getd.
      destruct (dget da "user"); reflexivity. }
    simpl in Hver.
    destruct Hver as [E|[E|[E|[]]]]; rewrite <- E;
      cbn [String.eqb Ascii.eqb Bool.eqb orb];
      unfold OpenStackAuthConnection.authenticate_2_0_with_apikey,
        OpenStackAuthConnection.authenticate_2_0_with_password;
      match goal with
      | |- context [OpenStackAuthConnection.authenticate_2_0_with_body
                      _ _ _ ?b conn0] =>
          destruct (authenticate_2_0_accepted transport json_loads
                      parse_date b conn0 (ResponseObject.build raw)
                      doc access tk ex id cat d Ht Hs Hj Ha Htk Hex' Hid'
                      Hex Hcat') as (user & Hu & ->)
      end;
      eexists; (split; [reflexivity|]);
      cbn [OpenStackAuthConnection.urls OpenStackAuthConnection.auth_token
           OpenStackAuthConnection.auth_token_expires
           OpenStackAuthConnection.auth_user_info
           OpenStackAuthConnection.sent
           OpenStackAuthConnection.set_auth_user_info
           OpenStackAuthConnection.set_urls
           OpenStackAuthConnection.set_auth_token_expires
           OpenStackAuthConnection.set_auth_token
           OpenStackAuthConnection.set_sent AuthSpec.requested];
      rewrite (Huser user Hu);
      rewrite with_tenant_entry by reflexivity;
      repeat split. }
  destruct Hauth as (conn' & Hauth & Hurls & Htoken & Hexp & Hinfo & Hsent).
  rewrite <- Hurls in Hc.
  pose proof (ensure_token_authenticated self self1 conn0 conn' c utcnow
                Htok Hget Hauth Hc) as Hens.
  rewrite Htoken, Hexp, Hinfo in Hens.
  match type of Hens with _ = (_, ?x) => set (self2 := x) in * end.
  assert (Hpop : _populate_hosts_and_request_paths utcnow self
                 = match (u <- (if given (_ex_force_base_url self)
                                then Ok (value_of (_ex_force_base_url self))
                                else get_endpoint self2) ;;
                          _tuple_from_url u) with
                   | Ok parts =>
                       (Ok tt, set_connection_info (Some parts) self2)
                   | Err e => (Err e, self2)
                   end).
  { unfold OpenStackBaseConnection._populate_hosts_and_request_paths.
    rewrite Hens. reflexivity. }
  assert (Hep : get_endpoint after = get_endpoint self2).
  { subst after. rewrite Hpop.
    destruct (u <- (if given (_ex_force_base_url self)
                    then Ok (value_of (_ex_force_base_url self))
                    else get_endpoint self2) ;; _tuple_from_url u);
      reflexivity. }
  rewrite Hep. subst after. rewrite Hpop.
  destruct (if given (_ex_force_base_url self)
            then Ok (value_of (_ex_force_base_url self))
            else get_endpoint self2) as [u|e]; cbn [bind].
  - destruct (_tuple_from_url u) as [parts|e] eqn:Eu; cbn [fst snd bind].
    + repeat split; try reflexivity.
      * exists conn'. repeat split; assumption.
      * intros u' parts' [= <-] Hp'. rewrite Eu in Hp'.
        now injection Hp' as <-.
    + repeat split; try reflexivity.
      * exists conn'. repeat split; assumption.
      * intros u' parts' [= <-] Hp'. rewrite Eu in Hp'. discriminate.
  - repeat split; try reflexivity.
    + exists conn'. repeat split; assumption.
    + intros u' parts' Hu'. discriminate.
Qed.

End LazyAuthentication.

(** ** The cached token *)

Section Caching.
Import OpenStackAuthConnection AuthSpec.

Variable wire : nat -> Request -> Result Response.
Variable json_loads : string -> option pyval.
Variable json_dumps : pyval -> string.
Variable parse_date : pyval -> Result datetime.
Variable str_of_headers : dict string string -> string.

Local Abbreviation transport :=
  (ResponseObject.request_through json_loads wire).
Local Abbreviation authenticate :=
  (authenticate transport json_loads json_dumps parse_date str_of_headers).


End Caching.

(** ** Default headers and cache busting *)

Section Decoration.
Import OpenStackBaseConnection.

(** X13.  Every request carries the token of the connection and the
    accept format of its class:  [add_default_headers] binds
    [X-Auth-Token] and [Accept] to them, replacing what the caller had
    put there, and leaves every other header as it was; adding them
    again changes nothing. *)
Theorem default_headers_carry_token
        (headers : dict string pyval) (self : t) :
  dget (add_default_headers headers self) "X-Auth-Token"
  = Some (auth_token self) /\
  dget (add_default_headers headers self) "Accept"
  = Some (accept_format self) /\
  (forall name,
      name <> "X-Auth-Token"%string -> name <> "Accept"%string ->
      dget (add_default_headers headers self) name = dget headers name) /\
  add_default_headers (add_default_headers headers self) self
  = add_default_headers headers self.
Proof.
  unfold add_default_headers. cbv zeta. repeat split.
  - rewrite !dget_dset. reflexivity.
  - rewrite !dget_dset. reflexivity.
  - intros name N1 N2. rewrite !dget_dset.
    change (keqb ?a ?b) with (String.eqb a b).
    destruct (String.eqb_spec "Accept" name) as [E|_];
      [now elim N2|].
    destruct (String.eqb_spec "X-Auth-Token" name) as [E|_];
      [now elim N1 | reflexivity].
  - assert (Hsame : forall (d : dict string pyval) k v,
               dget d k = Some v -> dset d k v = d).
    { induction d as [|[k' v'] d IH]; intros k v Hg; simpl in *.
      - discriminate.
      - change (keqb k' k) with (String.eqb k' k) in *.
        destruct (String.eqb k' k).
        + now injection Hg as ->.
        + now rewrite IH. }
    rewrite (Hsame (dset (dset headers "X-Auth-Token" (auth_token self))
                      "Accept" (accept_format self))
               "X-Auth-Token" (auth_token self)).
    + apply Hsame. rewrite dget_dset. reflexivity.
    + rewrite !dget_dset. reflexivity.
Qed.

Lemma hexlify_length (bs : list Byte.byte) :
  String.length (hexlify bs) = (2 * List.length bs)%nat.
Proof. induction bs as [|b bs IH]; simpl; [reflexivity | rewrite IH; lia]. Qed.

Lemma hexlify_digits (bs : list Byte.byte) :
  forallb is_hex_digit (list_ascii_of_string (hexlify bs)) = true.
Proof.
  induction bs as [|b bs IH]; [reflexivity|].
  cbn [hexlify list_ascii_of_string forallb]. rewrite IH.
  destruct b; reflexivity.
Qed.

Lemma unhexlify_hexlify (bs : list Byte.byte) : unhexlify (hexlify bs) = bs.
Proof.
  induction bs as [|b bs IH]; [reflexivity|].
  cbn [hexlify unhexlify]. rewrite IH.
  destruct b; reflexivity.
Qed.

(** X14.  [_add_cache_busting_to_params] adds the parameter
    [cache-busting] with the 8 random bytes written as 16 hexadecimal
    digits in lower case, from which the bytes can be read back.  A dict
    gets it under that key, in place of an earlier value, its other
    parameters unchanged; a list gets it as its new last pair, and
    earlier [cache-busting] pairs stay; anything else raises. *)
Theorem cache_busting_adds_hex_token
        (urandom : nat -> list Byte.byte) :
  List.length (urandom 8%nat) = 8%nat ->
  let token := hexlify (urandom 8%nat) in
    String.length token = 16%nat /\
    forallb is_hex_digit (list_ascii_of_string token) = true /\
    unhexlify token = urandom 8%nat /\
    (forall d,
        exists d',
          _add_cache_busting_to_params urandom (ParamsDict d)
          = Ok (ParamsDict d') /\
          dget d' "cache-busting" = Some token /\
          (forall name, name <> "cache-busting"%string ->
                        dget d' name = dget d name) /\
          (dmem d "cache-busting" = true ->
           List.length d' = List.length d)) /\
    (forall l,
        _add_cache_busting_to_params urandom (ParamsList l)
        = Ok (ParamsList (l ++ [("cache-busting"%string, token)]))) /\
    _add_cache_busting_to_params urandom ParamsOther = Err PyAttributeError.
Proof.
  intros Hlen token. subst token.
  split; [rewrite hexlify_length, Hlen; reflexivity|].
  split; [apply hexlify_digits|].
  split; [apply unhexlify_hexlify|].
  split; [|split; [intros l|]; reflexivity].
  intros d. eexists. split; [reflexivity|].
  split; [rewrite dget_dset; reflexivity|]. split.
  - intros name Hn. rewrite dget_dset.
    change (keqb ?a ?b) with (String.eqb a b).
    destruct (String.eqb_spec "cache-busting" name) as [E|_];
      [now elim Hn | reflexivity].
  - intros Hmem.
    rewrite <- (length_map fst), <- (length_map fst d).
    change (map fst ?x) with (keys x). rewrite keys_dset, Hmem.
    reflexivity.
Qed.

End Decoration.

(** ** Samples *)

Section ConnectionSamples.
Import OpenStackBaseConnection ConnectionExamples.

(** A 2.0_password connection of the tenant [acme] sends its
    credentials and the tenant to [/v2.0/tokens]. *)
Lemma handshake_sends_credentials_witness :
  OpenStackAuthConnection.sent
    (snd (OpenStackAuthConnection.authenticate
            (AuthSpec.always (AuthSpec.answer 401 [] "")) AuthSpec.loads_never
            show AuthSpec.date_never AuthSpec.headers_blank true 0%Z
            (OpenStackAuthConnection.__init__ "https://auth.example"
               "2.0_password" "user" "key" (Some "acme"%string))))
  = [{| action := "/v2.0/tokens";
        data :=
          Some ("{auth:{passwordCredentials:{username:user,password:key,},"
                  ++ "tenantName:acme,},}")%string;
        req_headers := [("Content-Type", "application/json")]%string;
        method := "POST" |}].
Proof.
  exact (handshake_sends_credentials
           (AuthSpec.always (AuthSpec.answer 401 [] "")) AuthSpec.loads_never
           show AuthSpec.date_never AuthSpec.headers_blank
           (OpenStackAuthConnection.__init__ "https://auth.example"
              "2.0_password" "user" "key" (Some "acme"%string))
           true 0%Z
           (or_intror (or_intror (or_intror (or_intror
              (or_introl eq_refl)))))
           (or_introl eq_refl)).
Defined.


(** The index of [nova_catalog] has the DFW record under
    compute/nova/DFW and nothing under the region [None]. *)
Lemma get_catalog_files_every_endpoint_witness :
  exists c sc,
    OpenStackServiceCatalog.__init__ CatalogExamples.nova_catalog
      (Some "2.0"%string) = Ok c /\
    OpenStackServiceCatalog.get_catalog c
    = OpenStackServiceCatalog.IndexV2 sc /\
    getd (getd (getd sc (KStr "compute") []) (KStr "nova") [])
      (KStr "DFW") []
    = [CatalogExamples.endpoint_in "DFW" "https://dfw.example/v2"] /\
    getd (getd (getd sc (KStr "compute") []) (KStr "nova") []) KNone []
    = [].
Proof.
  eexists. eexists. split; [vm_compute; reflexivity|].
  split; [reflexivity|].
  pose proof (get_catalog_files_every_endpoint
                CatalogExamples.nova_catalog (Some "2.0"%string) _ eq_refl)
    as H.
  cbn [OpenStackServiceCatalog.get_catalog
         OpenStackServiceCatalog._service_catalog] in H.
  destruct H as [_ H]. split.
  - exact (H (KStr "compute") (KStr "nova") (KStr "DFW")).
  - exact (H (KStr "compute") (KStr "nova") KNone).
Defined.

(** The version 3.0 is refused; the list of a 2.0 catalog is not a
    1.1 catalog. *)
Lemma catalog_construction_errors_witness :
  OpenStackServiceCatalog.__init__ CatalogExamples.nova_catalog
    (Some "3.0"%string)
  = Err (LibcloudError ("auth version " ++ dquote ++ "3.0" ++ dquote
                          ++ " not supported")) /\
  OpenStackServiceCatalog.__init__ CatalogExamples.nova_catalog
    (Some "1.1"%string) = Err PyAttributeError.
Proof.
  split.
  - apply (proj1 (catalog_construction_errors CatalogExamples.nova_catalog));
      [discriminate | reflexivity | reflexivity | reflexivity].
  - refine (proj2 (proj2 (proj2 (proj2 (proj2
      (catalog_construction_errors CatalogExamples.nova_catalog)))))
      "1.1"%string _ _ eq_refl eq_refl eq_refl). discriminate.
Defined.

(** A token without a base URL is refused; with one the connection
    starts with the token, and with the version 2.0 that was forced. *)
Lemma base_init_outcome_witness :
  __init__ provider "user" "key" token_only
  = Err (LibcloudError
           ("Must also provide ex_force_base_url when specifying "
              ++ "ex_force_auth_token.")) /\
  exists self,
    __init__ provider "user" "key" forced_token = Ok self /\
    _auth_version self = "2.0"%string /\
    auth_token self = PyStr "tok".
Proof.
  split.
  - exact (proj1 (base_init_outcome provider "user" "key" token_only)
             eq_refl eq_refl).
  - destruct (proj2 (base_init_outcome provider "user" "key" forced_token)
                (or_intror eq_refl))
      as (self & Hinit & _ & Hforced & _ & Htoken & _).
    exists self. split; [exact Hinit|]. split; [|exact Htoken].
    specialize (Hforced eq_refl eq_refl). now injection Hforced.
Defined.

(** With the token [tok] and the base URL [https://api.example/v2] the
    connection resolves that URL and has no catalog. *)
Lemma forced_token_bypasses_authentication_witness :
  exists self,
    __init__ provider "user" "key" forced_token = Ok self /\
    connection_info
      (snd (_populate_hosts_and_request_paths
              (AuthSpec.always ResponseObject.denied_empty)
              AuthSpec.loads_never show AuthSpec.date_never
              AuthSpec.headers_blank split_url 0%Z self))
    = Some {| host := "https://api.example/v2"; port := 443;
              secure := true; request_path := "" |} /\
    fst (get_service_catalog
           (AuthSpec.always ResponseObject.denied_empty)
           AuthSpec.loads_never show AuthSpec.date_never
           AuthSpec.headers_blank split_url 0%Z self)
    = Ok None.
Proof.
  destruct (forced_token_bypasses_authentication
              (AuthSpec.always ResponseObject.denied_empty)
              AuthSpec.loads_never show AuthSpec.date_never
              AuthSpec.headers_blank split_url
              provider "user" "key" forced_token eq_refl eq_refl)
    as (self & Hinit & Hpop).
  exists self. split; [exact Hinit|].
  destruct (Hpop 0%Z) as (Hp & _ & Hcat). split.
  - rewrite Hp. reflexivity.
  - exact Hcat.
Defined.

(** A connection with a forced token keeps it at any later time. *)
Lemma populate_with_token_never_authenticates_witness :
  exists self,
    __init__ provider "user" "key" forced_token = Ok self /\
    auth_token
      (snd (_populate_hosts_and_request_paths
              (AuthSpec.always ResponseObject.denied_empty)
              AuthSpec.loads_never show AuthSpec.date_never
              AuthSpec.headers_blank split_url 9000000000%Z self))
    = PyStr "tok" /\
    _auth_connection
      (snd (_populate_hosts_and_request_paths
              (AuthSpec.always ResponseObject.denied_empty)
              AuthSpec.loads_never show AuthSpec.date_never
              AuthSpec.headers_blank split_url 9000000000%Z self))
    = None.
Proof.
  eexists. split; [reflexivity|].
  match goal with
  | |- auth_token (snd (_ _ _ _ _ _ _ _ ?s)) = _ /\ _ =>
      destruct (populate_with_token_never_authenticates
                  (AuthSpec.always ResponseObject.denied_empty)
                  AuthSpec.loads_never show AuthSpec.date_never
                  AuthSpec.headers_blank split_url s 9000000000%Z eq_refl)
        as (_ & _ & Hconn & Htoken & _)
  end.
  split; [exact Htoken | exact Hconn].
Defined.

(** The provider's connection finds the DFW endpoint of compute/nova in
    [nova_catalog]. *)
Lemma base_get_endpoint_public_url_witness :
  exists self c,
    __init__ provider "user" "key" no_options = Ok self /\
    OpenStackServiceCatalog.__init__ CatalogExamples.nova_catalog
      (Some "2.0"%string) = Ok c /\
    get_endpoint (set_service_catalog (Some c) self)
    = Ok (PyStr "https://dfw.example/v2").
Proof.
  eexists. eexists. split; [reflexivity|].
  split; [vm_compute; reflexivity|].
  match goal with
  | |- get_endpoint (set_service_catalog (Some ?c) ?s) = _ =>
      apply (proj1 (base_get_endpoint_public_url
                      (set_service_catalog (Some c) s)
                      CatalogExamples.nova_catalog (Some "2.0"%string) c
                      eq_refl eq_refl)
               (CatalogExamples.endpoint_in "DFW" "https://dfw.example/v2"))
  end; reflexivity.
Defined.

(** Two uses of a connection whose credentials are refused: two
    requests to [/v1.1/auth], and no token. *)
Lemma populate_retries_after_unauthorized_witness :
  exists self conn first second,
    __init__ provider "user" "key" no_options = Ok self /\
    _populate_hosts_and_request_paths
      (ResponseObject.request_through AuthSpec.loads_never
         (AuthSpec.always ResponseObject.denied_empty))
      AuthSpec.loads_never show AuthSpec.date_never AuthSpec.headers_blank
      split_url 60000000%Z
      (snd (_populate_hosts_and_request_paths
              (ResponseObject.request_through AuthSpec.loads_never
                 (AuthSpec.always ResponseObject.denied_empty))
              AuthSpec.loads_never show AuthSpec.date_never
              AuthSpec.headers_blank split_url 0%Z self))
    = (Err InvalidCredsError, set_auth_connection (Some conn) self) /\
    OpenStackAuthConnection.sent conn = [first; second] /\
    action first = "/v1.1/auth"%string /\
    action second = "/v1.1/auth"%string.
Proof.
  eexists. 
  match goal with
  | |- exists conn first second, __init__ _ _ _ _ = Ok ?s /\ _ =>
      assert (Hinit : __init__ provider "user" "key" no_options = Ok s)
        by reflexivity
  end.
  match type of Hinit with
  | _ = Ok ?s =>
      destruct (populate_retries_after_unauthorized
                  (AuthSpec.always ResponseObject.denied_empty)
                  AuthSpec.loads_never show AuthSpec.date_never
                  AuthSpec.headers_blank split_url
                  s "https://auth.example" ResponseObject.denied_empty
                  PyNone 0%Z 60000000%Z eq_refl eq_refl
                  (or_intror (conj eq_refl eq_refl))
                  (or_intror (or_introl eq_refl))
                  (fun _ _ => eq_refl) eq_refl eq_refl)
        as (first & second & _ & Hfirst & (conn & Hsecond & Hsent & _)
            & Hpath)
  end.
  exists conn, first, second.
  split; [exact Hinit|]. split; [exact Hsecond|]. split; [exact Hsent|].
  split; [exact Hfirst | exact Hpath].
Defined.


(** The first use of a 2.0 connection for compute/nova in DFW takes
    the token [abc] of the document and resolves the DFW endpoint of its
    catalog. *)
Lemma populate_2_0_takes_token_and_catalog_witness :
  exists self,
    __init__ provider "user" "key" version_2_0 = Ok self /\
    auth_token
      (snd (_populate_hosts_and_request_paths
              (ResponseObject.request_through (AuthSpec.loads_to access_doc)
                 (AuthSpec.always access_granted))
              (AuthSpec.loads_to access_doc) show
              (AuthSpec.date_at 3600000000%Z) AuthSpec.headers_blank
              split_url 0%Z self))
    = PyStr "abc" /\
    connection_info
      (snd (_populate_hosts_and_request_paths
              (ResponseObject.request_through (AuthSpec.loads_to access_doc)
                 (AuthSpec.always access_granted))
              (AuthSpec.loads_to access_doc) show
              (AuthSpec.date_at 3600000000%Z) AuthSpec.headers_blank
              split_url 0%Z self))
    = Some {| host := "https://dfw.example/v2"; port := 443;
              secure := true; request_path := "" |}.
Proof.
  eexists. split; [reflexivity|].
  match goal with
  | |- auth_token (snd (_ _ _ _ _ _ _ _ ?s)) = _ /\ _ =>
      destruct (OpenStackServiceCatalog.__init__ CatalogExamples.nova_catalog
                  (Some "2.0"%string)) as [c|e] eqn:Hc;
        [|discriminate Hc];
      destruct (populate_2_0_takes_token_and_catalog
                  (AuthSpec.always access_granted)
                  (AuthSpec.loads_to access_doc) show
                  (AuthSpec.date_at 3600000000%Z) AuthSpec.headers_blank
                  split_url
                  s "https://auth.example" access_granted access_doc
                  access_doc (PyStr "abc") CatalogExamples.nova_catalog
                  3600000000%Z c 0%Z
                  eq_refl eq_refl (or_intror (conj eq_refl eq_refl))
                  (or_introl eq_refl) (fun _ => eq_refl)
                  (or_introl eq_refl) eq_refl eq_refl eq_refl eq_refl
                  eq_refl Hc)
        as (Htoken & _ & _ & _ & _ & _ & Hinfo)
  end.
  split; [exact Htoken|].
  apply (Hinfo (PyStr "https://dfw.example/v2")); reflexivity.
Defined.

(** The random bytes [ab] eight times over give the parameter
    [abababababababab], the last pair of a list of parameters. *)
Lemma cache_busting_adds_hex_token_witness :
  _add_cache_busting_to_params steady (ParamsList [("limit", "10")]%string)
  = Ok (ParamsList [("limit", "10");
                    ("cache-busting", "abababababababab")]%string).
Proof.
  pose proof (cache_busting_adds_hex_token steady eq_refl) as H.
  cbv zeta in H. destruct H as (_ & _ & _ & _ & Hlist & _).
  rewrite Hlist. reflexivity.
Defined.

End ConnectionSamples.
